(** * Kronos dashboard: the forecast-ensemble-to-metric pipeline and its
      cycle orchestration, embedded from [core/pipeline.py], [core/engine.py],
      [core/model_manager.py], [core/data_source.py] and [main.py].

    Conventions of the embedding.
    - The prices of a frame are real numbers, and arithmetic on numbers is
      exact (no rounding).  The special values of float64 are kept: NaN
      comes from [shift], from [0/0], from the logarithm of a negative
      number and from a standard deviation over fewer than two values; an
      infinity comes from a division by zero and from the logarithm of
      zero.  A statistic of the pipeline is a [Pandas.float] (NaN or a
      number), an element of a series of returns a [Pandas.float64].
    - A Python [int] is a [Z]; slices follow Python's rules for negative
      and out-of-range bounds.
    - A character of a Python [str] is a code point below 256 (an [ascii]);
      [lower] and [strip] follow Python on that range.
    - A timestamp is a [Z], the number of nanoseconds since the epoch; a
      [Timestamp] cannot exceed [Pandas.timestamp_max].
    - A path is a [PurePosixPath].
    - An exception is a value of [exn]; a computation that may raise is in
      the error monad [res], and one that also talks to the outside world
      (data provider, model, renderer, publisher) is in the monad [M]. *)

From Stdlib Require Import ZArith List String Ascii Bool Reals Lra Lia Sorted.
From stdpp Require Import gmap strings.
Import ListNotations.

Local Open Scope Z_scope.

(** ** Exceptions and the error monad *)

Inductive exn : Type :=
| IndexError
| KeyError
| ValueError
| ZeroDivisionError
| AttributeError
| RuntimeError
| OverflowError
| OutOfBoundsDatetime
| ExternalError (origin : string).

Inductive res (A : Type) : Type :=
| Ok (a : A)
| Raise (e : exn).
Arguments Ok {A} a.
Arguments Raise {A} e.

Definition res_bind {A B} (r : res A) (k : A -> res B) : res B :=
  match r with
  | Ok a => k a
  | Raise e => Raise e
  end.

Declare Scope res_scope.
Delimit Scope res_scope with res.
Notation "x <~ c ; k" := (res_bind c (fun x => k))
  (at level 20, c at level 100, k at level 200, only parsing) : res_scope.
Notation "' x <~ c ; k" := (res_bind c (fun x => k))
  (at level 20, x pattern, c at level 100, k at level 200, only parsing) : res_scope.

(** [[f(x) for x in l]] for an [f] that may raise. *)
Fixpoint res_map {A B} (f : A -> res B) (l : list A) : res (list B) :=
  match l with
  | [] => Ok []
  | x :: l' => (y <~ f x; ys <~ res_map f l'; Ok (y :: ys))%res
  end.

(** ** Python built-ins *)

Module Py.

(** [str.lower()] on one character: the capital letters are A to Z and,
    above 127, U+00C0 to U+00DE without the multiplication sign U+00D7. *)
Definition lower_char (c : ascii) : ascii :=
  let n := nat_of_ascii c in
  if ((65 <=? n) && (n <=? 90)
      || (192 <=? n) && (n <=? 222) && negb (n =? 215))%nat
  then ascii_of_nat (n + 32) else c.

Fixpoint lower (s : string) : string :=
  match s with
  | EmptyString => EmptyString
  | String c s' => String (lower_char c) (lower s')
  end.

(** [c in s] for a one-character string [c]. *)
Fixpoint contains (c : ascii) (s : string) : bool :=
  match s with
  | EmptyString => false
  | String c' s' => Ascii.eqb c c' || contains c s'
  end.

(** The position a slice bound [i] denotes in a sequence of length [n]:
    negative bounds count from the end, and all bounds are clamped. *)
Definition bound (n : nat) (i : Z) : nat :=
  if i <? 0 then Z.to_nat (Z.max 0 (Z.of_nat n + i))
  else Nat.min (Z.to_nat i) n.

(** [l[i:]] *)
Definition slice_from {A} (i : Z) (l : list A) : list A :=
  skipn (bound (length l) i) l.

(** [l[:j]] *)
Definition slice_to {A} (j : Z) (l : list A) : list A :=
  firstn (bound (length l) j) l.

(** [l[-1]] *)
Definition item_last {A} (l : list A) : res A :=
  match rev l with
  | [] => Raise IndexError
  | x :: _ => Ok x
  end.

(** Whitespace as [str.strip()] sees it: the ASCII blanks and separators,
    the next-line control U+0085 and the no-break space U+00A0. *)
Definition is_space (c : ascii) : bool :=
  let n := nat_of_ascii c in
  ((9 <=? n) && (n <=? 13) || (28 <=? n) && (n <=? 32)
   || (n =? 133) || (n =? 160))%nat.

Fixpoint lstrip (s : string) : string :=
  match s with
  | EmptyString => EmptyString
  | String c s' => if is_space c then lstrip s' else s
  end.

Fixpoint rstrip (s : string) : string :=
  match s with
  | EmptyString => EmptyString
  | String c s' =>
      match rstrip s' with
      | EmptyString => if is_space c then EmptyString else String c EmptyString
      | r => String c r
      end
  end.

Definition strip (s : string) : string := rstrip (lstrip s).

(** [s.split(sep)] for a one-character separator: the field being read
    is [cur], and a final field is always produced. *)
Fixpoint split_aux (sep : ascii) (cur : string) (s : string) : list string :=
  match s with
  | EmptyString => [cur]
  | String c s' =>
      if Ascii.eqb c sep then cur :: split_aux sep EmptyString s'
      else split_aux sep (cur ++ String c EmptyString)%string s'
  end.

Definition split (sep : ascii) (s : string) : list string :=
  split_aux sep EmptyString s.

End Py.

(** ** The pandas and NumPy operations the pipeline uses *)

Module Pandas.

(** A float that is not infinite: NaN or a number. *)
Definition float : Type := option R.
Definition NaN : float := None.

(** An element of a float64 series: NaN, an infinity or a number. *)
Inductive float64 : Type :=
| F_nan
| F_inf (positive : bool)
| F_num (x : R).

Definition Rgtb (x y : R) : bool := if Rgt_dec x y then true else false.

(** [a > b] on floats: false as soon as one side is NaN. *)
Definition gt (a b : float) : bool :=
  match a, b with
  | Some x, Some y => Rgtb x y
  | _, _ => false
  end.

(** [a / b] element by element in a series: a division by zero gives an
    infinity with the sign of [a], and [0 / 0] gives NaN. *)
Definition fdiv (a b : float) : float64 :=
  match a, b with
  | Some x, Some y =>
      if Req_dec_T y 0 then
        if Rlt_dec 0 x then F_inf true
        else if Rlt_dec x 0 then F_inf false
        else F_nan
      else F_num (x / y)%R
  | _, _ => F_nan
  end.

(** [np.log]: minus infinity at zero, NaN below zero. *)
Definition flog (a : float64) : float64 :=
  match a with
  | F_nan => F_nan
  | F_inf true => F_inf true
  | F_inf false => F_nan
  | F_num x =>
      if Rlt_dec 0 x then F_num (ln x)
      else if Req_dec_T x 0 then F_inf false
      else F_nan
  end.

(** [Series.shift(1)]: same length, NaN in front, last value dropped. *)
Definition shift1 (s : list float) : list float :=
  match s with
  | [] => []
  | _ :: _ => NaN :: removelast s
  end.

(** [np.log(s / s.shift(1))] *)
Definition log_returns (s : list R) : list float64 :=
  let s' := map Some s in
  map flog (zip_with fdiv s' (shift1 s')).

Definition dropna (s : list float) : list R :=
  flat_map (fun x => match x with Some v => [v] | None => [] end) s.

Definition fsum (l : list R) : R := fold_right Rplus 0%R l.

Definition fmean (l : list R) : R := (fsum l / INR (length l))%R.

(** [Series.std()] of a series without infinite value: NaN are skipped,
    one degree of freedom is removed, and fewer than two values give NaN. *)
Definition std (s : list float) : float :=
  let xs := dropna s in
  let n := length xs in
  if (n <=? 1)%nat then NaN
  else
    let avg := fmean xs in
    Some (sqrt (fsum (map (fun x => (avg - x) ^ 2)%R xs) / INR (n - 1))).

Definition is_inf (a : float64) : bool :=
  match a with F_inf _ => true | _ => false end.

Definition finite (a : float64) : float :=
  match a with F_num x => Some x | _ => NaN end.

(** [Series.std()] of any float64 series: an infinite value is not
    skipped; it makes the mean infinite or NaN, and the deviation NaN. *)
Definition std64 (s : list float64) : float :=
  if existsb is_inf s then NaN else std (map finite s).

(** [Series.mean()] of a boolean series: NaN on an empty one. *)
Definition mean_bool (s : list bool) : float :=
  match s with
  | [] => NaN
  | _ :: _ => Some (INR (length (List.filter (fun b : bool => b) s)) / INR (length s))%R
  end.

(** [Series.iloc[-w:]] *)
Definition iloc_from {A} (i : Z) (s : list A) : list A := Py.slice_from i s.

(** [Series.iloc[-1]] *)
Definition iloc_last {A} (s : list A) : res A := Py.item_last s.

(** [DataFrame.tail(n)] on the rows of a frame. *)
Definition tail {A} (n : Z) (rows : list A) : list A :=
  if n =? 0 then [] else Py.slice_from (- n) rows.

(** [Series.max()] of a timestamp column: NaT ([None]) on an empty one. *)
Definition max_timestamp (s : list Z) : option Z :=
  match s with
  | [] => None
  | t :: s' => Some (fold_left Z.max s' t)
  end.

(** The latest [Timestamp]: an int64 count of nanoseconds. *)
Definition timestamp_max : Z := 9223372036854775807.

(** [t + td] for a timestamp and a positive [Timedelta] or [timedelta]:
    a sum after the latest timestamp raises. *)
Definition timestamp_add (t td : Z) : res Z :=
  if t + td <=? timestamp_max then Ok (t + td) else Raise OutOfBoundsDatetime.

(** The same for what [Series.max()] returns: NaT stays NaT. *)
Definition add_timedelta (t : option Z) (td : Z) : res (option Z) :=
  match t with
  | None => Ok None
  | Some t => (t' <~ timestamp_add t td; Ok (Some t'))%res
  end.

(** [pd.date_range(start=start, periods=periods, freq=step)] for a positive
    step: NaT as start is refused first, then a negative number of
    periods, then a range whose last timestamp is out of bounds. *)
Definition date_range (start : option Z) (periods : Z) (step : Z) : res (list Z) :=
  match start with
  | None => Raise ValueError
  | Some t0 =>
      if periods <? 0 then Raise OverflowError
      else if (0 <? periods) && negb (t0 + (periods - 1) * step <=? timestamp_max)
      then Raise OutOfBoundsDatetime
      else Ok (map (fun k => t0 + Z.of_nat k * step) (seq 0 (Z.to_nat periods)))
  end.

End Pandas.

(** ** Data model *)

(** One row of the canonical frame a data source returns
    ([core/data_loader.py], [_process_market_data]). *)
Record Bar : Type := {
  timestamps : Z;
  open : R;
  high : R;
  low : R;
  close : R;
  volume : R;
  amount : R;
}.

(** A frame of predictions as the predictor returns it: one row per step
    of the horizon, one column per sampled path.  Every column has
    [n_rows] values in a well-formed frame. *)
Record PredFrame : Type := {
  n_rows : nat;
  columns : list (list R);
}.

Definition wf_frame (f : PredFrame) : Prop :=
  Forall (fun col => length col = n_rows f) (columns f).

(** [frame.iloc[-1]]: the last row, one value per column. *)
Definition row_last (f : PredFrame) : res (list R) :=
  match n_rows f with
  | O => Raise IndexError
  | S _ => Ok (map (fun col => List.last col 0%R) (columns f))
  end.

(** ** [pathlib] *)

Module Pathlib.

(** A [PurePosixPath]: its root (empty for a relative path, else one or
    two slashes) and its components. *)
Record Path : Type := {
  root : string;
  parts : list string;
}.

Definition relative (parts : list string) : Path :=
  {| root := EmptyString; parts := parts |}.

Definition is_sep (c : ascii) : bool := Ascii.eqb c "/".

Fixpoint lstrip_sep (s : string) : string :=
  match s with
  | String c s' => if is_sep c then lstrip_sep s' else s
  | EmptyString => s
  end.

(** The root of a path string and what follows it: exactly two leading
    slashes are a root of their own. *)
Definition splitroot (s : string) : string * string :=
  match s with
  | String c1 rest1 =>
      if is_sep c1 then
        match rest1 with
        | String c2 rest2 =>
            if is_sep c2 then
              match rest2 with
              | String c3 _ =>
                  if is_sep c3 then ("/", lstrip_sep s) else ("//", rest2)
              | EmptyString => ("//", rest2)
              end
            else ("/", rest1)
        | EmptyString => ("/", rest1)
        end
      else ("", s)
  | EmptyString => ("", s)
  end%string.

(** Empty components and [.] are dropped when a path is parsed. *)
Definition is_component (s : string) : bool :=
  negb (String.eqb s "") && negb (String.eqb s ".").

(** [PurePosixPath(s)] *)
Definition of_string (s : string) : Path :=
  let '(r, rel) := splitroot s in
  {| root := r; parts := List.filter is_component (Py.split "/" rel) |}.

(** [p / s]: a rooted [s] replaces [p]. *)
Definition joinpath (p : Path) (s : string) : Path :=
  let q := of_string s in
  if String.eqb (root q) "" then {| root := root p; parts := parts p ++ parts q |}
  else q.

Fixpoint strip_prefix (base p : list string) : option (list string) :=
  match base, p with
  | [], _ => Some p
  | b :: base', c :: p' => if String.eqb b c then strip_prefix base' p' else None
  | _ :: _, [] => None
  end.

(** [p.relative_to(base)] *)
Definition relative_to (p base : Path) : res Path :=
  if String.eqb (root p) (root base) then
    match strip_prefix (parts base) (parts p) with
    | Some rest => Ok (relative rest)
    | None => Raise ValueError
    end
  else Raise ValueError.

(** [str(p)] *)
Definition str (p : Path) : string :=
  match root p, parts p with
  | EmptyString, [] => "."
  | r, ps => r ++ String.concat "/" ps
  end%string.

End Pathlib.

Declare Scope path_scope.
Delimit Scope path_scope with path.
Notation "p / s" := (Pathlib.joinpath p s) : path_scope.

(** [ForecastResult] of [core/engine.py]; [chart_path] is [None] when
    [create_plot] returned [None]. *)
Record ForecastResult : Type := {
  upside_prob : Pandas.float;
  vol_amp_prob : Pandas.float;
  chart_path : option Pathlib.Path;
}.

(** One value of the [metrics] dictionary of [main.py]. *)
Record Entry : Type := {
  e_upside_prob : Pandas.float;
  e_vol_amp_prob : Pandas.float;
  e_chart_path : string;
}.

(** [CommonConfig] of [core/config.py]. *)
Record CommonConfig : Type := {
  pred_horizon : Z;
  n_predictions : Z;
  hist_points : Z;
  vol_window : Z;
  update_interval_minutes : Z;
}.

(** ** The outside world *)

(** What the process asks of its collaborators, in order, each with how
    it went: [ok] is false when the call raised, and for a fetch when it
    returned [None]. *)
Inductive Event : Type :=
| EvLoad (ok : bool)
| EvFetch (source symbol interval : string) (limit : Z) (ok : bool)
| EvPredict (x : list Bar) (y_timestamp : list Z) (pred_len : Z)
    (T top_p : R) (sample_count : Z) (ok : bool)
| EvPlot (symbol : string) (ok : bool)
| EvUpdate (metrics : gmap string Entry) (ok : bool).

Definition is_ok {A} (r : res A) : bool :=
  match r with Ok _ => true | Raise _ => false end.

Definition is_some {A} (o : option A) : bool :=
  match o with Some _ => true | None => false end.

(** The collaborators, each a transition of an abstract world: the
    Hugging Face download behind [ModelManager.load], the predictor of the
    [model] package, the fetch functions of [core/data_loader.py] (which
    catch every exception and return [None]), the drawing and saving of a
    figure inside [create_plot], the template rendering of
    [WebGenerator.update], and the listing of the charts directory
    ([None] when it does not exist, else the stems of its [*.png], which
    are file names).  [repo_path] holds the components of the resolved
    directory of [main.py]. *)
Record Env : Type := {
  World : Type;
  Predictor : Type;
  from_pretrained : World -> res Predictor * World;
  predict : Predictor -> list Bar -> list Z -> Z -> R -> R -> Z ->
            World -> res (PredFrame * PredFrame) * World;
  fetch_func : string -> string -> string -> Z -> World -> option (list Bar) * World;
  savefig : list Bar -> PredFrame -> PredFrame -> string -> Z -> string ->
            World -> res unit * World;
  render_template : gmap string Entry -> World -> res Pathlib.Path * World;
  glob_png : World -> option (list string);
  repo_path : list string;
}.

Section Program.

Context {E : Env}.

(** The mutable state of one process: the two fields of the application
    and of its model manager that change, the world, and the events so
    far (oldest first). *)
Record St : Type := {
  model_loaded : bool;
  artifacts : option (Predictor E);
  world : World E;
  trace : list Event;
}.

Definition M (A : Type) : Type := St -> res A * St.

Definition ret {A} (a : A) : M A := fun st => (Ok a, st).

Definition bind {A B} (m : M A) (k : A -> M B) : M B :=
  fun st =>
    match m st with
    | (Ok a, st') => k a st'
    | (Raise e, st') => (Raise e, st')
    end.

Definition lift {A} (r : res A) : M A := fun st => (r, st).

(** [try: body except Exception as e: handler(e)] *)
Definition try_except {A} (body : M A) (handler : exn -> M A) : M A :=
  fun st =>
    match body st with
    | (Ok a, st') => (Ok a, st')
    | (Raise e, st') => handler e st'
    end.

(** One call to a collaborator: the world moves and the call is logged
    with its outcome. *)
Definition call {A} (ev : A -> Event) (f : World E -> A * World E) : M A :=
  fun st =>
    let '(a, w) := f (world st) in
    (Ok a, {| model_loaded := model_loaded st; artifacts := artifacts st;
              world := w; trace := trace st ++ [ev a] |}).

(** A call that may raise: the exception goes on to the caller. *)
Definition call_res {A} (ev : bool -> Event) (f : World E -> res A * World E) : M A :=
  bind (call (fun r => ev (is_ok r)) f) lift.

Definition set_model_loaded (b : bool) : M unit :=
  fun st => (Ok tt, {| model_loaded := b; artifacts := artifacts st;
                       world := world st; trace := trace st |}).

Definition set_artifacts (a : option (Predictor E)) : M unit :=
  fun st => (Ok tt, {| model_loaded := model_loaded st; artifacts := a;
                       world := world st; trace := trace st |}).

Definition get_model_loaded : M bool := fun st => (Ok (model_loaded st), st).
Definition get_artifacts : M (option (Predictor E)) := fun st => (Ok (artifacts st), st).
Definition get_world : M (World E) := fun st => (Ok (world st), st).

End Program.

Arguments St : clear implicits.
Arguments M : clear implicits.

Declare Scope M_scope.
Delimit Scope M_scope with M.
Notation "x <~ c ; k" := (bind c (fun x => k))
  (at level 20, c at level 100, k at level 200, only parsing) : M_scope.
Notation "' x <~ c ; k" := (bind c (fun x => k))
  (at level 20, x pattern, c at level 100, k at level 200, only parsing) : M_scope.
Notation "c ;; k" := (bind c (fun _ => k))
  (at level 100, k at level 200, right associativity, only parsing) : M_scope.

(** ** [core/pipeline.py] *)

Module Pipeline.

Import Pandas.

Inductive Freq : Type := FreqD | FreqH | FreqMin.

Definition nanoseconds (f : Freq) : Z :=
  match f with
  | FreqD => 86400 * 1000000000
  | FreqH => 3600 * 1000000000
  | FreqMin => 60 * 1000000000
  end.

(** Lines 11-19 of [make_prediction]: the step of the future axis. *)
Definition freq_of_interval (interval : string) : Freq :=
  if Py.contains "d" (Py.lower interval) then FreqD
  else if Py.contains "h" (Py.lower interval) then FreqH
  else FreqMin.

(** Lines 9-27 of [make_prediction]: the future axis [y_timestamp]. *)
Definition y_timestamp (df : list Bar) (pred_horizon : Z) (interval : string)
  : res (list Z) :=
  (let last_timestamp := max_timestamp (map timestamps df) in
   let freq := freq_of_interval interval in
   let td := nanoseconds freq in
   start_new_range <~ add_timedelta last_timestamp td;
   date_range start_new_range pred_horizon (nanoseconds freq))%res.

(** [hist_log_returns.iloc[-vol_window:].std()] *)
Definition historical_vol (hist_df : list Bar) (vol_window : Z) : float :=
  let hist_log_returns := log_returns (map close hist_df) in
  std64 (iloc_from (- vol_window) hist_log_returns).

(** The body of the loop over the columns of the volatility frame. *)
Definition predicted_vol (last_close : R) (col : list R) : float :=
  let full_sequence := last_close :: col in
  let pred_log_returns := log_returns full_sequence in
  std64 pred_log_returns.

Definition amplification_count (last_close : R) (historical_vol : float)
    (cols : list (list R)) : nat :=
  fold_left
    (fun count col =>
       if gt (predicted_vol last_close col) historical_vol then S count else count)
    cols O.

(** Python's [a / b] on two non-negative integers. *)
Definition true_div (a b : nat) : res float :=
  match b with
  | O => Raise ZeroDivisionError
  | S _ => Ok (Some (INR a / INR b)%R)
  end.

Definition calculate_metrics (hist_df : list Bar)
    (close_preds_df v_close_preds_df : PredFrame) (vol_window : Z)
  : res (float * float) :=
  (last_close <~ iloc_last (map close hist_df);
   final_hour_preds <~ row_last close_preds_df;
   let upside_prob := mean_bool (map (fun p => Rgtb p last_close) final_hour_preds) in
   let historical_vol := historical_vol hist_df vol_window in
   let amplification_count :=
     amplification_count last_close historical_vol (columns v_close_preds_df) in
   vol_amp_prob <~ true_div amplification_count (length (columns v_close_preds_df));
   Ok (upside_prob, vol_amp_prob))%res.

Section WithWorld.

Context {E : Env}.

Definition make_prediction (df : list Bar) (predictor : Predictor E)
    (pred_horizon n_predictions : Z) (interval : string)
  : M E (PredFrame * PredFrame * PredFrame) :=
  (y_timestamp <~ lift (y_timestamp df pred_horizon interval);
   '(close_preds_main, volume_preds_main) <~
      call_res (EvPredict df y_timestamp pred_horizon (6/10) (9/10) n_predictions)
        (predict E predictor df y_timestamp pred_horizon (6/10)%R (9/10)%R
           n_predictions);
   '(close_preds_volatility, _) <~
      call_res (EvPredict df y_timestamp pred_horizon (9/10) (9/10) n_predictions)
        (predict E predictor df y_timestamp pred_horizon (9/10)%R (9/10)%R
           n_predictions);
   ret (close_preds_main, volume_preds_main, close_preds_volatility))%M.

(** [repo_path], an absolute path. *)
Definition repo : Pathlib.Path := {| Pathlib.root := "/"; Pathlib.parts := repo_path E |}.

(** [chart_dir / f'{symbol}.png'] *)
Definition chart_file (symbol : string) : Pathlib.Path :=
  let chart_dir := (repo / "docs" / "static" / "chart")%path in
  (chart_dir / (symbol ++ ".png")%string)%path.

(** The whole body of [create_plot] is under [try]; whatever it raises
    is printed and turned into [None]. *)
Definition create_plot (hist_df : list Bar)
    (close_preds_df volume_preds_df : PredFrame) (symbol : string)
    (pred_horizon : Z) (interval : string) : M E (option Pathlib.Path) :=
  try_except
    (call_res (EvPlot symbol)
       (savefig E hist_df close_preds_df volume_preds_df symbol
          pred_horizon interval);;
     ret (Some (chart_file symbol)))%M
    (fun _ => ret None).

End WithWorld.

End Pipeline.

(** ** [core/engine.py] *)

Module Engine.

(** The three frames [run_for_symbol] cuts out of what was fetched. *)

(** [df_full.iloc[:-1]] *)
Definition df_for_model (df_full : list Bar) : list Bar :=
  Py.slice_to (-1) df_full.

(** [df_for_model.tail(hist_points)] *)
Definition hist_df_for_plot (df_full : list Bar) (hist_points : Z) : list Bar :=
  Pandas.tail hist_points (df_for_model df_full).

(** [df_for_model.tail(vol_window)] *)
Definition hist_df_for_metrics (df_full : list Bar) (vol_window : Z) : list Bar :=
  Pandas.tail vol_window (df_for_model df_full).

Section WithWorld.

Context {E : Env}.

Definition run_for_symbol (df_full : option (list Bar)) (predictor : Predictor E)
    (symbol : string) (pred_horizon n_predictions hist_points vol_window : Z)
    (interval : string) : M E (option ForecastResult) :=
  match df_full with
  | None | Some [] => ret None
  | Some df_full =>
      ('(close_preds, volume_preds, v_close_preds) <~
          Pipeline.make_prediction (df_for_model df_full) predictor pred_horizon
            n_predictions interval;
       '(upside_prob, vol_amp_prob) <~
          lift (Pipeline.calculate_metrics (hist_df_for_metrics df_full vol_window)
                  close_preds v_close_preds vol_window);
       chart_path <~
          Pipeline.create_plot (hist_df_for_plot df_full hist_points) close_preds
            volume_preds symbol pred_horizon interval;
       ret (Some {| upside_prob := upside_prob; vol_amp_prob := vol_amp_prob;
                    chart_path := chart_path |}))%M
  end.

End WithWorld.
End Engine.

(** ** [core/model_manager.py] *)

Module ModelManager.
Section WithWorld.

Context {E : Env}.

Definition load : M E (Predictor E) :=
  (predictor <~ call_res EvLoad (from_pretrained E);
   set_artifacts (Some predictor);;
   ret predictor)%M.

Definition predictor : M E (Predictor E) :=
  (a <~ get_artifacts;
   match a with
   | None => lift (Raise RuntimeError)
   | Some p => ret p
   end)%M.

End WithWorld.
End ModelManager.

(** ** [core/data_source.py] *)

Module DataSourceManager.
Section WithWorld.

Context {E : Env}.

Definition sources : list string := ["binance"; "akshare"]%string.

Definition available : list string := sources.

Definition has (name : string) : bool := existsb (String.eqb name) sources.

Definition fetch (name symbol interval : string) (limit : Z)
  : M E (option (list Bar)) :=
  if has name then
    call (fun df => EvFetch name symbol interval limit (is_some df))
      (fetch_func E name symbol interval limit)
  else lift (Raise KeyError).

End WithWorld.
End DataSourceManager.

(** ** [core/web_generator.py] *)

Module WebGenerator.
Section WithWorld.

Context {E : Env}.

Definition update (metrics : gmap string Entry) : M E Pathlib.Path :=
  call_res (EvUpdate metrics) (render_template E metrics).

End WithWorld.
End WebGenerator.

(** ** [main.py] *)

Module App.
Section WithWorld.

Context {E : Env}.

(** What [__init__] fixes for the life of the process: the command-line
    flag, the parsed configuration file (section, then key) and its
    [common] section. *)
Variable mock : bool.
Variable config : gmap string (gmap string string).
Variable common_config : CommonConfig.

(** [KronosForecastingApp.__init__]: nothing is loaded yet. *)
Definition init (w : World E) : St E :=
  {| model_loaded := false; artifacts := None; world := w; trace := [] |}.

(** [for x in l: acc = body(acc, x)] *)
Fixpoint for_each {A S : Type} (body : S -> A -> M E S) (l : list A) (acc : S)
  : M E S :=
  match l with
  | [] => ret acc
  | x :: l' => (acc' <~ body acc x; for_each body l' acc')%M
  end.

(** [section[key]] *)
Definition getitem (section : gmap string string) (key : string) : res string :=
  match section !! key with
  | Some v => Ok v
  | None => Raise KeyError
  end.

Definition _ensure_model_loaded : M E unit :=
  (loaded <~ get_model_loaded;
   if negb loaded && negb mock then
     (ModelManager.load;;
      set_model_loaded true)
   else ret tt)%M.

Definition mock_entry (symbol : string) : Entry :=
  {| e_upside_prob := Some (5/10)%R;
     e_vol_amp_prob := Some (5/10)%R;
     e_chart_path :=
       Pathlib.str (Pathlib.relative ["static"; "chart"; symbol ++ ".png"]%string) |}.

Definition _run_mock_mode : M E (gmap string Entry) :=
  (w <~ get_world;
   match glob_png E w with
   | None => ret ∅
   | Some chart_files =>
       ret (fold_left (fun metrics symbol => <[symbol := mock_entry symbol]> metrics)
              chart_files ∅)
   end)%M.

(** The body of the inner loop of [_run_inference_mode]; returning the
    dictionary unchanged is [continue] or the [else] branch. *)
Definition forecast_symbol (source_name interval : string) (predictor : Predictor E)
    (metrics : gmap string Entry) (symbol : string) : M E (gmap string Entry) :=
  (let total_points := hist_points common_config + vol_window common_config in
   df_full <~ DataSourceManager.fetch source_name symbol interval total_points;
   match df_full with
   | None | Some [] => ret metrics
   | Some _ =>
       result <~ Engine.run_for_symbol df_full predictor symbol
                   (pred_horizon common_config) (n_predictions common_config)
                   (hist_points common_config) (vol_window common_config) interval;
       match result with
       | Some result =>
           match chart_path result with
           | None => lift (Raise AttributeError)
           | Some p =>
               rel <~ lift (Pathlib.relative_to p (Pipeline.repo (E := E) / "docs")%path);
               ret (<[symbol := {| e_upside_prob := upside_prob result;
                                   e_vol_amp_prob := vol_amp_prob result;
                                   e_chart_path := Pathlib.str rel |}]> metrics)
           end
       | None => ret metrics
       end
   end)%M.

(** The body of the outer loop of [_run_inference_mode]. *)
Definition forecast_source (predictor : Predictor E)
    (metrics : gmap string Entry) (source_name : string) : M E (gmap string Entry) :=
  match config !! source_name with
  | None => ret metrics
  | Some source_config =>
      (symbols <~ lift (getitem source_config "symbols");
       let symbols := map Py.strip (Py.split "," symbols) in
       interval <~ lift (getitem source_config "interval");
       for_each (forecast_symbol source_name interval predictor) symbols metrics)%M
  end.

Definition _run_inference_mode : M E (gmap string Entry) :=
  (_ensure_model_loaded;;
   predictor <~ ModelManager.predictor;
   for_each (forecast_source predictor) DataSourceManager.available ∅)%M.

Definition run_forecast : M E bool :=
  try_except
    (metrics <~ (if mock then _run_mock_mode else _run_inference_mode);
     if decide (metrics = ∅) then ret false
     else
       (output_path <~ WebGenerator.update metrics;
        ret true))%M
    (fun _ => ret false).

(** [run_scheduler], cut after [ticks] due jobs: each one is a call of
    [run_forecast] whose result the scheduler drops. *)
Fixpoint run_scheduler (ticks : nat) : M E unit :=
  match ticks with
  | O => ret tt
  | S n => (run_forecast;; run_scheduler n)%M
  end.

(** The run-once branch of [main]: the exit code of the process. *)
Definition main : M E Z :=
  (success <~ run_forecast;
   ret (if success : bool then 0 else 1))%M.

End WithWorld.
End App.

(** ** A scripted world

    Each collaborator answers with the head of its own list and drops it;
    a collaborator whose list is used up fails.  The charts directory is
    fixed.  This is the world the examples below run in. *)

Module Scripted.

Record Script : Type := {
  loads : list bool;
  fetches : list (option (list Bar));
  predictions : list (option (PredFrame * PredFrame));
  plots : list bool;
  renders : list bool;
  charts : option (list string);
}.

Definition from_pretrained (w : Script) : res unit * Script :=
  let w' := {| loads := List.tl (loads w); fetches := fetches w;
               predictions := predictions w; plots := plots w;
               renders := renders w; charts := charts w |} in
  match loads w with
  | true :: _ => (Ok tt, w')
  | _ => (Raise (ExternalError "from_pretrained"), w')
  end.

Definition fetch_func (_ _ _ : string) (_ : Z) (w : Script)
  : option (list Bar) * Script :=
  let w' := {| loads := loads w; fetches := List.tl (fetches w);
               predictions := predictions w; plots := plots w;
               renders := renders w; charts := charts w |} in
  match fetches w with
  | df :: _ => (df, w')
  | [] => (None, w')
  end.

Definition predict (_ : unit) (_ : list Bar) (_ : list Z) (_ : Z) (_ _ : R) (_ : Z)
    (w : Script) : res (PredFrame * PredFrame) * Script :=
  let w' := {| loads := loads w; fetches := fetches w;
               predictions := List.tl (predictions w); plots := plots w;
               renders := renders w; charts := charts w |} in
  match predictions w with
  | Some frames :: _ => (Ok frames, w')
  | _ => (Raise (ExternalError "predict"), w')
  end.

Definition savefig (_ : list Bar) (_ _ : PredFrame) (_ : string) (_ : Z) (_ : string)
    (w : Script) : res unit * Script :=
  let w' := {| loads := loads w; fetches := fetches w;
               predictions := predictions w; plots := List.tl (plots w);
               renders := renders w; charts := charts w |} in
  match plots w with
  | true :: _ => (Ok tt, w')
  | _ => (Raise (ExternalError "savefig"), w')
  end.

Definition render_template (_ : gmap string Entry) (w : Script)
  : res Pathlib.Path * Script :=
  let w' := {| loads := loads w; fetches := fetches w;
               predictions := predictions w; plots := plots w;
               renders := List.tl (renders w); charts := charts w |} in
  match renders w with
  | true :: _ =>
      (Ok {| Pathlib.root := "/";
             Pathlib.parts := ["srv"; "kronos"; "docs"; "index.html"]%string |}, w')
  | _ => (Raise (ExternalError "render_template"), w')
  end.

Definition env : Env :=
  Build_Env Script unit from_pretrained predict fetch_func savefig render_template charts
    ["srv"; "kronos"]%string.

(** A bar whose prices all equal [c]. *)
Definition bar_at (t : Z) (c : R) : Bar :=
  {| timestamps := t; open := c; high := c; low := c; close := c;
     volume := 1; amount := c |}.

(** Four hourly bars, and a one-path, two-step forecast. *)
Definition four_bars : list Bar :=
  [bar_at 0 1; bar_at 3600000000000 1; bar_at 7200000000000 1;
   bar_at 10800000000000 1].

Definition one_path : PredFrame := {| n_rows := 2; columns := [[1; 2]%R] |}.

(** One source, [binance], with the instruments [AAA] and [BBB]. *)
Definition two_symbols : gmap string (gmap string string) :=
  {[ "binance"%string :=
       {[ "symbols"%string := "AAA, BBB"%string; "interval"%string := "1h"%string ]} ]}.

Definition small_config : CommonConfig :=
  {| pred_horizon := 2; n_predictions := 1; hist_points := 2; vol_window := 2;
     update_interval_minutes := 60 |}.

End Scripted.

(** * Vocabulary of the properties *)

(** ** Interval labels *)

(** The character [c] occurs in [s]. *)
Definition has_char (c : ascii) (s : string) : Prop :=
  exists s1 s2, s = (s1 ++ String c s2)%string.

Definition day_token (label : string) : Prop :=
  has_char "d" label \/ has_char "D" label.

Definition hour_token (label : string) : Prop :=
  has_char "h" label \/ has_char "H" label.

(** ** Paths and returns *)

(** The value of a path at the last step of the horizon. *)
Definition final_value (path : list R) : R := List.last path 0%R.

(** How many paths end strictly above [last_close]. *)
Definition paths_above (last_close : R) (paths : list (list R)) : nat :=
  length (List.filter (fun path => Pandas.Rgtb (final_value path) last_close) paths).

(** The log returns [ln(close[t] / close[t-1])] of a series of closes,
    oldest first: one fewer than there are closes. *)
Fixpoint returns_from (prev : R) (closes : list R) : list R :=
  match closes with
  | [] => []
  | c :: closes' => ln (c / prev) :: returns_from c closes'
  end.

Definition log_return_series (closes : list R) : list R :=
  match closes with
  | [] => []
  | c :: closes' => returns_from c closes'
  end.

(** The [n] most recent values of a series. *)
Definition most_recent {A} (n : nat) (l : list A) : list A :=
  skipn (length l - n) l.

(** A path has volatility when its predicted volatility is defined and is
    not zero. *)
Definition has_volatility (last_close : R) (path : list R) : bool :=
  match Pipeline.predicted_vol last_close path with
  | Some pv => if Req_dec_T pv 0 then false else true
  | None => false
  end.

(** ** Traces *)

(** Which collaborator an event is a call to. *)
Inductive Kind : Type := KLoad | KFetch | KPredict | KPlot | KUpdate.

Definition kind_of (ev : Event) : Kind :=
  match ev with
  | EvLoad _ => KLoad
  | EvFetch _ _ _ _ _ => KFetch
  | EvPredict _ _ _ _ _ _ _ => KPredict
  | EvPlot _ _ => KPlot
  | EvUpdate _ _ => KUpdate
  end.

(** A call to the oracle that raised. *)
Definition failed_predict (ev : Event) : bool :=
  match ev with
  | EvPredict _ _ _ _ _ _ ok => negb ok
  | _ => false
  end.

Definition not_predict (k : Kind) : bool :=
  match k with KPredict => false | _ => true end.

Definition not_update (k : Kind) : bool :=
  match k with KUpdate => false | _ => true end.

Definition not_load (k : Kind) : bool :=
  match k with KLoad => false | _ => true end.

Section TraceProperties.

Context {E : Env}.

(** [st'] comes after [st] by calls of the kinds [ks] only, and with the
    model fields untouched. *)
Definition steps (ks : Kind -> bool) (st st' : St E) : Prop :=
  model_loaded st' = model_loaded st /\
  artifacts st' = artifacts st /\
  exists evs, trace st' = trace st ++ evs /\
              Forall (fun ev => ks (kind_of ev) = true) evs.

Definition respects {A} (ks : Kind -> bool) (m : M E A) : Prop :=
  forall st, steps ks st (snd (m st)).

(** Either no call to the oracle failed, or the failed call is the last
    event and the computation raised. *)
Definition aborts_on_oracle_failure {A} (m : M E A) : Prop :=
  forall st, exists evs,
    trace (snd (m st)) = trace st ++ evs /\
    (Forall (fun ev => failed_predict ev = false) evs \/
     exists e pre ev,
       fst (m st) = Raise e /\ evs = pre ++ [ev] /\ failed_predict ev = true /\
       Forall (fun ev => failed_predict ev = false) pre).

End TraceProperties.

(** ** Example inputs *)

(** Five bars with closes 1, 2, 2, 2, 2. *)
Definition rising_then_flat : list Bar :=
  [Scripted.bar_at 0 1; Scripted.bar_at 1 2; Scripted.bar_at 2 2;
   Scripted.bar_at 3 2; Scripted.bar_at 4 2].

(** Two and three bars with the constant close 1. *)
Definition two_flat_bars : list Bar := [Scripted.bar_at 0 1; Scripted.bar_at 1 1].

Definition three_flat_bars : list Bar :=
  [Scripted.bar_at 0 1; Scripted.bar_at 1 1; Scripted.bar_at 2 1].

(** Thirty one-step paths, eighteen ending at 101 and twelve at 99. *)
Definition thirty_paths : PredFrame :=
  {| n_rows := 1; columns := repeat [101%R] 18 ++ repeat [99%R] 12 |}.

(** A world in which everything works, for a cycle over two instruments. *)
Definition all_ok_world : Scripted.Script :=
  {| Scripted.loads := [true];
     Scripted.fetches := [Some Scripted.four_bars; Some Scripted.four_bars];
     Scripted.predictions :=
       [Some (Scripted.one_path, Scripted.one_path);
        Some (Scripted.one_path, Scripted.one_path);
        Some (Scripted.one_path, Scripted.one_path);
        Some (Scripted.one_path, Scripted.one_path)];
     Scripted.plots := [true; true];
     Scripted.renders := [true];
     Scripted.charts := None |}.

(** The same, but drawing the chart of the first instrument fails. *)
Definition renderer_fails_world : Scripted.Script :=
  {| Scripted.loads := [true];
     Scripted.fetches := [Some Scripted.four_bars; Some Scripted.four_bars];
     Scripted.predictions :=
       [Some (Scripted.one_path, Scripted.one_path);
        Some (Scripted.one_path, Scripted.one_path);
        Some (Scripted.one_path, Scripted.one_path);
        Some (Scripted.one_path, Scripted.one_path)];
     Scripted.plots := [false; true];
     Scripted.renders := [true];
     Scripted.charts := None |}.

(** The same, but the first call to the oracle fails. *)
Definition oracle_fails_world : Scripted.Script :=
  {| Scripted.loads := [true];
     Scripted.fetches := [Some Scripted.four_bars; Some Scripted.four_bars];
     Scripted.predictions :=
       [None; Some (Scripted.one_path, Scripted.one_path);
        Some (Scripted.one_path, Scripted.one_path)];
     Scripted.plots := [true];
     Scripted.renders := [true];
     Scripted.charts := None |}.

(** The provider fails for the first instrument and answers for the second. *)
Definition provider_fails_world : Scripted.Script :=
  {| Scripted.loads := [true];
     Scripted.fetches := [None; Some Scripted.four_bars];
     Scripted.predictions :=
       [Some (Scripted.one_path, Scripted.one_path);
        Some (Scripted.one_path, Scripted.one_path)];
     Scripted.plots := [true];
     Scripted.renders := [true];
     Scripted.charts := None |}.

(** A process whose model is already loaded, in that world. *)
Definition provider_fails_state : St Scripted.env :=
  @Build_St Scripted.env true (Some tt) provider_fails_world [].

(** Mock mode with one chart on disk and a publisher that raises. *)
Definition publisher_fails_world : Scripted.Script :=
  {| Scripted.loads := []; Scripted.fetches := []; Scripted.predictions := [];
     Scripted.plots := []; Scripted.renders := [false];
     Scripted.charts := Some ["AAA"%string] |}.

(** Mock mode with one chart on disk and a publisher that works. *)
Definition one_chart_world : Scripted.Script :=
  {| Scripted.loads := []; Scripted.fetches := []; Scripted.predictions := [];
     Scripted.plots := []; Scripted.renders := [true];
     Scripted.charts := Some ["AAA"%string] |}.

(** The model fails to load the first time and loads the second time. *)
Definition load_fails_once_world : Scripted.Script :=
  {| Scripted.loads := [false; true]; Scripted.fetches := [];
     Scripted.predictions := []; Scripted.plots := []; Scripted.renders := [];
     Scripted.charts := None |}.

(** * Further code and vocabulary *)

(** ** [core/config.py] and the model identifiers of [core/model_manager.py] *)

Module ConfigManager.

(** [ModelConfig] *)
Record ModelConfig : Type := {
  model_size : string;
  device : string;
  max_context : Z;
}.

(** [parser.get(section, key, fallback=fallback)]: the fallback stands in
    for a missing section as well as for a missing key. *)
Definition get (parser : gmap string (gmap string string))
    (section key fallback : string) : string :=
  match parser !! section with
  | Some keys =>
      match keys !! key with
      | Some v => v
      | None => fallback
      end
  | None => fallback
  end.

(** [ConfigManager.model] *)
Definition model (parser : gmap string (gmap string string)) : ModelConfig :=
  let size := Py.lower (Py.strip (get parser "model" "model_size" "small")) in
  let max_ctx := if String.eqb size "mini" then 2048 else 512 in
  let device := Py.strip (get parser "model" "device" "cpu") in
  {| model_size := size; device := device; max_context := max_ctx |}.

End ConfigManager.

Module ModelIds.

(** [ModelManager._hf_ids], for the [model_size] the manager was built
    with: the tokenizer and the model to download. *)
Definition _hf_ids (model_size : string) : string * string :=
  let size :=
    Py.lower (match model_size with EmptyString => "small" | _ => model_size end) in
  if String.eqb size "mini" then
    ("NeoQuasar/Kronos-Tokenizer-2k", "NeoQuasar/Kronos-mini")%string
  else if String.eqb size "base" then
    ("NeoQuasar/Kronos-Tokenizer-base", "NeoQuasar/Kronos-base")%string
  else
    ("NeoQuasar/Kronos-Tokenizer-base", "NeoQuasar/Kronos-small")%string.

End ModelIds.

(** ** The time axis of the chart

    The part of the body of [create_plot] ([core/pipeline.py], lines 112 to
    125) that places the forecast on the time axis of the figure. *)

Module Chart.

Inductive TimeUnit : Type := Days | Hours | Minutes.

(** Lines 112-120: the keyword handed to [timedelta]. *)
Definition time_unit (interval : string) : TimeUnit :=
  if Py.contains "d" (Py.lower interval) then Days
  else if Py.contains "h" (Py.lower interval) then Hours
  else Minutes.

(** [timedelta] called with the keyword [time_unit] and the value [n], in
    nanoseconds. *)
Definition timedelta (u : TimeUnit) (n : Z) : Z :=
  match u with
  | Days => n * (86400 * 1000000000)
  | Hours => n * (3600 * 1000000000)
  | Minutes => n * (60 * 1000000000)
  end.

(** Lines 122-125: [pred_time]; [hist_time.iloc[-1]] raises on a history
    without rows, and so does a sum that is out of bounds. *)
Definition pred_time (hist_df : list Bar) (close_preds_df : PredFrame)
    (interval : string) : res (list Z) :=
  (last_hist_time <~ Pandas.iloc_last (map timestamps hist_df);
   res_map
     (fun i => Pandas.timestamp_add last_hist_time
                 (timedelta (time_unit interval) (Z.of_nat i + 1)))
     (seq 0 (n_rows close_preds_df)))%res.

End Chart.

(** ** Positive prices *)

(** All closes of a history are positive. *)
Definition positive_closes (hist : list Bar) : Prop :=
  Forall (fun b => (0 < close b)%R) hist.

(** The closes of a list of given bars are positive. *)
Ltac positive_bars := unfold positive_closes; repeat constructor; simpl; lra.

(** A one-step forecast with two paths. *)
Definition one_step_paths : PredFrame := {| n_rows := 1; columns := [[2%R]; [3%R]] |}.

(** ** Reports *)

(** The probabilities of an entry of a report: each is a number between 0
    and 1 (the upside probability may also be NaN). *)
Definition probabilities (e : Entry) : Prop :=
  (exists v : R, e_vol_amp_prob e = Some v /\ (0 <= v <= 1)%R) /\
  (e_upside_prob e = Pandas.NaN \/
   exists u : R, e_upside_prob e = Some u /\ (0 <= u <= 1)%R).

(** A symbol that is a file name: it holds no slash. *)
Definition plain_name (symbol : string) : Prop := Py.contains "/" symbol = false.

(** The chart path of an entry is the path of the chart file of [symbol]
    from the [docs] directory. *)
Definition chart_of {E : Env} (symbol : string) (e : Entry) : Prop :=
  exists rel,
    Pathlib.relative_to (Pipeline.chart_file (E := E) symbol)
      (Pipeline.repo (E := E) / "docs")%path = Ok rel /\
    e_chart_path e = Pathlib.str rel.

(** [symbol] is listed, between commas, under [symbols] in the section of
    one of the available sources. *)
Definition configured (config : gmap string (gmap string string)) (symbol : string)
  : Prop :=
  exists source section symbols,
    In source DataSourceManager.available /\
    config !! source = Some section /\
    section !! "symbols"%string = Some symbols /\
    In symbol (map Py.strip (Py.split "," symbols)).

(** ** The calls of a cycle *)

(** What a call made under the configuration [cc] looks like: a fetch asks
    an available source for [hist_points + vol_window] bars; a prediction
    is asked on a history that is not empty, for [pred_horizon] steps on an
    axis of as many timestamps, with [n_predictions] samples, a top-p of
    0.9 and a temperature of 0.6 or 0.9; the publisher gets a report that is not
    empty. *)
Definition cycle_event (cc : CommonConfig) (ev : Event) : Prop :=
  match ev with
  | EvLoad _ => True
  | EvFetch source _ _ limit _ =>
      In source DataSourceManager.available /\
      limit = hist_points cc + vol_window cc
  | EvPredict x y pred_len T top_p sample_count _ =>
      x <> [] /\ length y = Z.to_nat pred_len /\ pred_len = pred_horizon cc /\
      (T = 6 / 10 \/ T = 9 / 10)%R /\ top_p = (9 / 10)%R /\
      sample_count = n_predictions cc
  | EvPlot _ _ => True
  | EvUpdate metrics _ => metrics <> ∅
  end.

(** The oracle is shown the frame [frame], whenever it is called. *)
Definition predicts_on (frame : list Bar) (ev : Event) : Prop :=
  match ev with
  | EvPredict x _ _ _ _ _ _ => x = frame
  | _ => True
  end.

Section Emits.

Context {E : Env}.

(** Whatever [m] logs satisfies [P]. *)
Definition emits {A} (P : Event -> Prop) (m : M E A) : Prop :=
  forall st, exists evs, trace (snd (m st)) = trace st ++ evs /\ Forall P evs.

End Emits.

(** * Properties *)

(** ** The future axis of [make_prediction] *)

Lemma lower_char_d (c : ascii) :
  Ascii.eqb "d" (Py.lower_char c) = true <-> c = "d"%char \/ c = "D"%char.
Proof.
  destruct c as [[] [] [] [] [] [] [] []]; vm_compute; split; intros H;
    try discriminate H; try (destruct H as [H|H]; discriminate H); auto.
Qed.

Lemma lower_char_h (c : ascii) :
  Ascii.eqb "h" (Py.lower_char c) = true <-> c = "h"%char \/ c = "H"%char.
Proof.
  destruct c as [[] [] [] [] [] [] [] []]; vm_compute; split; intros H;
    try discriminate H; try (destruct H as [H|H]; discriminate H); auto.
Qed.

Lemma has_char_cons (c c' : ascii) (s : string) :
  has_char c (String c' s) <-> c' = c \/ has_char c s.
Proof.
  split.
  - intros (s1 & s2 & H). destruct s1 as [|a s1]; simpl in H.
    + injection H as -> _. now left.
    + injection H as _ ->. right. now exists s1, s2.
  - intros [->|(s1 & s2 & ->)].
    + now exists EmptyString, s.
    + now exists (String c' s1), s2.
Qed.

Lemma has_char_nil (c : ascii) : ~ has_char c EmptyString.
Proof. intros (s1 & s2 & H). destruct s1; discriminate H. Qed.

Lemma contains_lower (lo up : ascii) (s : string) :
  (forall c, Ascii.eqb lo (Py.lower_char c) = true <-> c = lo \/ c = up) ->
  Py.contains lo (Py.lower s) = true <-> has_char lo s \/ has_char up s.
Proof.
  intros Hc. induction s as [|c s IH]; simpl.
  - split; [discriminate|]. intros [H|H]; now apply has_char_nil in H.
  - rewrite orb_true_iff, Hc, IH, !has_char_cons. tauto.
Qed.


Lemma freq_of_interval_spec (label : string) :
  (day_token label -> Pipeline.freq_of_interval label = Pipeline.FreqD) /\
  (~ day_token label -> hour_token label ->
   Pipeline.freq_of_interval label = Pipeline.FreqH) /\
  (~ day_token label -> ~ hour_token label ->
   Pipeline.freq_of_interval label = Pipeline.FreqMin).
Proof.
  unfold Pipeline.freq_of_interval, day_token, hour_token.
  pose proof (contains_lower "d" "D" label lower_char_d) as Hd.
  pose proof (contains_lower "h" "H" label lower_char_h) as Hh.
  destruct (Py.contains "d" (Py.lower label));
    destruct (Py.contains "h" (Py.lower label)); intuition congruence.
Qed.

Lemma nanoseconds_pos (f : Pipeline.Freq) : 0 < Pipeline.nanoseconds f.
Proof. destruct f; reflexivity. Qed.

Lemma max_timestamp_sorted (t d : Z) (l : list Z) :
  StronglySorted Z.lt (t :: l) -> fold_left Z.max l t = List.last (t :: l) d.
Proof.
  revert t. induction l as [|a l IH]; intros t Hs; [reflexivity|].
  inversion Hs as [|? ? Hl Hall]; subst.
  change (fold_left Z.max l (Z.max t a) = List.last (a :: l) d).
  inversion Hall; subst. rewrite Z.max_r by lia. now apply IH.
Qed.

Lemma nth_map_seq (g : nat -> Z) (n s k : nat) :
  (k < n)%nat -> nth k (map g (seq s n)) 0 = g (s + k)%nat.
Proof.
  revert s k. induction n as [|n IH]; intros s k Hk; [lia|].
  destruct k as [|k]; simpl.
  - now rewrite Nat.add_0_r.
  - rewrite IH by lia. f_equal. lia.
Qed.

Lemma date_range_nth (t0 periods step : Z) (k : nat) :
  (k < Z.to_nat periods)%nat ->
  nth k (map (fun k => t0 + Z.of_nat k * step) (seq 0 (Z.to_nat periods))) 0
  = t0 + Z.of_nat k * step.
Proof. intros Hk. now rewrite nth_map_seq. Qed.

Lemma y_timestamp_in_range (df : list Bar) (horizon : Z) (label : string)
    (last_timestamp : Z) :
  Pandas.max_timestamp (map timestamps df) = Some last_timestamp ->
  0 <= horizon ->
  last_timestamp + (horizon + 1) * Pipeline.nanoseconds (Pipeline.freq_of_interval label)
  <= Pandas.timestamp_max ->
  Pipeline.y_timestamp df horizon label
  = Ok (map (fun k => last_timestamp + Pipeline.nanoseconds (Pipeline.freq_of_interval label)
                      + Z.of_nat k * Pipeline.nanoseconds (Pipeline.freq_of_interval label))
          (seq 0 (Z.to_nat horizon))).
Proof.
  intros Hmax Hh Hfit.
  unfold Pipeline.y_timestamp, Pandas.add_timedelta, Pandas.timestamp_add,
    Pandas.date_range.
  rewrite Hmax. pose proof (nanoseconds_pos (Pipeline.freq_of_interval label)) as Hpos.
  set (step := Pipeline.nanoseconds (Pipeline.freq_of_interval label)) in *.
  destruct (last_timestamp + step <=? Pandas.timestamp_max) eqn:H1; [|nia].
  cbn [res_bind].
  destruct (horizon <? 0) eqn:H2; [lia|].
  destruct ((0 <? horizon)
            && negb (last_timestamp + step + (horizon - 1) * step <=? Pandas.timestamp_max))
    eqn:H3; [|reflexivity].
  apply andb_true_iff in H3 as [_ H3]. apply negb_true_iff in H3. nia.
Qed.

Lemma y_timestamp_out_of_bounds (df : list Bar) (horizon : Z) (label : string)
    (last_timestamp : Z) :
  Pandas.max_timestamp (map timestamps df) = Some last_timestamp ->
  Pandas.timestamp_max
  < last_timestamp + Pipeline.nanoseconds (Pipeline.freq_of_interval label) ->
  Pipeline.y_timestamp df horizon label = Raise OutOfBoundsDatetime.
Proof.
  intros Hmax Hout.
  unfold Pipeline.y_timestamp, Pandas.add_timedelta, Pandas.timestamp_add.
  rewrite Hmax.
  destruct (_ <=? Pandas.timestamp_max) eqn:H1; [lia|reflexivity].
Qed.

(** C8. For a history of at least two bars and a horizon of at least one
    step, whose future axis ends before the latest timestamp that pandas
    can hold, [make_prediction] builds a future axis of exactly [horizon]
    timestamps: the k-th one is the latest timestamp of the history (its
    last one when the history is in increasing order) plus k+1 steps, so
    the axis is strictly increasing with a constant step.  The step is one
    day when the label holds a [d] or [D], else one hour when it holds an
    [h] or [H], else one minute.  The axis depends on the history through
    its latest timestamp only, whatever gaps the history has.  When the
    first timestamp of the axis would already be beyond the latest
    timestamp of pandas, no axis is built: [OutOfBoundsDatetime] is
    raised. *)
Theorem C8_future_axis (df : list Bar) (horizon : Z) (label : string) :
  (2 <= length df)%nat -> 1 <= horizon ->
  exists (last_timestamp step : Z),
    Pandas.max_timestamp (map timestamps df) = Some last_timestamp /\
    (StronglySorted Z.lt (map timestamps df) ->
     List.last (map timestamps df) 0 = last_timestamp) /\
    (day_token label -> step = 86400 * 1000000000) /\
    (~ day_token label -> hour_token label -> step = 3600 * 1000000000) /\
    (~ day_token label -> ~ hour_token label -> step = 60 * 1000000000) /\
    (last_timestamp + (horizon + 1) * step <= Pandas.timestamp_max ->
     exists axis : list Z,
       Pipeline.y_timestamp df horizon label = Ok axis /\
       Z.of_nat (length axis) = horizon /\
       (forall k, (k < length axis)%nat ->
          nth k axis 0 = last_timestamp + (Z.of_nat k + 1) * step) /\
       (forall k, (S k < length axis)%nat ->
          nth k axis 0 < nth (S k) axis 0 /\ nth (S k) axis 0 - nth k axis 0 = step) /\
       (forall df' : list Bar,
          Pandas.max_timestamp (map timestamps df') = Some last_timestamp ->
          Pipeline.y_timestamp df' horizon label = Ok axis)) /\
    (Pandas.timestamp_max < last_timestamp + step ->
     Pipeline.y_timestamp df horizon label = Raise OutOfBoundsDatetime).
Proof.
  intros Hlen Hh.
  destruct df as [|b df]; [simpl in Hlen; lia|].
  set (f := Pipeline.freq_of_interval label).
  set (last_timestamp := fold_left Z.max (map timestamps df) (timestamps b)).
  assert (Hmax : Pandas.max_timestamp (map timestamps (b :: df)) = Some last_timestamp)
    by reflexivity.
  exists last_timestamp, (Pipeline.nanoseconds f).
  split; [exact Hmax|].
  split. { intros Hs. symmetry. now apply max_timestamp_sorted. }
  destruct (freq_of_interval_spec label) as (Hd & Hho & Hm). fold f in Hd, Hho, Hm.
  split. { intros H. now rewrite (Hd H). }
  split. { intros H1 H2. now rewrite (Hho H1 H2). }
  split. { intros H1 H2. now rewrite (Hm H1 H2). }
  pose proof (nanoseconds_pos f) as Hpos.
  split.
  - intros Hfit. eexists. split.
    { apply (y_timestamp_in_range _ _ _ last_timestamp); [exact Hmax|lia|exact Hfit]. }
    fold f. rewrite length_map, length_seq.
    split; [lia|].
    split. { intros k Hk. rewrite date_range_nth by assumption. lia. }
    split. { intros k Hk. rewrite !date_range_nth by lia. nia. }
    intros df' Hmax'.
    apply (y_timestamp_in_range _ _ _ last_timestamp); [exact Hmax'|lia|exact Hfit].
  - intros Hout. now apply (y_timestamp_out_of_bounds _ _ _ last_timestamp).
Qed.

Lemma C8_future_axis_witness :
  (2 <= length Scripted.four_bars)%nat /\ 1 <= 2 /\
  exists axis : list Z,
    Pipeline.y_timestamp Scripted.four_bars 2 "1h" = Ok axis /\
    Z.of_nat (length axis) = 2 /\
    nth 0 axis 0 = 10800000000000 + 3600000000000.
Proof.
  assert (H2 : (2 <= length Scripted.four_bars)%nat) by (simpl; lia).
  assert (H1 : 1 <= 2) by lia.
  split; [exact H2|]. split; [exact H1|].
  destruct (C8_future_axis Scripted.four_bars 2 "1h" H2 H1)
    as (last_timestamp & step & Hmax & _ & _ & Hh & _ & Hfit & _).
  injection Hmax as <-.
  assert (Hstep : step = 3600 * 1000000000).
  { apply Hh.
    - intros [(s1 & s2 & H)|(s1 & s2 & H)];
        destruct s1 as [|? [|? [|? ?]]]; discriminate H.
    - left. now exists "1"%string, EmptyString. }
  subst step.
  destruct Hfit as (axis & Hy & Hlen & Hnth & _); [vm_compute; discriminate|].
  exists axis. split; [exact Hy|]. split; [exact Hlen|].
  rewrite Hnth by lia. reflexivity.
Defined.

Section Axis.

Context {E : Env}.

(** Both calls to the oracle are made with the history and the axis of
    [y_timestamp]; only the temperature differs. *)
Lemma make_prediction_axis (df : list Bar) (predictor : Predictor E)
    (pred_horizon n_predictions : Z) (interval : string) (axis : list Z) (st : St E) :
  Pipeline.y_timestamp df pred_horizon interval = Ok axis ->
  exists ok1,
    let first := EvPredict df axis pred_horizon (6 / 10) (9 / 10) n_predictions ok1 in
    let st' := snd (Pipeline.make_prediction df predictor pred_horizon n_predictions
                      interval st) in
    (ok1 = false /\ trace st' = trace st ++ [first]) \/
    (ok1 = true /\
     exists ok2,
       trace st'
       = trace st
         ++ [first; EvPredict df axis pred_horizon (9 / 10) (9 / 10) n_predictions ok2]).
Proof.
  intros Hy. unfold Pipeline.make_prediction, call_res, bind, call, lift, ret.
  rewrite Hy. cbn [world trace].
  destruct (predict E predictor df axis pred_horizon (6 / 10)%R (9 / 10)%R n_predictions
              (world st)) as [[[c v]|e] w1]; cbn.
  - exists true. right. split; [reflexivity|].
    destruct (predict E predictor df axis pred_horizon (9 / 10)%R (9 / 10)%R
                n_predictions w1) as [[[c' v']|e] w2]; cbn;
      eexists; now rewrite <- app_assoc.
  - exists false. left. now split.
Qed.

End Axis.

(** ** The metrics of [calculate_metrics] *)

Lemma Rgtb_true (x y : R) : Pandas.Rgtb x y = true <-> (x > y)%R.
Proof. unfold Pandas.Rgtb. destruct (Rgt_dec x y); split; intros; auto; discriminate. Qed.

Lemma Rgtb_false (x y : R) : Pandas.Rgtb x y = false <-> ~ (x > y)%R.
Proof. unfold Pandas.Rgtb. destruct (Rgt_dec x y); split; intros; auto; try discriminate; contradiction. Qed.

Lemma item_last_app {A} (l : list A) (x : A) : Py.item_last (l ++ [x]) = Ok x.
Proof. unfold Py.item_last. now rewrite rev_app_distr. Qed.

Lemma filter_map_id {A} (g : A -> bool) (l : list A) :
  length (List.filter (fun b : bool => b) (map g l)) = length (List.filter g l).
Proof. induction l as [|a l IH]; simpl; [reflexivity|]. destruct (g a); simpl; now rewrite IH. Qed.

Lemma filter_all {A} (g : A -> bool) (l : list A) :
  Forall (fun a => g a = true) l -> List.filter g l = l.
Proof. induction 1 as [|a l Ha _ IH]; simpl; [reflexivity|]. now rewrite Ha, IH. Qed.

Lemma filter_none {A} (g : A -> bool) (l : list A) :
  Forall (fun a => g a = false) l -> List.filter g l = [].
Proof. induction 1 as [|a l Ha _ IH]; simpl; [reflexivity|]. now rewrite Ha. Qed.

Lemma final_value_wf (f : PredFrame) (path : list R) :
  wf_frame f -> n_rows f <> O -> In path (columns f) ->
  exists init, path = init ++ [final_value path].
Proof.
  intros Hwf Hn Hin. unfold wf_frame in Hwf. rewrite List.Forall_forall in Hwf.
  specialize (Hwf _ Hin).
  destruct (exists_last (l := path)) as (init & x & ->).
  { intros ->. simpl in Hwf. congruence. }
  exists init. unfold final_value. now rewrite last_last.
Qed.

Lemma mean_bool_count {A} (g : A -> bool) (l : list A) :
  l <> [] ->
  Pandas.mean_bool (map g l) = Some (INR (length (List.filter g l)) / INR (length l))%R.
Proof.
  intros Hl. destruct l as [|a l]; [congruence|].
  rewrite <- filter_map_id, <- (length_map g (a :: l)). reflexivity.
Qed.

Lemma calculate_metrics_ok (hist : list Bar) (b : Bar)
    (close_preds v_close_preds : PredFrame) (vol_window : Z) :
  n_rows close_preds <> O -> columns v_close_preds <> [] ->
  Pipeline.calculate_metrics (hist ++ [b]) close_preds v_close_preds vol_window
  = Ok (Pandas.mean_bool
          (map (fun path => Pandas.Rgtb (final_value path) (close b))
             (columns close_preds)),
        Some (INR (Pipeline.amplification_count (close b)
                     (Pipeline.historical_vol (hist ++ [b]) vol_window)
                     (columns v_close_preds))
              / INR (length (columns v_close_preds)))%R).
Proof.
  intros Hrows Hvol.
  unfold Pipeline.calculate_metrics, Pandas.iloc_last, row_last.
  rewrite map_app. cbn [map]. rewrite item_last_app. cbn [res_bind].
  destruct (n_rows close_preds) as [|n]; [congruence|]. cbn [res_bind].
  rewrite map_map.
  destruct (columns v_close_preds) as [|c cs] eqn:Hc; [congruence|].
  reflexivity.
Qed.

(** C5. For a trailing history that is not empty and ensembles that are
    not empty, [calculate_metrics] returns as upside probability the number
    of paths of the main ensemble whose final value is strictly above the
    last close of the history, divided by the number of paths: 1 when all
    paths end above it, 0 when none does, and 0.6 when 18 of 30 paths end
    above a last close of 100.  (With an empty volatility ensemble the
    function raises [ZeroDivisionError] before it returns anything.) *)
Theorem C5_upside_probability (hist : list Bar) (b : Bar)
    (main_close volatility_close : PredFrame) (vol_window : Z) :
  n_rows main_close <> O -> columns main_close <> [] ->
  columns volatility_close <> [] ->
  exists (up : R) (va : Pandas.float),
    Pipeline.calculate_metrics (hist ++ [b]) main_close volatility_close vol_window
    = Ok (Some up, va) /\
    up = (INR (paths_above (close b) (columns main_close))
          / INR (length (columns main_close)))%R /\
    (Forall (fun path => final_value path > close b)%R (columns main_close) ->
     up = 1%R) /\
    (Forall (fun path => ~ (final_value path > close b)%R) (columns main_close) ->
     up = 0%R) /\
    (close b = 100%R -> length (columns main_close) = 30%nat ->
     paths_above 100 (columns main_close) = 18%nat -> up = (6 / 10)%R).
Proof.
  intros Hrows Hmain Hvol.
  assert (Hlen : (INR (length (columns main_close)) <> 0)%R).
  { apply not_0_INR. destruct (columns main_close); [congruence|discriminate]. }
  eexists. eexists. split.
  { rewrite calculate_metrics_ok, mean_bool_count by assumption. reflexivity. }
  split; [reflexivity|].
  unfold paths_above. split; [|split].
  - intros Hall. rewrite filter_all.
    + now field.
    + eapply List.Forall_impl; [|exact Hall]. intros p Hp. now apply Rgtb_true.
  - intros Hnone. rewrite filter_none.
    + simpl. now field.
    + eapply List.Forall_impl; [|exact Hnone]. intros p Hp. now apply Rgtb_false.
  - intros -> -> ->. simpl. lra.
Qed.


Lemma paths_above_thirty : paths_above 100 (columns thirty_paths) = 18%nat.
Proof.
  unfold paths_above, thirty_paths. cbn [columns].
  rewrite List.filter_app, length_app, filter_all, filter_none.
  - now rewrite !repeat_length.
  - apply List.Forall_forall. intros p Hp. apply repeat_spec in Hp as ->.
    apply Rgtb_false. unfold final_value. simpl. lra.
  - apply List.Forall_forall. intros p Hp. apply repeat_spec in Hp as ->.
    apply Rgtb_true. unfold final_value. simpl. lra.
Qed.

Lemma C5_upside_probability_witness :
  n_rows thirty_paths <> O /\ columns thirty_paths <> [] /\
  columns Scripted.one_path <> [] /\
  exists va : Pandas.float,
    Pipeline.calculate_metrics ([] ++ [Scripted.bar_at 0 100]) thirty_paths
      Scripted.one_path 2
    = Ok (Some (6 / 10)%R, va).
Proof.
  assert (H1 : n_rows thirty_paths <> O) by discriminate.
  assert (H2 : columns thirty_paths <> []) by discriminate.
  assert (H3 : columns Scripted.one_path <> []) by discriminate.
  split; [exact H1|]. split; [exact H2|]. split; [exact H3|].
  destruct (C5_upside_probability [] (Scripted.bar_at 0 100) thirty_paths
              Scripted.one_path 2 H1 H2 H3)
    as (up & va & Hrun & _ & _ & _ & H18).
  exists va. rewrite Hrun, H18; [reflexivity|reflexivity|reflexivity|].
  exact paths_above_thirty.
Defined.

(** *** Log returns and the trailing window *)

Lemma flog_fdiv_positive (x y : R) :
  (0 < x)%R -> (0 < y)%R ->
  Pandas.flog (Pandas.fdiv (Some x) (Some y)) = Pandas.F_num (ln (x / y)).
Proof.
  intros Hx Hy. unfold Pandas.fdiv, Pandas.flog.
  destruct (Req_dec_T y 0) as [H0|_]; [lra|].
  destruct (Rlt_dec 0 (x / y)) as [_|Hn]; [reflexivity|].
  exfalso. apply Hn. now apply Rdiv_lt_0_compat.
Qed.

Lemma zip_removelast (c0 : R) (cs : list R) :
  Forall (fun x => (0 < x)%R) (c0 :: cs) ->
  map Pandas.flog
    (zip_with Pandas.fdiv (map Some cs) (removelast (Some c0 :: map Some cs)))
  = map Pandas.F_num (returns_from c0 cs).
Proof.
  revert c0. induction cs as [|c cs IH]; intros c0 Hpos; [reflexivity|].
  inversion Hpos as [|? ? H0 Hcs]; subst. inversion Hcs as [|? ? Hc _]; subst.
  cbn [map returns_from].
  change (removelast (Some c0 :: Some c :: map Some cs))
    with (Some c0 :: removelast (Some c :: map Some cs)).
  cbn [zip_with map]. rewrite IH by assumption.
  now rewrite flog_fdiv_positive.
Qed.

(** On positive closes no return is infinite, and only the first one is
    NaN. *)
Lemma log_returns_cons (c0 : R) (cs : list R) :
  Forall (fun x => (0 < x)%R) (c0 :: cs) ->
  Pandas.log_returns (c0 :: cs) = Pandas.F_nan :: map Pandas.F_num (returns_from c0 cs).
Proof.
  intros Hpos. unfold Pandas.log_returns, Pandas.shift1. cbn [map zip_with].
  now rewrite zip_removelast.
Qed.

Lemma std64_num (l : list R) :
  Pandas.std64 (map Pandas.F_num l) = Pandas.std (map Some l).
Proof.
  unfold Pandas.std64.
  assert (Hinf : existsb Pandas.is_inf (map Pandas.F_num l) = false)
    by (induction l as [|x l IH]; [reflexivity|exact IH]).
  rewrite Hinf, map_map. reflexivity.
Qed.

Lemma std64_nan_cons (s : list Pandas.float64) :
  Pandas.std64 (Pandas.F_nan :: s) = Pandas.std64 s.
Proof. unfold Pandas.std64. cbn [existsb Pandas.is_inf orb map]. reflexivity. Qed.

Lemma std64_nonneg (s : list Pandas.float64) (v : R) :
  Pandas.std64 s = Some v -> (0 <= v)%R.
Proof.
  unfold Pandas.std64, Pandas.std.
  destruct (existsb _ s); [discriminate|].
  destruct (_ <=? 1)%nat; [discriminate|].
  intros [= <-]. apply sqrt_pos.
Qed.

Lemma positive_closes_map (hist : list Bar) :
  positive_closes hist -> Forall (fun x => (0 < x)%R) (map close hist).
Proof. intros H. apply List.Forall_map. exact H. Qed.

Lemma Forall_skipn {A} (P : A -> Prop) (k : nat) (l : list A) :
  Forall P l -> Forall P (skipn k l).
Proof.
  intros H. rewrite <- (firstn_skipn k l) in H. now apply List.Forall_app in H as [_ H].
Qed.

Lemma dropna_some (l : list R) : Pandas.dropna (map Some l) = l.
Proof. induction l as [|x l IH]; simpl; [reflexivity|now rewrite IH]. Qed.

Lemma length_returns_from (c0 : R) (cs : list R) :
  length (returns_from c0 cs) = length cs.
Proof. revert c0; induction cs as [|c cs IH]; intros c0; simpl; [reflexivity|now rewrite IH]. Qed.

Lemma log_return_series_skipn (k : nat) (closes : list R) :
  log_return_series (skipn k closes) = skipn k (log_return_series closes).
Proof.
  revert closes. induction k as [|k IH]; intros closes; [reflexivity|].
  destruct closes as [|c0 [|c1 cs]]; [reflexivity| |].
  - simpl. now destruct k.
  - change (skipn (S k) (c0 :: c1 :: cs)) with (skipn k (c1 :: cs)).
    rewrite IH. reflexivity.
Qed.

Lemma bound_neg (n : nat) (w : Z) :
  0 < w -> Py.bound n (- w) = (n - Z.to_nat w)%nat.
Proof. intros Hw. unfold Py.bound. destruct (- w <? 0) eqn:Hn; lia. Qed.

(** [calculate_metrics] on its own: with one more bar than [vol_window], the
    window holds the [vol_window] most recent log returns. *)
Lemma historical_vol_full_window (hist_df : list Bar) (vol_window : Z) :
  positive_closes hist_df ->
  1 <= vol_window < Z.of_nat (length hist_df) ->
  Pipeline.historical_vol hist_df vol_window
  = Pandas.std (map Some (most_recent (Z.to_nat vol_window)
                            (log_return_series (map close hist_df)))).
Proof.
  intros Hpos Hw. apply positive_closes_map in Hpos.
  unfold Pipeline.historical_vol, Pandas.iloc_from, Py.slice_from.
  destruct hist_df as [|b bs]; [simpl in Hw; lia|].
  cbn [map] in *. rewrite log_returns_cons by assumption.
  cbn [length]. rewrite length_map, length_returns_from, length_map.
  rewrite bound_neg by lia. simpl in Hw.
  replace (S (length bs) - Z.to_nat vol_window)%nat
    with (S (length bs - Z.to_nat vol_window)) by lia.
  cbn [skipn log_return_series]. unfold most_recent.
  now rewrite length_returns_from, length_map, skipn_map, std64_num.
Qed.

(** [run_for_symbol] hands over only [vol_window] bars: the first return of
    the window is then NaN, and [vol_window - 1] log returns are left. *)
Lemma historical_vol_engine (df_full : list Bar) (vol_window : Z) :
  positive_closes (Engine.df_for_model df_full) ->
  1 <= vol_window <= Z.of_nat (length (Engine.df_for_model df_full)) ->
  Pipeline.historical_vol (Engine.hist_df_for_metrics df_full vol_window) vol_window
  = Pandas.std (map Some (most_recent (Z.to_nat vol_window - 1)
                            (log_return_series
                               (map close (Engine.df_for_model df_full))))).
Proof.
  unfold Engine.hist_df_for_metrics. generalize (Engine.df_for_model df_full).
  intros df Hpos Hw. apply positive_closes_map in Hpos. unfold Pandas.tail.
  destruct (vol_window =? 0) eqn:H0; [lia|].
  unfold Py.slice_from. rewrite bound_neg by lia.
  set (k := (length df - Z.to_nat vol_window)%nat).
  unfold Pipeline.historical_vol, Pandas.iloc_from, Py.slice_from.
  rewrite <- skipn_map.
  assert (Hk : length (skipn k (map close df)) = Z.to_nat vol_window).
  { rewrite length_skipn, length_map. unfold k. lia. }
  assert (Hpos' : Forall (fun x => (0 < x)%R) (skipn k (map close df)))
    by now apply Forall_skipn.
  destruct (skipn k (map close df)) as [|c0 cs] eqn:Hs; [simpl in Hk; lia|].
  rewrite log_returns_cons by assumption.
  cbn [length]. rewrite length_map, length_returns_from.
  simpl in Hk. rewrite bound_neg by lia.
  replace (S (length cs) - Z.to_nat vol_window)%nat with O by lia.
  cbn [skipn]. rewrite std64_nan_cons, std64_num.
  change (returns_from c0 cs) with (log_return_series (c0 :: cs)).
  rewrite <- Hs, log_return_series_skipn. unfold most_recent.
  assert (Hl : length (log_return_series (map close df)) = (length df - 1)%nat).
  { destruct df as [|b bs]; [reflexivity|]. cbn [map log_return_series length].
    rewrite length_returns_from, length_map. lia. }
  rewrite Hl. replace (length df - 1 - (Z.to_nat vol_window - 1))%nat with k by (unfold k; lia).
  reflexivity.
Qed.

Lemma df_for_model_app (df : list Bar) (b : Bar) : Engine.df_for_model (df ++ [b]) = df.
Proof.
  unfold Engine.df_for_model, Py.slice_to, Py.bound.
  change (-1 <? 0) with true. cbv iota. rewrite length_app. simpl (length [b]).
  replace (Z.to_nat (Z.max 0 (Z.of_nat (length df + 1) + -1))) with (length df) by lia.
  now rewrite firstn_app, firstn_all, Nat.sub_diag, app_nil_r.
Qed.

Lemma ln_2_pos : (0 < ln 2)%R.
Proof. rewrite <- ln_1. apply ln_increasing; lra. Qed.

Lemma std_values (xs : list R) :
  (2 <= length xs)%nat ->
  Pandas.std (map Some xs)
  = Some (sqrt (Pandas.fsum (map (fun x => (Pandas.fmean xs - x) ^ 2)%R xs)
                / INR (length xs - 1))).
Proof.
  intros Hn. unfold Pandas.std. rewrite dropna_some.
  destruct (length xs <=? 1)%nat eqn:Hle; [apply Nat.leb_le in Hle; lia|reflexivity].
Qed.

Lemma amplification_count_filter (last_close : R) (hv : Pandas.float)
    (cols : list (list R)) :
  Pipeline.amplification_count last_close hv cols
  = length (List.filter
              (fun col => Pandas.gt (Pipeline.predicted_vol last_close col) hv) cols).
Proof.
  unfold Pipeline.amplification_count.
  enough (H : forall n,
             fold_left
               (fun count col =>
                  if Pandas.gt (Pipeline.predicted_vol last_close col) hv
                  then S count else count) cols n
             = (n + length (List.filter
                              (fun col => Pandas.gt (Pipeline.predicted_vol last_close col) hv)
                              cols))%nat) by apply H.
  induction cols as [|c cs IH]; intros n; simpl; [lia|].
  rewrite IH. destruct (Pandas.gt _ hv); simpl; lia.
Qed.

Lemma gt_zero_has_volatility (last_close : R) (path : list R) :
  Pandas.gt (Pipeline.predicted_vol last_close path) (Some 0%R)
  = has_volatility last_close path.
Proof.
  unfold has_volatility.
  destruct (Pipeline.predicted_vol last_close path) as [pv|] eqn:Hpv; [|reflexivity].
  apply std64_nonneg in Hpv. simpl. unfold Pandas.Rgtb.
  destruct (Rgt_dec pv 0), (Req_dec_T pv 0); try reflexivity; lra.
Qed.

Lemma gt_nan (a : Pandas.float) : Pandas.gt a Pandas.NaN = false.
Proof. now destruct a. Qed.

Lemma filter_ext_bool {A} (f g : A -> bool) (l : list A) :
  (forall a, f a = g a) -> List.filter f l = List.filter g l.
Proof. intros H. induction l as [|a l IH]; simpl; [reflexivity|]. now rewrite H, IH. Qed.


(** C3 (what the code does at the failing input). [run_for_symbol] cuts
    the trailing history down to [vol_window] bars before it calls
    [calculate_metrics].  With the closes 1, 2, 2, 2 before the dropped bar
    and a window of 3, the historical volatility that is used is 0, the
    deviation of the two returns 0 and 0, whereas the three most recent log
    returns ln 2, 0 and 0 of that history have a deviation above 0. *)
Theorem C3_window_is_one_return_short :
  Pipeline.historical_vol (Engine.hist_df_for_metrics rising_then_flat 3) 3 = Some 0%R /\
  exists v : R,
    Pandas.std (map Some (most_recent 3
                            (log_return_series
                               (map close (Engine.df_for_model rising_then_flat)))))
    = Some v /\ (0 < v)%R.
Proof.
  split.
  - rewrite historical_vol_engine.
    2:{ change rising_then_flat with ([Scripted.bar_at 0 1; Scripted.bar_at 1 2; Scripted.bar_at 2 2; Scripted.bar_at 3 2] ++ [Scripted.bar_at 4 2]).
        rewrite df_for_model_app. positive_bars. }
    2:{ change rising_then_flat with ([Scripted.bar_at 0 1; Scripted.bar_at 1 2; Scripted.bar_at 2 2; Scripted.bar_at 3 2] ++ [Scripted.bar_at 4 2]).
        rewrite df_for_model_app. simpl. lia. }
    change rising_then_flat with ([Scripted.bar_at 0 1; Scripted.bar_at 1 2; Scripted.bar_at 2 2; Scripted.bar_at 3 2] ++ [Scripted.bar_at 4 2]).
    rewrite df_for_model_app.
    change (Pandas.std (map Some [ln (2 / 2); ln (2 / 2)])%R = Some 0%R).
    rewrite std_values by (simpl; lia).
    f_equal. rewrite <- sqrt_0. f_equal.
    unfold Pandas.fmean. simpl. field.
  - change rising_then_flat with ([Scripted.bar_at 0 1; Scripted.bar_at 1 2; Scripted.bar_at 2 2; Scripted.bar_at 3 2] ++ [Scripted.bar_at 4 2]).
    rewrite df_for_model_app.
    change (exists v, Pandas.std (map Some [ln (2 / 1); ln (2 / 2); ln (2 / 2)])%R = Some v
                      /\ (0 < v)%R).
    rewrite std_values by (simpl; lia).
    eexists. split; [reflexivity|].
    apply sqrt_lt_R0.
    replace (2 / 1)%R with 2%R by field. replace (2 / 2)%R with 1%R by field.
    rewrite ln_1. pose proof ln_2_pos as H2.
    unfold Pandas.fmean. simpl.
    match goal with |- (0 < ?e)%R => replace e with (ln 2 * ln 2 / 3)%R by field end.
    nra.
Qed.


(** C4 (as amended). For a trailing history and ensembles that are not
    empty: when the historical volatility is zero, the paths counted as
    amplified are exactly those whose predicted volatility is defined and
    not zero, so the probability is 1.0 when every path has a predicted
    volatility above zero; when the historical volatility is undefined
    (NaN), the comparison is false for every path and the probability is
    0.0. *)
Theorem C4_zero_or_undefined_historical_vol (hist : list Bar) (b : Bar)
    (main_close volatility_close : PredFrame) (vol_window : Z) :
  n_rows main_close <> O -> columns volatility_close <> [] ->
  exists (up : Pandas.float) (va : R),
    Pipeline.calculate_metrics (hist ++ [b]) main_close volatility_close vol_window
    = Ok (up, Some va) /\
    (Pipeline.historical_vol (hist ++ [b]) vol_window = Some 0%R ->
     va = (INR (length (List.filter (has_volatility (close b))
                          (columns volatility_close)))
           / INR (length (columns volatility_close)))%R /\
     (Forall (fun path => exists pv, Pipeline.predicted_vol (close b) path = Some pv
                                     /\ (pv > 0)%R)
        (columns volatility_close) -> va = 1%R)) /\
    (Pipeline.historical_vol (hist ++ [b]) vol_window = Pandas.NaN -> va = 0%R).
Proof.
  intros Hrows Hvol.
  assert (Hlen : (INR (length (columns volatility_close)) <> 0)%R).
  { apply not_0_INR. destruct (columns volatility_close); [congruence|discriminate]. }
  eexists. eexists. split; [now apply calculate_metrics_ok|].
  rewrite amplification_count_filter. split.
  - intros ->. rewrite (filter_ext_bool _ (has_volatility (close b)))
      by apply gt_zero_has_volatility.
    split; [reflexivity|]. intros Hall. rewrite filter_all; [now field|].
    eapply List.Forall_impl; [|exact Hall]. intros path (pv & Hpv & Hpos).
    unfold has_volatility. rewrite Hpv. destruct (Req_dec_T pv 0); [lra|reflexivity].
  - intros ->. rewrite filter_none; [simpl; now field|].
    apply List.Forall_forall. intros path _. apply gt_nan.
Qed.

Lemma std_constant (a : R) : Pandas.std (map Some [a; a]) = Some 0%R.
Proof.
  rewrite std_values by (simpl; lia).
  f_equal. rewrite <- sqrt_0. f_equal. unfold Pandas.fmean. simpl. field.
Qed.

Lemma predicted_vol_doubling :
  exists pv : R, Pipeline.predicted_vol 1 [1; 2]%R = Some pv /\ (pv > 0)%R.
Proof.
  unfold Pipeline.predicted_vol.
  rewrite log_returns_cons by (repeat constructor; lra).
  rewrite std64_nan_cons, std64_num.
  change (exists pv, Pandas.std (map Some [ln (1 / 1); ln (2 / 1)]%R) = Some pv
                     /\ (pv > 0)%R).
  rewrite std_values by (simpl; lia).
  eexists. split; [reflexivity|].
  apply sqrt_lt_R0.
  replace (1 / 1)%R with 1%R by field. replace (2 / 1)%R with 2%R by field.
  rewrite ln_1. pose proof ln_2_pos as H2.
  unfold Pandas.fmean. simpl.
  match goal with |- (0 < ?e)%R => replace e with (ln 2 * ln 2 / 2)%R by field end.
  nra.
Qed.

Lemma C4_zero_or_undefined_historical_vol_witness :
  n_rows Scripted.one_path <> O /\ columns Scripted.one_path <> [] /\
  Pipeline.historical_vol three_flat_bars 2 = Some 0%R /\
  exists up : Pandas.float,
    Pipeline.calculate_metrics three_flat_bars Scripted.one_path Scripted.one_path 2
    = Ok (up, Some 1%R).
Proof.
  assert (H1 : n_rows Scripted.one_path <> O) by discriminate.
  assert (H2 : columns Scripted.one_path <> []) by discriminate.
  assert (Hhv : Pipeline.historical_vol three_flat_bars 2 = Some 0%R).
  { rewrite (historical_vol_full_window three_flat_bars 2)
      by (positive_bars || (simpl; lia)).
    apply (std_constant (ln (1 / 1))). }
  split; [exact H1|]. split; [exact H2|]. split; [exact Hhv|].
  destruct (C4_zero_or_undefined_historical_vol
              [Scripted.bar_at 0 1; Scripted.bar_at 1 1] (Scripted.bar_at 2 1)
              Scripted.one_path Scripted.one_path 2 H1 H2)
    as (up & va & Hrun & Hzero & _).
  exists up. change three_flat_bars
    with ([Scripted.bar_at 0 1; Scripted.bar_at 1 1] ++ [Scripted.bar_at 2 1]).
  rewrite Hrun. destruct (Hzero Hhv) as (_ & Hall). rewrite Hall; [reflexivity|].
  constructor; [|constructor]. exact predicted_vol_doubling.
Defined.

(** C4, as stated, fails when the historical volatility is undefined: on
    two bars and a window of one return it is NaN, the only path has a
    predicted volatility that is not zero, and yet no path is counted as
    amplified, so the probability is 0/1. *)
Lemma C4_undefined_historical_vol_counts_no_path :
  Pipeline.historical_vol two_flat_bars 1 = Pandas.NaN /\
  (exists pv : R, Pipeline.predicted_vol 1 [1; 2]%R = Some pv /\ pv <> 0%R) /\
  exists up : Pandas.float,
    Pipeline.calculate_metrics two_flat_bars Scripted.one_path Scripted.one_path 1 = Ok (up, Some (0 / 1)%R).
Proof.
  assert (Hhv : Pipeline.historical_vol two_flat_bars 1 = Pandas.NaN).
  { rewrite (historical_vol_full_window two_flat_bars 1)
      by (positive_bars || (simpl; lia)).
    reflexivity. }
  split; [exact Hhv|]. split.
  - destruct predicted_vol_doubling as (pv & Hpv & Hpos).
    exists pv. split; [exact Hpv|]. now apply Rgt_not_eq.
  - eexists. change two_flat_bars with ([Scripted.bar_at 0 1] ++ [Scripted.bar_at 1 1]).
    rewrite calculate_metrics_ok by (simpl; congruence).
    change ([Scripted.bar_at 0 1] ++ [Scripted.bar_at 1 1]) with two_flat_bars. rewrite Hhv.
    rewrite amplification_count_filter, filter_none; [reflexivity|].
    apply List.Forall_forall. intros path _. apply gt_nan.
Qed.

(** ** The cycle and its collaborators *)

Section Frame.

Context {E : Env}.

Lemma steps_refl ks (st : St E) : steps (E := E) ks st st.
Proof. repeat split. exists []. now rewrite app_nil_r. Qed.

Lemma steps_trans ks (st1 st2 st3 : St E) :
  steps (E := E) ks st1 st2 -> steps (E := E) ks st2 st3 -> steps (E := E) ks st1 st3.
Proof.
  intros (Hm1 & Ha1 & evs1 & Ht1 & Hf1) (Hm2 & Ha2 & evs2 & Ht2 & Hf2).
  repeat split; try congruence.
  exists (evs1 ++ evs2). split.
  - now rewrite Ht2, Ht1, app_assoc.
  - now apply Forall_app.
Qed.

Lemma respects_ret {A} ks (a : A) : respects (E := E) ks (ret a).
Proof. intros st. apply steps_refl. Qed.

Lemma respects_lift {A} ks (r : res A) : respects (E := E) ks (lift r).
Proof. intros st. apply steps_refl. Qed.

Lemma respects_bind {A B} ks (m : M E A) (k : A -> M E B) :
  respects (E := E) ks m -> (forall a, respects (E := E) ks (k a)) -> respects (E := E) ks (bind m k).
Proof.
  intros Hm Hk st. unfold bind. specialize (Hm st).
  destruct (m st) as [[a|e] st1]; simpl in *; [|exact Hm].
  eapply steps_trans; [exact Hm|apply Hk].
Qed.

Lemma respects_try_except {A} ks (body : M E A) (handler : exn -> M E A) :
  respects (E := E) ks body -> (forall e, respects (E := E) ks (handler e)) ->
  respects (E := E) ks (try_except body handler).
Proof.
  intros Hb Hh st. unfold try_except. specialize (Hb st).
  destruct (body st) as [[a|e] st1]; simpl in *; [exact Hb|].
  eapply steps_trans; [exact Hb|apply Hh].
Qed.

Lemma respects_call {A} ks (ev : A -> Event) (f : World E -> A * World E) :
  (forall a, ks (kind_of (ev a)) = true) -> respects (E := E) ks (call ev f).
Proof.
  intros Hev st. unfold call. destruct (f (world st)) as [a w]. simpl.
  repeat split. exists [ev a]. split; [reflexivity|]. constructor; [apply Hev|constructor].
Qed.

Lemma respects_call_res {A} ks (ev : bool -> Event) (f : World E -> res A * World E) :
  (forall ok, ks (kind_of (ev ok)) = true) -> respects (E := E) ks (call_res ev f).
Proof.
  intros Hev. apply respects_bind; [|intros; apply respects_lift].
  apply respects_call. intros r. apply Hev.
Qed.

Lemma respects_get_world ks : respects (E := E) ks get_world.
Proof. intros st. apply steps_refl. Qed.

Lemma respects_get_model_loaded ks : respects (E := E) ks get_model_loaded.
Proof. intros st. apply steps_refl. Qed.

Lemma respects_get_artifacts ks : respects (E := E) ks get_artifacts.
Proof. intros st. apply steps_refl. Qed.

Lemma respects_for_each {A S} ks (body : S -> A -> M E S) (l : list A) (acc : S) :
  (forall acc x, respects (E := E) ks (body acc x)) -> respects (E := E) ks (App.for_each body l acc).
Proof.
  intros Hb. revert acc. induction l as [|x l IH]; intros acc; simpl.
  - apply respects_ret.
  - apply respects_bind; [apply Hb|apply IH].
Qed.

Lemma respects_make_prediction ks df predictor pred_horizon n_predictions interval :
  ks KPredict = true ->
  respects (E := E) ks (Pipeline.make_prediction df predictor pred_horizon n_predictions interval).
Proof.
  intros Hk. unfold Pipeline.make_prediction.
  apply respects_bind; [apply respects_lift|]. intros y.
  apply respects_bind; [now apply respects_call_res|]. intros [c v].
  apply respects_bind; [now apply respects_call_res|]. intros [c' v'].
  apply respects_ret.
Qed.

Lemma respects_create_plot ks hist_df c v symbol pred_horizon interval :
  ks KPlot = true ->
  respects (E := E) ks (Pipeline.create_plot hist_df c v symbol pred_horizon interval).
Proof.
  intros Hk. unfold Pipeline.create_plot.
  apply respects_try_except; [|intros; apply respects_ret].
  apply respects_bind; [now apply respects_call_res|]. intros _. apply respects_ret.
Qed.

Lemma respects_run_for_symbol ks df_full predictor symbol h n hp vw interval :
  ks KPredict = true -> ks KPlot = true ->
  respects (E := E) ks (Engine.run_for_symbol df_full predictor symbol h n hp vw interval).
Proof.
  intros Hp Hq. unfold Engine.run_for_symbol.
  destruct df_full as [[|b df]|]; try apply respects_ret.
  apply respects_bind; [now apply respects_make_prediction|]. intros [[c v] vc].
  apply respects_bind; [apply respects_lift|]. intros [up va].
  apply respects_bind; [now apply respects_create_plot|]. intros p. apply respects_ret.
Qed.

Lemma respects_fetch ks name symbol interval limit :
  ks KFetch = true -> respects (E := E) ks (DataSourceManager.fetch name symbol interval limit).
Proof.
  intros Hk. unfold DataSourceManager.fetch.
  destruct (DataSourceManager.has name); [|apply respects_lift].
  now apply respects_call.
Qed.

Lemma respects_forecast_symbol ks cc source interval predictor metrics symbol :
  ks KFetch = true -> ks KPredict = true -> ks KPlot = true ->
  respects (E := E) ks (App.forecast_symbol cc source interval predictor metrics symbol).
Proof.
  intros Hf Hp Hq. unfold App.forecast_symbol.
  apply respects_bind; [now apply respects_fetch|]. intros df.
  assert (Hrun : forall df,
    respects (E := E) ks
      (bind (Engine.run_for_symbol df predictor symbol (pred_horizon cc)
               (n_predictions cc) (hist_points cc) (vol_window cc) interval)
         (fun result =>
            match result with
            | Some result =>
                match chart_path result with
                | None => lift (Raise AttributeError)
                | Some p =>
                    bind (lift (Pathlib.relative_to p (Pipeline.repo (E := E) / "docs")%path))
                      (fun rel =>
                         ret (<[symbol := {| e_upside_prob := upside_prob result;
                                             e_vol_amp_prob := vol_amp_prob result;
                                             e_chart_path := Pathlib.str rel |}]> metrics))
                end
            | None => ret metrics
            end))).
  { intros df'. apply respects_bind; [now apply respects_run_for_symbol|].
    intros [result|]; [|apply respects_ret].
    destruct (chart_path result); [|apply respects_lift].
    apply respects_bind; [apply respects_lift|]. intros; apply respects_ret. }
  destruct df as [[|b df]|]; try apply respects_ret. apply Hrun.
Qed.

Lemma respects_forecast_source ks config cc predictor metrics source :
  ks KFetch = true -> ks KPredict = true -> ks KPlot = true ->
  respects (E := E) ks (App.forecast_source config cc predictor metrics source).
Proof.
  intros Hf Hp Hq. unfold App.forecast_source.
  destruct (config !! source) as [sec|]; [|apply respects_ret].
  apply respects_bind; [apply respects_lift|]. intros symbols.
  apply respects_bind; [apply respects_lift|]. intros interval.
  apply respects_for_each. intros acc x. now apply respects_forecast_symbol.
Qed.

Lemma respects_sources ks config cc predictor :
  ks KFetch = true -> ks KPredict = true -> ks KPlot = true ->
  respects (E := E) ks (App.for_each (App.forecast_source config cc predictor)
                 DataSourceManager.available ∅).
Proof.
  intros Hf Hp Hq. apply respects_for_each. intros acc x.
  now apply respects_forecast_source.
Qed.

Lemma respects_run_mock_mode ks : respects (E := E) ks App._run_mock_mode.
Proof.
  unfold App._run_mock_mode. apply respects_bind; [apply respects_get_world|].
  intros w. destruct (glob_png E w); apply respects_ret.
Qed.

Lemma respects_update ks metrics :
  ks KUpdate = true -> respects (E := E) ks (WebGenerator.update metrics).
Proof. intros Hk. unfold WebGenerator.update. now apply respects_call_res. Qed.

End Frame.

Section Oracle.

Context {E : Env}.

Lemma aborts_quiet {A} (m : M E A) :
  respects not_predict m -> aborts_on_oracle_failure (E := E) m.
Proof.
  intros Hm st. destruct (Hm st) as (_ & _ & evs & Ht & Hf).
  exists evs. split; [exact Ht|]. left.
  eapply List.Forall_impl; [|exact Hf]. intros ev Hev. now destruct ev.
Qed.

Lemma aborts_ret {A} (a : A) : aborts_on_oracle_failure (E := E) (ret a).
Proof. apply aborts_quiet, respects_ret. Qed.

Lemma aborts_lift {A} (r : res A) : aborts_on_oracle_failure (E := E) (lift r).
Proof. apply aborts_quiet, respects_lift. Qed.

Lemma aborts_bind {A B} (m : M E A) (k : A -> M E B) :
  aborts_on_oracle_failure (E := E) m -> (forall a, aborts_on_oracle_failure (E := E) (k a)) ->
  aborts_on_oracle_failure (E := E) (bind m k).
Proof.
  intros Hm Hk st. destruct (Hm st) as (evs1 & Ht1 & H1). unfold bind.
  destruct (m st) as [[a|e] st1]; simpl in *.
  - destruct H1 as [H1|(e & pre & ev & Hr & _)]; [|discriminate].
    destruct (Hk a st1) as (evs2 & Ht2 & H2).
    exists (evs1 ++ evs2). split; [now rewrite Ht2, Ht1, app_assoc|].
    destruct H2 as [H2|(e & pre & ev & Hr & -> & Hev & Hpre)].
    + left. now apply Forall_app.
    + right. exists e, (evs1 ++ pre), ev. repeat split; auto.
      * now rewrite app_assoc.
      * now apply Forall_app.
  - exists evs1. split; [exact Ht1|].
    destruct H1 as [H1|(e0 & pre & ev & [= <-] & H1)]; [now left|].
    right. now exists e, pre, ev.
Qed.

Lemma aborts_set_model_loaded b : aborts_on_oracle_failure (E := E) (set_model_loaded b).
Proof. intros st. exists []. split; [simpl; now rewrite app_nil_r|now left]. Qed.

Lemma aborts_set_artifacts a : aborts_on_oracle_failure (E := E) (set_artifacts a).
Proof. intros st. exists []. split; [simpl; now rewrite app_nil_r|now left]. Qed.

Lemma aborts_call_res {A} (ev : bool -> Event) (f : World E -> res A * World E) :
  failed_predict (ev true) = false -> aborts_on_oracle_failure (E := E) (call_res ev f).
Proof.
  intros Hev st. unfold call_res, bind, call, lift.
  destruct (f (world st)) as [[a|e] w]; simpl.
  - exists [ev true]. split; [reflexivity|]. left. now constructor.
  - exists [ev false]. split; [reflexivity|].
    destruct (failed_predict (ev false)) eqn:Hf.
    + right. exists e, [], (ev false). now repeat split.
    + left. now constructor.
Qed.

Lemma aborts_for_each {A S} (body : S -> A -> M E S) (l : list A) (acc : S) :
  (forall acc x, aborts_on_oracle_failure (E := E) (body acc x)) ->
  aborts_on_oracle_failure (E := E) (App.for_each body l acc).
Proof.
  intros Hb. revert acc. induction l as [|x l IH]; intros acc; simpl.
  - apply aborts_ret.
  - apply aborts_bind; [apply Hb|apply IH].
Qed.

Lemma aborts_make_prediction df predictor pred_horizon n_predictions interval :
  aborts_on_oracle_failure (E := E)
    (Pipeline.make_prediction df predictor pred_horizon n_predictions interval).
Proof.
  unfold Pipeline.make_prediction.
  apply aborts_bind; [apply aborts_lift|]. intros y.
  apply aborts_bind; [now apply aborts_call_res|]. intros [c v].
  apply aborts_bind; [now apply aborts_call_res|]. intros [c' v'].
  apply aborts_ret.
Qed.

Lemma aborts_run_for_symbol df_full predictor symbol h n hp vw interval :
  aborts_on_oracle_failure (E := E)
    (Engine.run_for_symbol df_full predictor symbol h n hp vw interval).
Proof.
  unfold Engine.run_for_symbol.
  destruct df_full as [[|b df]|]; try apply aborts_ret.
  apply aborts_bind; [apply aborts_make_prediction|]. intros [[c v] vc].
  apply aborts_bind; [apply aborts_lift|]. intros [up va].
  apply aborts_bind; [now apply aborts_quiet, respects_create_plot|].
  intros p. apply aborts_ret.
Qed.

Lemma aborts_forecast_symbol cc source interval predictor metrics symbol :
  aborts_on_oracle_failure (E := E)
    (App.forecast_symbol cc source interval predictor metrics symbol).
Proof.
  unfold App.forecast_symbol.
  apply aborts_bind; [now apply aborts_quiet, respects_fetch|]. intros df.
  assert (Hrun : forall df,
    aborts_on_oracle_failure (E := E)
      (bind (Engine.run_for_symbol df predictor symbol (pred_horizon cc)
               (n_predictions cc) (hist_points cc) (vol_window cc) interval)
         (fun result =>
            match result with
            | Some result =>
                match chart_path result with
                | None => lift (Raise AttributeError)
                | Some p =>
                    bind (lift (Pathlib.relative_to p (Pipeline.repo (E := E) / "docs")%path))
                      (fun rel =>
                         ret (<[symbol := {| e_upside_prob := upside_prob result;
                                             e_vol_amp_prob := vol_amp_prob result;
                                             e_chart_path := Pathlib.str rel |}]> metrics))
                end
            | None => ret metrics
            end))).
  { intros df'. apply aborts_bind; [apply aborts_run_for_symbol|].
    intros [result|]; [|apply aborts_ret].
    destruct (chart_path result); [|apply aborts_lift].
    apply aborts_bind; [apply aborts_lift|]. intros; apply aborts_ret. }
  destruct df as [[|b df]|]; try apply aborts_ret. apply Hrun.
Qed.

Lemma aborts_run_inference_mode mock config cc :
  aborts_on_oracle_failure (E := E) (App._run_inference_mode mock config cc).
Proof.
  unfold App._run_inference_mode.
  apply aborts_bind.
  { unfold App._ensure_model_loaded.
    apply aborts_bind; [apply aborts_quiet, respects_get_model_loaded|]. intros loaded.
    destruct (negb loaded && negb mock); [|apply aborts_ret].
    apply aborts_bind; [|intros; apply aborts_set_model_loaded].
    unfold ModelManager.load.
    apply aborts_bind; [now apply aborts_call_res|]. intros p.
    apply aborts_bind; [apply aborts_set_artifacts|]. intros; apply aborts_ret. }
  intros _. apply aborts_bind.
  { unfold ModelManager.predictor.
    apply aborts_bind; [apply aborts_quiet, respects_get_artifacts|].
    intros [p|]; [apply aborts_ret|apply aborts_lift]. }
  intros predictor. apply aborts_for_each. intros acc source.
  unfold App.forecast_source.
  destruct (config !! source) as [sec|]; [|apply aborts_ret].
  apply aborts_bind; [apply aborts_lift|]. intros symbols.
  apply aborts_bind; [apply aborts_lift|]. intros interval.
  apply aborts_for_each. intros acc' x. apply aborts_forecast_symbol.
Qed.

End Oracle.

Lemma app_cons_last {A} (pre post pre' : list A) (x y : A) :
  pre ++ x :: post = pre' ++ [y] -> post = [] \/ In x pre'.
Proof.
  revert pre'. induction pre as [|a pre IH]; intros pre' H.
  - destruct pre' as [|b pre']; simpl in H.
    + injection H as _ ->. now left.
    + injection H as -> _. right. now left.
  - destruct pre' as [|b pre']; simpl in H.
    + injection H as _ H. now destruct pre.
    + injection H as -> H. destruct (IH _ H) as [->|Hin]; [now left|right; now right].
Qed.

(** C6. In the loop over the instruments of a provider, an instrument whose
    fetch returns [None] (the provider's failure signal) or an empty frame
    is skipped: the report is unchanged, only the fetch is logged, and the
    loop goes on with the remaining instruments exactly as if it had
    started with them. *)
Theorem C6_provider_failure_skips_instrument {E : Env} (cc : CommonConfig)
    (source interval symbol : string) (predictor : Predictor E)
    (metrics : gmap string Entry) (rest : list string) (st : St E)
    (df : option (list Bar)) (w' : World E) :
  DataSourceManager.has source = true ->
  fetch_func E source symbol interval (hist_points cc + vol_window cc) (world st)
  = (df, w') ->
  df = None \/ df = Some [] ->
  let st' :=
    {| model_loaded := model_loaded st; artifacts := artifacts st; world := w';
       trace := trace st ++ [EvFetch source symbol interval
                               (hist_points cc + vol_window cc) (is_some df)] |} in
  App.forecast_symbol cc source interval predictor metrics symbol st = (Ok metrics, st') /\
  App.for_each (App.forecast_symbol cc source interval predictor)
    (symbol :: rest) metrics st
  = App.for_each (App.forecast_symbol cc source interval predictor) rest metrics st'.
Proof.
  intros Hhas Hfetch Hdf st'.
  assert (Hone : App.forecast_symbol cc source interval predictor metrics symbol st
                 = (Ok metrics, st')).
  { unfold App.forecast_symbol, DataSourceManager.fetch, bind, call.
    rewrite Hhas, Hfetch. destruct Hdf as [-> | ->]; reflexivity. }
  split; [exact Hone|].
  cbn [App.for_each]. unfold bind at 1. now rewrite Hone.
Qed.

Lemma C6_provider_failure_skips_instrument_witness :
  DataSourceManager.has "binance" = true /\
  fst (Scripted.fetch_func "binance" "AAA" "1h" 4 provider_fails_world) = None /\
  exists st' : St Scripted.env,
    trace st' = [EvFetch "binance" "AAA" "1h" 4 false] /\
    App.for_each (App.forecast_symbol (E := Scripted.env) Scripted.small_config "binance" "1h" tt)
      ["AAA"; "BBB"]%string ∅ provider_fails_state
    = App.for_each (App.forecast_symbol (E := Scripted.env) Scripted.small_config "binance" "1h" tt)
        ["BBB"]%string ∅ st'.
Proof.
  split; [reflexivity|]. split; [reflexivity|].
  eexists. split; [|
    apply (C6_provider_failure_skips_instrument (E := Scripted.env) Scripted.small_config
             "binance" "1h" "AAA" tt ∅ ["BBB"%string] provider_fails_state None
             (snd (Scripted.fetch_func "binance" "AAA" "1h" 4 provider_fails_world)));
    [reflexivity | reflexivity | left; reflexivity]].
  reflexivity.
Defined.

(** A whole cycle in that world: [AAA] is skipped, [BBB] is fetched,
    forecast, drawn and published, and the cycle succeeds. *)
Example cycle_after_provider_failure :
  let run := App.run_forecast (E := Scripted.env) false Scripted.two_symbols
               Scripted.small_config (App.init (E := Scripted.env) provider_fails_world) in
  fst run = Ok true /\
  map kind_of (trace (snd run))
  = [KLoad; KFetch; KFetch; KPredict; KPredict; KPlot; KUpdate] /\
  Scripted.predictions (world (snd run)) = [].
Proof. repeat split; reflexivity. Qed.

Section Loading.

Context {E : Env}.

Lemma ensure_model_loaded_noop (mock : bool) (st : St E) :
  model_loaded st = true \/ mock = true ->
  App._ensure_model_loaded mock st = (Ok tt, st).
Proof.
  intros H. unfold App._ensure_model_loaded, bind, get_model_loaded.
  destruct H as [-> | ->]; [reflexivity|].
  now rewrite andb_false_r.
Qed.

Lemma ensure_model_loaded_loads (st : St E) :
  model_loaded st = false ->
  App._ensure_model_loaded false st
  = match fst (from_pretrained E (world st)) with
    | Ok p =>
        (Ok tt, {| model_loaded := true; artifacts := Some p;
                   world := snd (from_pretrained E (world st));
                   trace := trace st ++ [EvLoad true] |})
    | Raise e =>
        (Raise e, {| model_loaded := false; artifacts := artifacts st;
                     world := snd (from_pretrained E (world st));
                     trace := trace st ++ [EvLoad false] |})
    end.
Proof.
  intros Hl.
  unfold App._ensure_model_loaded, ModelManager.load, call_res, bind, call, lift,
    get_model_loaded, set_artifacts, set_model_loaded, ret.
  rewrite Hl. cbn [negb andb].
  destruct (from_pretrained E (world st)) as [[p|e] w]; simpl; [reflexivity|].
  now rewrite Hl.
Qed.

(** What a non-mock aggregation logs: at most one load, first, and then
    fetches, predictions and plots. *)
Lemma run_inference_mode_logs (ks : Kind -> bool) mock config cc (st : St E) :
  ks KLoad = true -> ks KFetch = true -> ks KPredict = true -> ks KPlot = true ->
  exists evs,
    trace (snd (App._run_inference_mode mock config cc st)) = trace st ++ evs /\
    Forall (fun ev => ks (kind_of ev) = true) evs.
Proof.
  intros Hl Hf Hp Hq.
  assert (Hrest : respects (E := E) ks
            (bind ModelManager.predictor
               (fun predictor =>
                  App.for_each (App.forecast_source config cc predictor)
                    DataSourceManager.available ∅))).
  { apply respects_bind.
    - unfold ModelManager.predictor. apply respects_bind; [apply respects_get_artifacts|].
      intros [p|]; [apply respects_ret|apply respects_lift].
    - intros p. now apply respects_sources. }
  unfold App._run_inference_mode. unfold bind at 1.
  destruct (model_loaded st) eqn:Hm.
  - rewrite ensure_model_loaded_noop by now left.
    destruct (Hrest st) as (_ & _ & evs & Ht & Hall). now exists evs.
  - destruct mock.
    + rewrite ensure_model_loaded_noop by now right.
      destruct (Hrest st) as (_ & _ & evs & Ht & Hall). now exists evs.
    + rewrite ensure_model_loaded_loads by assumption.
      destruct (fst (from_pretrained E (world st))) as [p|e].
      * match goal with |- context [bind _ _ ?s] => destruct (Hrest s) as (_ & _ & evs & Ht & Hall) end.
        exists (EvLoad true :: evs). split.
        { rewrite Ht. simpl. now rewrite <- app_assoc. }
        constructor; assumption.
      * exists [EvLoad false]. split; [reflexivity|]. constructor; [assumption|constructor].
Qed.

(** [run_forecast], one step at a time. *)
Lemma run_forecast_unfold mock config cc (st : St E) :
  App.run_forecast mock config cc st
  = match (if mock then App._run_mock_mode
           else App._run_inference_mode mock config cc) st with
    | (Ok metrics, st1) =>
        if decide (metrics = ∅) then (Ok false, st1)
        else
          (Ok (is_ok (fst (render_template E metrics (world st1)))),
           {| model_loaded := model_loaded st1; artifacts := artifacts st1;
              world := snd (render_template E metrics (world st1));
              trace := trace st1
                       ++ [EvUpdate metrics
                             (is_ok (fst (render_template E metrics (world st1))))] |})
    | (Raise e, st1) => (Ok false, st1)
    end.
Proof.
  unfold App.run_forecast, try_except, bind.
  destruct ((if mock then App._run_mock_mode
             else App._run_inference_mode mock config cc) st) as [[metrics|e] st1];
    [|reflexivity].
  destruct (decide (metrics = ∅)); [reflexivity|].
  unfold WebGenerator.update, call_res, bind, call, lift, ret.
  destruct (render_template E metrics (world st1)) as [[p|e] w]; reflexivity.
Qed.

End Loading.

(** What a cycle logs: the calls of its aggregation, none of them to the
    publisher, and then at most one call of the publisher. *)
Lemma run_forecast_trace {E : Env} (mock : bool)
    (config : gmap string (gmap string string)) (cc : CommonConfig) (st : St E) :
  exists agg,
    Forall (fun ev => kind_of ev <> KUpdate) agg /\
    (trace (snd (App.run_forecast mock config cc st)) = trace st ++ agg \/
     exists metrics ok,
       trace (snd (App.run_forecast mock config cc st))
       = trace st ++ agg ++ [EvUpdate metrics ok]).
Proof.
  assert (H : exists agg,
            trace (snd ((if mock then App._run_mock_mode
                         else App._run_inference_mode mock config cc) st))
            = trace st ++ agg /\
            Forall (fun ev => not_update (kind_of ev) = true) agg).
  { destruct mock.
    - destruct (respects_run_mock_mode (E := E) not_update st) as (_ & _ & agg & Ht & Hall).
      now exists agg.
    - now apply run_inference_mode_logs. }
  destruct H as (agg & Ht & Hall). exists agg. split.
  { eapply List.Forall_impl; [|exact Hall]. intros ev Hev Hk. now destruct ev. }
  rewrite run_forecast_unfold.
  destruct ((if mock then App._run_mock_mode
             else App._run_inference_mode mock config cc) st) as [[metrics|e] st1];
    cbn [snd] in *; [|now left].
  destruct (decide (metrics = ∅)); cbn [snd trace]; [now left|].
  right. eexists _, _. now rewrite Ht, <- app_assoc.
Qed.

(** A failed call to the oracle is the last event of a cycle, and the cycle
    then returns [False]. *)
Lemma run_forecast_aborts {E : Env} (mock : bool)
    (config : gmap string (gmap string string)) (cc : CommonConfig) (st : St E) :
  exists evs,
    trace (snd (App.run_forecast mock config cc st)) = trace st ++ evs /\
    (Forall (fun ev => failed_predict ev = false) evs \/
     (fst (App.run_forecast mock config cc st) = Ok false /\
      exists pre ev,
        evs = pre ++ [ev] /\ failed_predict ev = true /\
        Forall (fun ev => failed_predict ev = false) pre)).
Proof.
  unfold App.run_forecast, try_except.
  set (body := bind _ _).
  assert (Hbody : aborts_on_oracle_failure (E := E) body).
  { unfold body. apply aborts_bind.
    - destruct mock; [apply aborts_quiet, respects_run_mock_mode|
                      apply aborts_run_inference_mode].
    - intros metrics. destruct (decide (metrics = ∅)); [apply aborts_ret|].
      apply aborts_bind; [|intros; apply aborts_ret].
      unfold WebGenerator.update. now apply aborts_call_res. }
  destruct (Hbody st) as (evs & Ht & H).
  exists evs. destruct (body st) as [[a|e] st1] eqn:Hrun; cbn [fst snd] in *.
  - split; [exact Ht|]. left.
    destruct H as [H|(e & pre' & ev' & Hr & _)]; [exact H|discriminate].
  - split; [exact Ht|].
    destruct H as [H|(e' & pre' & ev' & _ & Heq & Hev & Hpre)]; [now left|].
    right. split; [reflexivity|]. now exists pre', ev'.
Qed.

(** C2 (as amended). In every cycle, a call to the forecasting oracle that
    fails is the last thing the cycle does: the failure leaves the
    per-instrument loop, no later instrument is fetched or forecast, the
    publisher is not invoked at all, and the cycle-level handler of
    [run_forecast] turns the failure into the failure signal [False]. *)
Theorem C2_oracle_failure_ends_the_cycle {E : Env} (mock : bool)
    (config : gmap string (gmap string string)) (cc : CommonConfig) (st : St E) :
  exists evs,
    trace (snd (App.run_forecast mock config cc st)) = trace st ++ evs /\
    forall pre ev post,
      evs = pre ++ ev :: post -> failed_predict ev = true ->
      post = [] /\
      fst (App.run_forecast mock config cc st) = Ok false /\
      Forall (fun ev => kind_of ev <> KUpdate) evs.
Proof.
  destruct (run_forecast_aborts mock config cc st) as (evs & Ht & H).
  exists evs. split; [exact Ht|]. intros pre ev post Hevs Hev.
  assert (Hlast : post = [] /\ fst (App.run_forecast mock config cc st) = Ok false).
  { destruct H as [H|(Hr & pre' & ev' & Heq & _ & Hpre)].
    - subst evs. apply Forall_app in H as [_ H]. inversion H; subst. congruence.
    - split; [|exact Hr]. rewrite Hevs in Heq.
      apply app_cons_last in Heq as [->|Hin]; [reflexivity|].
      rewrite List.Forall_forall in Hpre. specialize (Hpre _ Hin). congruence. }
  destruct Hlast as [-> Hr]. repeat split; [exact Hr|].
  destruct (run_forecast_trace mock config cc st) as (agg & Hagg & [Ht'|(m & ok & Ht')]);
    rewrite Ht in Ht'; apply app_inv_head in Ht'.
  - rewrite Ht'. exact Hagg.
  - rewrite Hevs in Ht'. apply app_inj_tail in Ht' as [_ ->]. discriminate Hev.
Qed.

(** C2, as stated, fails: after the oracle failure for [AAA], the
    instrument [BBB] is never fetched, no metrics are computed for it, and
    the cycle ends with the failure signal. *)
Lemma C2_later_instrument_is_not_processed :
  let run := App.run_forecast (E := Scripted.env) false Scripted.two_symbols Scripted.small_config
               (App.init (E := Scripted.env) oracle_fails_world) in
  fst run = Ok false /\
  trace (snd run)
  = [EvLoad true; EvFetch "binance" "AAA" "1h" 4 true;
     EvPredict (Engine.df_for_model Scripted.four_bars) [10800000000000; 14400000000000] 2
       (6 / 10) (9 / 10) 1 false] /\
  Scripted.fetches (world (snd run)) = [Some Scripted.four_bars].
Proof. repeat split; reflexivity. Qed.

Lemma C2_oracle_failure_ends_the_cycle_witness :
  let run := App.run_forecast (E := Scripted.env) false Scripted.two_symbols
               Scripted.small_config (App.init (E := Scripted.env) oracle_fails_world) in
  (exists pre ev, trace (snd run) = pre ++ [ev] /\ failed_predict ev = true) /\
  fst run = Ok false.
Proof.
  intros run.
  destruct (C2_oracle_failure_ends_the_cycle (E := Scripted.env) false
              Scripted.two_symbols Scripted.small_config
              (App.init (E := Scripted.env) oracle_fails_world)) as (evs & Ht & H).
  fold run in Ht, H.
  set (pre := [EvLoad true; EvFetch "binance" "AAA" "1h" 4 true]).
  set (ev := EvPredict (Engine.df_for_model Scripted.four_bars)
               [10800000000000; 14400000000000] 2 (6 / 10) (9 / 10) 1 false).
  assert (Hrun : trace (snd run) = pre ++ [ev]) by reflexivity.
  split.
  - exists pre, ev. split; [exact Hrun|reflexivity].
  - apply (H pre ev []); [|reflexivity].
    transitivity (trace (snd run)); [symmetry; exact Ht|exact Hrun].
Defined.

(** C7 (as amended). The aggregation of a cycle never calls the publisher.
    When it ends with an empty report, the cycle returns [False] and
    nothing is published; when it ends with a report that is not empty,
    the publisher is called exactly once, with that report, and the cycle
    returns [True] if the call returns and [False] if it raises. *)
Theorem C7_publisher_called_once_on_a_report {E : Env} (mock : bool)
    (config : gmap string (gmap string string)) (cc : CommonConfig) (st : St E) :
  let aggregate :=
    (if mock then App._run_mock_mode else App._run_inference_mode mock config cc) st in
  let st1 := snd aggregate in
  (exists evs, trace st1 = trace st ++ evs /\
               Forall (fun ev => kind_of ev <> KUpdate) evs) /\
  forall metrics : gmap string Entry,
    fst aggregate = Ok metrics ->
    (metrics = ∅ -> App.run_forecast mock config cc st = (Ok false, st1)) /\
    (metrics <> ∅ ->
     App.run_forecast mock config cc st
     = (Ok (is_ok (fst (render_template E metrics (world st1)))),
        {| model_loaded := model_loaded st1; artifacts := artifacts st1;
           world := snd (render_template E metrics (world st1));
           trace := trace st1
                    ++ [EvUpdate metrics
                          (is_ok (fst (render_template E metrics (world st1))))] |})).
Proof.
  intros aggregate st1. split.
  - assert (H : exists evs, trace st1 = trace st ++ evs /\
                            Forall (fun ev => not_update (kind_of ev) = true) evs).
    { unfold st1, aggregate. destruct mock.
      - destruct (respects_run_mock_mode not_update st) as (_ & _ & evs & Ht & Hall).
        now exists evs.
      - now apply run_inference_mode_logs. }
    destruct H as (evs & Ht & Hall). exists evs. split; [exact Ht|].
    eapply List.Forall_impl; [|exact Hall]. intros ev Hev Hk. now destruct ev.
  - intros metrics Hagg. rewrite run_forecast_unfold. subst st1.
    unfold aggregate in *. clear aggregate.
    destruct ((if mock then App._run_mock_mode
               else App._run_inference_mode mock config cc) st) as [r st1].
    simpl in Hagg. subst r. cbn [snd].
    split; intros Hm; destruct (decide (metrics = ∅)); try contradiction; reflexivity.
Qed.

(** C7, as stated, fails: the report is not empty and the publisher is
    called once with it, but the call raises and the cycle returns the
    failure signal. *)
Lemma C7_cycle_fails_when_publisher_raises :
  let run := App.run_forecast (E := Scripted.env) true ∅ Scripted.small_config
               (App.init (E := Scripted.env) publisher_fails_world) in
  fst run = Ok false /\
  trace (snd run) = [EvUpdate {[ "AAA"%string := App.mock_entry "AAA" ]} false] /\
  ({[ "AAA"%string := App.mock_entry "AAA" ]} : gmap string Entry) <> ∅.
Proof.
  split; [reflexivity|]. split; [reflexivity|].
  apply insert_non_empty.
Qed.

Lemma C7_publisher_called_once_on_a_report_witness :
  let st := App.init (E := Scripted.env) one_chart_world in
  fst (App._run_mock_mode st) = Ok {[ "AAA"%string := App.mock_entry "AAA" ]} /\
  fst (App.run_forecast (E := Scripted.env) true ∅ Scripted.small_config st) = Ok true /\
  trace (snd (App.run_forecast (E := Scripted.env) true ∅ Scripted.small_config st))
  = [EvUpdate {[ "AAA"%string := App.mock_entry "AAA" ]} true].
Proof.
  intros st.
  assert (Hagg : fst (App._run_mock_mode st)
                 = Ok {[ "AAA"%string := App.mock_entry "AAA" ]}) by reflexivity.
  split; [exact Hagg|].
  destruct (C7_publisher_called_once_on_a_report (E := Scripted.env) true ∅
              Scripted.small_config st) as [_ H].
  destruct (H _ Hagg) as [_ Hpub].
  rewrite Hpub by apply insert_non_empty.
  split; reflexivity.
Defined.

Lemma mock_report_lookup (chart_files : list string) (m0 : gmap string Entry)
    (symbol : string) (entry : Entry) :
  fold_left (fun metrics s => <[s := App.mock_entry s]> metrics) chart_files m0
    !! symbol = Some entry
  <-> (In symbol chart_files /\ entry = App.mock_entry symbol)
      \/ (~ In symbol chart_files /\ m0 !! symbol = Some entry).
Proof.
  revert m0. induction chart_files as [|s l IH]; intros m0; simpl.
  - tauto.
  - rewrite IH. destruct (decide (s = symbol)) as [->|Hne].
    + rewrite lookup_insert_eq. split.
      * intros [[Hin ->]|[Hn [= <-]]]; left; auto.
      * intros [[_ ->]|[Hn _]]; [|tauto].
        destruct (in_dec string_dec symbol l); [left|right]; auto.
    + rewrite lookup_insert_ne by assumption. split.
      * intros [[Hin ->]|[Hn Hm]]; [left|right]; tauto.
      * intros [[[?|Hin] ->]|[Hn Hm]]; [congruence|left|right]; tauto.
Qed.

(** C9. A cycle in mock mode calls neither the data provider nor the
    oracle: it loads no model, fetches nothing and predicts nothing, and
    leaves the model fields as they were.  Its report is made from the
    charts directory alone: it has exactly one entry for each chart found
    there, holding the placeholder probabilities 0.5 and 0.5 and the path
    of that chart, and nothing else.  With an empty report the cycle ends
    at once with [False]; otherwise its one call is the call of the
    publisher with that report, and the cycle returns whether that call
    returned. *)
Theorem C9_mock_cycle_uses_charts_only {E : Env}
    (config : gmap string (gmap string string)) (cc : CommonConfig) (st : St E) :
  let run := App.run_forecast true config cc st in
  model_loaded (snd run) = model_loaded st /\
  artifacts (snd run) = artifacts st /\
  (exists evs,
     trace (snd run) = trace st ++ evs /\
     Forall (fun ev => kind_of ev <> KLoad /\ kind_of ev <> KFetch
                       /\ kind_of ev <> KPredict) evs) /\
  exists report,
    App._run_mock_mode st = (Ok report, st) /\
    (forall symbol entry,
       report !! symbol = Some entry <->
       (exists chart_files,
          glob_png E (world st) = Some chart_files /\ In symbol chart_files) /\
       entry = {| e_upside_prob := Some (5 / 10)%R;
                  e_vol_amp_prob := Some (5 / 10)%R;
                  e_chart_path := ("static/chart/" ++ symbol ++ ".png")%string |}) /\
    (report = ∅ -> run = (Ok false, st)) /\
    (report <> ∅ ->
     let published := is_ok (fst (render_template E report (world st))) in
     fst run = Ok published /\
     trace (snd run) = trace st ++ [EvUpdate report published]).
Proof.
  intros run.
  assert (Hmode : exists report,
             App._run_mock_mode st = (Ok report, st) /\
             forall symbol entry,
               report !! symbol = Some entry <->
               (exists chart_files,
                  glob_png E (world st) = Some chart_files /\ In symbol chart_files) /\
               entry = {| e_upside_prob := Some (5 / 10)%R;
                          e_vol_amp_prob := Some (5 / 10)%R;
                          e_chart_path := ("static/chart/" ++ symbol ++ ".png")%string |}).
  { unfold App._run_mock_mode, bind, get_world, ret.
    destruct (glob_png E (world st)) as [chart_files|].
    - eexists. split; [reflexivity|]. intros symbol entry.
      rewrite mock_report_lookup, lookup_empty.
      change (App.mock_entry symbol)
        with {| e_upside_prob := Some (5 / 10)%R;
                e_vol_amp_prob := Some (5 / 10)%R;
                e_chart_path := ("static/chart/" ++ symbol ++ ".png")%string |}.
      split.
      + intros [[Hin ->]|[_ Hno]]; [|discriminate Hno].
        split; [now exists chart_files|reflexivity].
      + intros [(l & [= <-] & Hin) ->]. now left.
    - exists ∅. split; [reflexivity|]. intros symbol entry. rewrite lookup_empty.
      split; [discriminate|]. intros [(l & Hl & _) _]. discriminate Hl. }
  destruct Hmode as (report & Hmode & Hreport).
  assert (Hrun : run
                 = if decide (report = ∅) then (Ok false, st)
                   else
                     (Ok (is_ok (fst (render_template E report (world st)))),
                      {| model_loaded := model_loaded st; artifacts := artifacts st;
                         world := snd (render_template E report (world st));
                         trace := trace st
                                  ++ [EvUpdate report
                                        (is_ok (fst (render_template E report
                                                       (world st))))] |})).
  { unfold run. rewrite run_forecast_unfold. cbv iota. now rewrite Hmode. }
  rewrite Hrun. clear Hrun run.
  destruct (decide (report = ∅)) as [Hempty|Hfull]; cbn [fst snd model_loaded artifacts trace].
  - split; [reflexivity|]. split; [reflexivity|]. split.
    { exists []. now rewrite app_nil_r. }
    exists report. split; [exact Hmode|]. split; [exact Hreport|].
    split; [reflexivity|]. intros Hne. contradiction.
  - split; [reflexivity|]. split; [reflexivity|]. split.
    { eexists. split; [reflexivity|]. constructor; [|constructor].
      repeat split; discriminate. }
    exists report. split; [exact Hmode|]. split; [exact Hreport|].
    split; [intros He; contradiction|]. intros _. split; reflexivity.
Qed.

Section Reuse.

Context {E : Env}.

Lemma respects_after_load (ks : Kind -> bool) config cc :
  ks KFetch = true -> ks KPredict = true -> ks KPlot = true ->
  respects (E := E) ks
    (bind ModelManager.predictor
       (fun predictor =>
          App.for_each (App.forecast_source config cc predictor)
            DataSourceManager.available ∅)).
Proof.
  intros Hf Hp Hq. apply respects_bind.
  - unfold ModelManager.predictor. apply respects_bind; [apply respects_get_artifacts|].
    intros [p|]; [apply respects_ret|apply respects_lift].
  - intros p. now apply respects_sources.
Qed.

Lemma run_inference_mode_after_load mock config cc (st : St E) :
  App._run_inference_mode mock config cc st
  = match App._ensure_model_loaded mock st with
    | (Ok _, st1) =>
        bind ModelManager.predictor
          (fun predictor =>
             App.for_each (App.forecast_source config cc predictor)
               DataSourceManager.available ∅) st1
    | (Raise e, st1) => (Raise e, st1)
    end.
Proof.
  unfold App._run_inference_mode. unfold bind at 1.
  now destruct (App._ensure_model_loaded mock st) as [[[]|e] st1].
Qed.

(** The end of a cycle adds at most a call of the publisher. *)
Lemma steps_run_forecast (ks : Kind -> bool) (mock : bool) config cc (st st0 : St E) :
  ks KUpdate = true ->
  steps (E := E) ks st0
    (snd ((if mock then App._run_mock_mode
           else App._run_inference_mode mock config cc) st)) ->
  steps (E := E) ks st0 (snd (App.run_forecast mock config cc st)).
Proof.
  intros Hu Hagg. rewrite run_forecast_unfold.
  destruct ((if mock then App._run_mock_mode
             else App._run_inference_mode mock config cc) st) as [[metrics|e] st1];
    [|exact Hagg].
  destruct (decide (metrics = ∅)); [exact Hagg|].
  eapply steps_trans; [exact Hagg|]. cbn [snd].
  repeat split. eexists. split; [reflexivity|]. constructor; [exact Hu|constructor].
Qed.

(** A cycle that starts with the model loaded keeps it and loads nothing. *)
Lemma run_forecast_loaded mock config cc (st : St E) :
  model_loaded st = true ->
  steps not_load st (snd (App.run_forecast mock config cc st)).
Proof.
  intros Hl. apply steps_run_forecast; [reflexivity|].
  destruct mock; [apply respects_run_mock_mode|].
  rewrite run_inference_mode_after_load, ensure_model_loaded_noop by now left.
  now apply respects_after_load.
Qed.

Lemma run_scheduler_loaded mock config cc (ticks : nat) (st : St E) :
  model_loaded st = true ->
  steps not_load st (snd (App.run_scheduler mock config cc ticks st)).
Proof.
  revert st. induction ticks as [|n IH]; intros st Hl; [apply steps_refl|].
  cbn [App.run_scheduler]. unfold bind.
  pose proof (run_forecast_loaded mock config cc st Hl) as Hone.
  destruct (App.run_forecast mock config cc st) as [[b|e] st1]; [|exact Hone].
  cbn [snd] in Hone. eapply steps_trans; [exact Hone|]. apply IH.
  destruct Hone as (Hm & _). congruence.
Qed.

End Reuse.

Lemma not_load_kind (evs : list Event) :
  Forall (fun ev => not_load (kind_of ev) = true) evs ->
  Forall (fun ev => kind_of ev <> KLoad) evs.
Proof.
  intros H. eapply List.Forall_impl; [|exact H]. intros ev Hev Hk. now destruct ev.
Qed.

(** C10 (as amended). Across the cycles of one process: once the model is
    loaded, no later cycle loads it again and every later cycle keeps the
    same predictor; a non-mock cycle that starts without a model tries to
    load it as its first call, and when that succeeds the model is loaded
    from then on; when the load fails, the cycle makes no other call and
    returns [False], a run-once process exits with code 1, and the model
    is still marked as not loaded, so that the next scheduled cycle tries
    to load it again. *)
Theorem C10_model_loaded_once_and_retried_after_failure {E : Env}
    (config : gmap string (gmap string string)) (cc : CommonConfig) :
  (forall (mock : bool) (ticks : nat) (st : St E) (p : Predictor E),
     model_loaded st = true -> artifacts st = Some p ->
     let st' := snd (App.run_scheduler mock config cc ticks st) in
     model_loaded st' = true /\ artifacts st' = Some p /\
     exists evs, trace st' = trace st ++ evs /\
                 Forall (fun ev => kind_of ev <> KLoad) evs) /\
  (forall (st : St E) (p : Predictor E),
     model_loaded st = false -> fst (from_pretrained E (world st)) = Ok p ->
     let st' := snd (App.run_forecast false config cc st) in
     model_loaded st' = true /\ artifacts st' = Some p /\
     exists evs, trace st' = trace st ++ EvLoad true :: evs /\
                 Forall (fun ev => kind_of ev <> KLoad) evs) /\
  (forall (st : St E) (e : exn),
     model_loaded st = false -> fst (from_pretrained E (world st)) = Raise e ->
     App.run_forecast false config cc st
     = (Ok false,
        {| model_loaded := false; artifacts := artifacts st;
           world := snd (from_pretrained E (world st));
           trace := trace st ++ [EvLoad false] |}) /\
     fst (App.main false config cc st) = Ok 1).
Proof.
  split; [|split].
  - intros mock ticks st p Hl Ha st'.
    destruct (run_scheduler_loaded mock config cc ticks st Hl) as (Hm & Hart & evs & Ht & Hall).
    fold st' in Hm, Hart, Ht. repeat split; try congruence.
    exists evs. split; [exact Ht|now apply not_load_kind].
  - intros st p Hl Hload st'.
    set (st1 := {| model_loaded := true; artifacts := Some p;
                   world := snd (from_pretrained E (world st));
                   trace := trace st ++ [EvLoad true] |}).
    assert (H : steps not_load st1 st').
    { unfold st'. apply steps_run_forecast; [reflexivity|].
      rewrite run_inference_mode_after_load, ensure_model_loaded_loads, Hload by assumption.
      now apply respects_after_load. }
    destruct H as (Hm & Hart & evs & Ht & Hall). repeat split; try assumption.
    exists evs. split; [|now apply not_load_kind].
    rewrite Ht. simpl. now rewrite <- app_assoc.
  - intros st e Hl Hload.
    assert (Hrun : App.run_forecast false config cc st
                   = (Ok false,
                      {| model_loaded := false; artifacts := artifacts st;
                         world := snd (from_pretrained E (world st));
                         trace := trace st ++ [EvLoad false] |})).
    { rewrite run_forecast_unfold, run_inference_mode_after_load,
        ensure_model_loaded_loads, Hload by assumption. reflexivity. }
    split; [exact Hrun|]. unfold App.main, bind. now rewrite Hrun.
Qed.

(** C10, as stated, fails: the first load fails, the process goes on to
    the next scheduled cycle, and that cycle loads the model again. *)
Lemma C10_failed_load_is_retried_by_next_cycle :
  let run := App.run_scheduler (E := Scripted.env) false ∅ Scripted.small_config 2
               (App.init (E := Scripted.env) load_fails_once_world) in
  fst run = Ok tt /\
  trace (snd run) = [EvLoad false; EvLoad true] /\
  model_loaded (snd run) = true.
Proof. repeat split; reflexivity. Qed.

Lemma C10_model_loaded_once_and_retried_after_failure_witness :
  let st0 := App.init (E := Scripted.env) load_fails_once_world in
  let st1 := snd (App.run_forecast (E := Scripted.env) false ∅ Scripted.small_config st0) in
  let st2 := snd (App.run_forecast (E := Scripted.env) false ∅ Scripted.small_config st1) in
  model_loaded st0 = false /\
  fst (App.main (E := Scripted.env) false ∅ Scripted.small_config st0) = Ok 1 /\
  model_loaded st1 = false /\
  model_loaded st2 = true /\
  forall ticks,
    model_loaded
      (snd (App.run_scheduler (E := Scripted.env) false ∅ Scripted.small_config ticks st2))
    = true.
Proof.
  intros st0 st1 st2.
  destruct (C10_model_loaded_once_and_retried_after_failure (E := Scripted.env) ∅
              Scripted.small_config) as (Hreuse & Hload & Hfail).
  assert (H0 : model_loaded st0 = false) by reflexivity.
  destruct (Hfail st0 (ExternalError "from_pretrained") H0 eq_refl) as (Hrun & Hmain).
  assert (H1 : model_loaded st1 = false) by (unfold st1; now rewrite Hrun).
  destruct (Hload st1 tt H1 eq_refl) as (H2 & Ha2 & _).
  fold st2 in H2, Ha2.
  repeat split; try assumption.
  intros ticks. now destruct (Hreuse false ticks st2 tt H2 Ha2) as (H & _).
Defined.

Section Renderer.

Context {E : Env}.

(** [create_plot] never raises: a failure of the drawing is turned into
    [None], after which the caller still builds a [ForecastResult]. *)
Lemma create_plot_never_raises hist_df c v symbol pred_horizon interval (st : St E) :
  fst (Pipeline.create_plot hist_df c v symbol pred_horizon interval st)
  = Ok (if is_ok (fst (savefig E hist_df c v symbol pred_horizon interval (world st)))
        then Some (Pipeline.chart_file (E := E) symbol)
        else None).
Proof.
  unfold Pipeline.create_plot, try_except, call_res, bind, call, lift, ret.
  now destruct (savefig E hist_df c v symbol pred_horizon interval (world st))
    as [[[]|e] w].
Qed.

End Renderer.

(** C1 (what the code does at the failing input). A cycle over the two
    instruments [AAA] and [BBB] in which drawing the chart of [AAA] fails:
    [create_plot] returns [None], [run_for_symbol] still returns a result,
    and building the report entry raises [AttributeError] out of the loop.
    The cycle returns [False]; [BBB] is never fetched and nothing is
    published. *)
Theorem C1_renderer_failure_aborts_the_cycle :
  let run := App.run_forecast (E := Scripted.env) false Scripted.two_symbols
               Scripted.small_config (App.init (E := Scripted.env) renderer_fails_world) in
  fst run = Ok false /\
  trace (snd run)
  = [EvLoad true; EvFetch "binance" "AAA" "1h" 4 true;
     EvPredict (Engine.df_for_model Scripted.four_bars)
       [10800000000000; 14400000000000] 2 (6 / 10) (9 / 10) 1 true;
     EvPredict (Engine.df_for_model Scripted.four_bars)
       [10800000000000; 14400000000000] 2 (9 / 10) (9 / 10) 1 true;
     EvPlot "AAA" false] /\
  Scripted.fetches (world (snd run)) = [Some Scripted.four_bars] /\
  fst (App._run_inference_mode (E := Scripted.env) false Scripted.two_symbols
         Scripted.small_config (App.init (E := Scripted.env) renderer_fails_world))
  = Raise AttributeError.
Proof. repeat split; reflexivity. Qed.

(** The same cycle when both charts are drawn: both instruments are
    processed and the cycle succeeds. *)
Example cycle_with_two_instruments :
  let run := App.run_forecast (E := Scripted.env) false Scripted.two_symbols
               Scripted.small_config (App.init (E := Scripted.env) all_ok_world) in
  fst run = Ok true /\
  map kind_of (trace (snd run))
  = [KLoad; KFetch; KPredict; KPredict; KPlot; KFetch; KPredict; KPredict; KPlot; KUpdate].
Proof. split; reflexivity. Qed.

(** * Further properties *)

(** ** More on [calculate_metrics] *)

Lemma filter_length_le {A} (g : A -> bool) (l : list A) :
  (length (List.filter g l) <= length l)%nat.
Proof. induction l as [|a l IH]; simpl; [lia|]. destruct (g a); simpl; lia. Qed.

Lemma ratio_in_unit (k n : nat) : (k <= n)%nat -> n <> O -> (0 <= INR k / INR n <= 1)%R.
Proof.
  intros Hk Hn. assert (Hpos : (0 < INR n)%R) by (apply lt_0_INR; lia).
  pose proof (pos_INR k) as H0. apply le_INR in Hk. split.
  - apply Rmult_le_pos; [exact H0|]. left. now apply Rinv_0_lt_compat.
  - apply (Rmult_le_reg_r (INR n)); [exact Hpos|].
    unfold Rdiv. rewrite Rmult_assoc, Rinv_l by lra. lra.
Qed.

(** [calculate_metrics] returns exactly when the history has a bar, the
    main frame has a row and the volatility frame has a column; the checks
    fail in the order of the source. *)
Lemma calculate_metrics_cases (hist_df : list Bar)
    (close_preds v_close_preds : PredFrame) (vol_window : Z) :
  match hist_df, n_rows close_preds, columns v_close_preds with
  | [], _, _ =>
      Pipeline.calculate_metrics hist_df close_preds v_close_preds vol_window
      = Raise IndexError
  | _ :: _, O, _ =>
      Pipeline.calculate_metrics hist_df close_preds v_close_preds vol_window
      = Raise IndexError
  | _ :: _, S _, [] =>
      Pipeline.calculate_metrics hist_df close_preds v_close_preds vol_window
      = Raise ZeroDivisionError
  | _ :: _, S _, _ :: _ =>
      is_ok (Pipeline.calculate_metrics hist_df close_preds v_close_preds vol_window)
      = true
  end.
Proof.
  destruct hist_df as [|b0 hist]; [reflexivity|].
  destruct (exists_last (l := b0 :: hist)) as (init & b & Heq); [discriminate|].
  rewrite Heq. destruct (init ++ [b]) as [|b1 l1] eqn:Hl; [now destruct init|].
  rewrite <- Hl. clear Hl Heq.
  destruct (n_rows close_preds) as [|n] eqn:Hn.
  - unfold Pipeline.calculate_metrics, Pandas.iloc_last, row_last.
    rewrite map_app. cbn [map]. rewrite item_last_app. cbn [res_bind]. now rewrite Hn.
  - destruct (columns v_close_preds) as [|c cs] eqn:Hc.
    + unfold Pipeline.calculate_metrics, Pandas.iloc_last, row_last.
      rewrite map_app. cbn [map]. rewrite item_last_app. cbn [res_bind].
      rewrite Hn. cbn [res_bind]. now rewrite Hc.
    + rewrite calculate_metrics_ok; [reflexivity|lia|congruence].
Qed.

Lemma calculate_metrics_returns (hist_df : list Bar)
    (close_preds v_close_preds : PredFrame) (vol_window : Z) (up va : Pandas.float) :
  Pipeline.calculate_metrics hist_df close_preds v_close_preds vol_window = Ok (up, va) ->
  exists init b,
    hist_df = init ++ [b] /\ n_rows close_preds <> O /\ columns v_close_preds <> [].
Proof.
  intros Hrun. pose proof (calculate_metrics_cases hist_df close_preds v_close_preds
                             vol_window) as Hc.
  destruct hist_df as [|b0 hist]; [rewrite Hrun in Hc; discriminate|].
  destruct (n_rows close_preds) as [|n] eqn:Hn; [rewrite Hrun in Hc; discriminate|].
  destruct (columns v_close_preds) as [|c cs] eqn:Hcols;
    [rewrite Hrun in Hc; discriminate|].
  destruct (exists_last (l := b0 :: hist)) as (init & b & Heq); [discriminate|].
  exists init, b. repeat split; [exact Heq|lia|discriminate].
Qed.

Lemma vol_amp_bounds (last_close : R) (hv : Pandas.float) (cols : list (list R)) :
  cols <> [] ->
  (0 <= INR (Pipeline.amplification_count last_close hv cols) / INR (length cols) <= 1)%R.
Proof.
  intros Hc. rewrite amplification_count_filter.
  apply ratio_in_unit; [apply filter_length_le|]. now destruct cols.
Qed.

Lemma mean_bool_bounds {A} (g : A -> bool) (l : list A) :
  (Pandas.mean_bool (map g l) = Pandas.NaN /\ l = []) \/
  (exists u : R, Pandas.mean_bool (map g l) = Some u /\ (0 <= u <= 1)%R).
Proof.
  destruct l as [|a l]; [now left|]. right. rewrite mean_bool_count by discriminate.
  eexists. split; [reflexivity|]. apply ratio_in_unit; [apply filter_length_le|discriminate].
Qed.

(** X1. When [calculate_metrics] returns, the volatility amplification
    probability is a number between 0 and 1, and the upside probability
    is NaN (only when the main frame has no column) or a number between 0
    and 1. *)
Theorem X1_metrics_are_probabilities (hist_df : list Bar)
    (close_preds v_close_preds : PredFrame) (vol_window : Z)
    (up va : Pandas.float) :
  Pipeline.calculate_metrics hist_df close_preds v_close_preds vol_window = Ok (up, va) ->
  (exists v : R, va = Some v /\ (0 <= v <= 1)%R) /\
  ((up = Pandas.NaN /\ columns close_preds = []) \/
   (exists u : R, up = Some u /\ (0 <= u <= 1)%R)).
Proof.
  intros Hrun.
  destruct (calculate_metrics_returns _ _ _ _ _ _ Hrun) as (init & b & -> & Hrows & Hcols).
  rewrite calculate_metrics_ok in Hrun by assumption. injection Hrun as <- <-. split.
  - eexists. split; [reflexivity|]. now apply vol_amp_bounds.
  - apply mean_bool_bounds.
Qed.

Lemma X1_metrics_are_probabilities_witness :
  exists up va : Pandas.float,
    Pipeline.calculate_metrics three_flat_bars Scripted.one_path Scripted.one_path 2
    = Ok (up, va) /\
    (exists v : R, va = Some v /\ (0 <= v <= 1)%R).
Proof.
  eexists. eexists.
  assert (Hrun : Pipeline.calculate_metrics three_flat_bars Scripted.one_path
                   Scripted.one_path 2 = Ok _) by reflexivity.
  split; [exact Hrun|].
  exact (proj1 (X1_metrics_are_probabilities _ _ _ _ _ _ Hrun)).
Defined.

(** X2. [calculate_metrics] raises [IndexError] on an empty history and,
    with a history, on a main frame without rows; with both it raises
    [ZeroDivisionError] on a volatility frame without columns; in every
    other case it returns. *)
Theorem X2_calculate_metrics_errors (hist_df : list Bar)
    (close_preds v_close_preds : PredFrame) (vol_window : Z) :
  (hist_df = [] ->
   Pipeline.calculate_metrics hist_df close_preds v_close_preds vol_window
   = Raise IndexError) /\
  (hist_df <> [] -> n_rows close_preds = O ->
   Pipeline.calculate_metrics hist_df close_preds v_close_preds vol_window
   = Raise IndexError) /\
  (hist_df <> [] -> n_rows close_preds <> O -> columns v_close_preds = [] ->
   Pipeline.calculate_metrics hist_df close_preds v_close_preds vol_window
   = Raise ZeroDivisionError) /\
  (is_ok (Pipeline.calculate_metrics hist_df close_preds v_close_preds vol_window) = true
   <-> hist_df <> [] /\ n_rows close_preds <> O /\ columns v_close_preds <> []).
Proof.
  pose proof (calculate_metrics_cases hist_df close_preds v_close_preds vol_window) as Hc.
  destruct hist_df as [|b0 hist].
  { rewrite Hc. repeat split; try congruence; try (intros; discriminate).
    intros (H & _); congruence. }
  destruct (n_rows close_preds) as [|n].
  { rewrite Hc. repeat split; try congruence; try (intros; discriminate).
    intros (_ & H & _); congruence. }
  destruct (columns v_close_preds) as [|c cs].
  { rewrite Hc. repeat split; try congruence; try (intros; discriminate).
    intros (_ & _ & H); congruence. }
  rewrite Hc. repeat split; try congruence; discriminate.
Qed.

Lemma std_nan_iff (xs : list R) :
  Pandas.std (map Some xs) = Pandas.NaN <-> (length xs <= 1)%nat.
Proof.
  unfold Pandas.std. rewrite dropna_some.
  destruct (length xs <=? 1)%nat eqn:Hle.
  - apply Nat.leb_le in Hle. tauto.
  - apply Nat.leb_gt in Hle. split; [discriminate|lia].
Qed.

Lemma length_most_recent {A} (n : nat) (l : list A) :
  length (most_recent n l) = Nat.min n (length l).
Proof. unfold most_recent. rewrite length_skipn. lia. Qed.

Lemma length_log_return_series (closes : list R) :
  length (log_return_series closes) = (length closes - 1)%nat.
Proof.
  destruct closes as [|c cs]; [reflexivity|]. cbn [log_return_series length].
  rewrite length_returns_from. lia.
Qed.

(** X3. On a history of positive closes with at least one bar more than
    the window, [calculate_metrics] compares each path with the sample
    standard deviation of exactly the [vol_window] most recent log returns
    of the history it receives, which is NaN for a window of one return:
    the volatility amplification probability is the share of the paths
    whose predicted volatility is above that deviation. *)
Theorem X3_historical_vol_of_full_window (hist_df : list Bar)
    (close_preds v_close_preds : PredFrame) (vol_window : Z) (up va : Pandas.float) :
  positive_closes hist_df ->
  1 <= vol_window < Z.of_nat (length hist_df) ->
  Pipeline.calculate_metrics hist_df close_preds v_close_preds vol_window = Ok (up, va) ->
  let window :=
    most_recent (Z.to_nat vol_window) (log_return_series (map close hist_df)) in
  length window = Z.to_nat vol_window /\
  Pipeline.historical_vol hist_df vol_window = Pandas.std (map Some window) /\
  (vol_window = 1 -> Pipeline.historical_vol hist_df vol_window = Pandas.NaN) /\
  exists last_close,
    Pandas.iloc_last (map close hist_df) = Ok last_close /\
    va = Some (INR (length
                      (List.filter
                         (fun path =>
                            Pandas.gt (Pipeline.predicted_vol last_close path)
                              (Pandas.std (map Some window)))
                         (columns v_close_preds)))
               / INR (length (columns v_close_preds)))%R.
Proof.
  intros Hpos Hw Hrun window.
  assert (Hlen : length window = Z.to_nat vol_window).
  { unfold window. rewrite length_most_recent, length_log_return_series, length_map. lia. }
  assert (Hhv : Pipeline.historical_vol hist_df vol_window = Pandas.std (map Some window))
    by now apply historical_vol_full_window.
  split; [exact Hlen|]. split; [exact Hhv|].
  split; [intros H1; rewrite Hhv, std_nan_iff, Hlen; lia|].
  destruct (calculate_metrics_returns _ _ _ _ _ _ Hrun) as (init & b & -> & Hrows & Hcols).
  exists (close b). split.
  { unfold Pandas.iloc_last. rewrite map_app. apply item_last_app. }
  rewrite calculate_metrics_ok in Hrun by assumption. injection Hrun as _ <-.
  now rewrite amplification_count_filter, Hhv.
Qed.

Lemma X3_historical_vol_of_full_window_witness :
  positive_closes three_flat_bars /\
  1 <= 1 < Z.of_nat (length three_flat_bars) /\
  exists up va : Pandas.float,
    Pipeline.calculate_metrics three_flat_bars Scripted.one_path Scripted.one_path 1
    = Ok (up, va) /\
    Pipeline.historical_vol three_flat_bars 1 = Pandas.NaN.
Proof.
  assert (Hpos : positive_closes three_flat_bars) by positive_bars.
  assert (H : 1 <= 1 < Z.of_nat (length three_flat_bars)) by (simpl; lia).
  split; [exact Hpos|]. split; [exact H|].
  eexists. eexists.
  assert (Hrun : Pipeline.calculate_metrics three_flat_bars Scripted.one_path
                   Scripted.one_path 1 = Ok (_, _)) by reflexivity.
  split; [exact Hrun|].
  destruct (X3_historical_vol_of_full_window three_flat_bars Scripted.one_path
              Scripted.one_path 1 _ _ Hpos H Hrun) as (_ & _ & Hnan & _).
  now apply Hnan.
Defined.

Lemma predicted_vol_short (last_close : R) (col : list R) :
  (length col <= 1)%nat -> Pipeline.predicted_vol last_close col = Pandas.NaN.
Proof.
  intros Hlen. destruct col as [|x [|y col]]; [reflexivity| |simpl in Hlen; lia].
  unfold Pipeline.predicted_vol, Pandas.log_returns, Pandas.shift1.
  cbn [map zip_with removelast].
  destruct (Pandas.flog (Pandas.fdiv (Some x) (Some last_close))); reflexivity.
Qed.

(** X5. A path of fewer than two steps has no predicted volatility (NaN),
    whatever its values.  Hence, for a well-formed volatility frame of at
    most one row, no path is counted as amplified and the volatility
    amplification probability is 0. *)
Theorem X5_one_step_horizon_is_never_amplified (hist_df : list Bar)
    (close_preds v_close_preds : PredFrame) (vol_window : Z) (up va : Pandas.float) :
  wf_frame v_close_preds -> (n_rows v_close_preds <= 1)%nat ->
  Pipeline.calculate_metrics hist_df close_preds v_close_preds vol_window = Ok (up, va) ->
  (forall last_close col,
     (length col <= 1)%nat -> Pipeline.predicted_vol last_close col = Pandas.NaN) /\
  va = Some 0%R.
Proof.
  intros Hwf Hrows Hrun. split; [apply predicted_vol_short|].
  destruct (calculate_metrics_returns _ _ _ _ _ _ Hrun) as (init & b & -> & Hn & Hcols).
  rewrite calculate_metrics_ok in Hrun by assumption.
  injection Hrun as _ <-. f_equal.
  rewrite amplification_count_filter, filter_none.
  - simpl. unfold Rdiv. now rewrite Rmult_0_l.
  - unfold wf_frame in Hwf. eapply List.Forall_impl; [|exact Hwf].
    intros col Hcol. cbn beta in Hcol.
    now rewrite predicted_vol_short by lia.
Qed.

Lemma X5_one_step_horizon_is_never_amplified_witness :
  wf_frame one_step_paths /\ (n_rows one_step_paths <= 1)%nat /\
  exists up : Pandas.float,
    Pipeline.calculate_metrics three_flat_bars one_step_paths one_step_paths 2
    = Ok (up, Some 0%R).
Proof.
  assert (Hwf : wf_frame one_step_paths) by (repeat constructor).
  assert (Hrows : (n_rows one_step_paths <= 1)%nat) by (simpl; lia).
  split; [exact Hwf|]. split; [exact Hrows|].
  eexists.
  assert (Hrun : Pipeline.calculate_metrics three_flat_bars one_step_paths
                   one_step_paths 2 = Ok (_, _)) by reflexivity.
  rewrite Hrun. do 2 f_equal.
  exact (proj2 (X5_one_step_horizon_is_never_amplified _ _ _ _ _ _ Hwf Hrows Hrun)).
Defined.

(** *** Flat prices *)

Lemma repeat_closes (c : R) (hist : list Bar) :
  Forall (fun b => close b = c) hist -> map close hist = repeat c (length hist).
Proof. induction 1 as [|b hist Hb _ IH]; simpl; [reflexivity|]. now rewrite Hb, IH. Qed.

Lemma returns_from_repeat (c : R) (n : nat) :
  returns_from c (repeat c n) = repeat (ln (c / c)) n.
Proof. induction n as [|n IH]; simpl; [reflexivity|]. now rewrite IH. Qed.

Lemma most_recent_repeat {A} (a : A) (n m : nat) :
  most_recent n (repeat a m) = repeat a (Nat.min n m).
Proof.
  unfold most_recent. rewrite repeat_length.
  replace m with ((m - n) + Nat.min n m)%nat at 2 by lia.
  rewrite repeat_app, skipn_app, repeat_length, Nat.sub_diag.
  rewrite skipn_all2 by (rewrite repeat_length; lia). reflexivity.
Qed.

Lemma fsum_repeat (a : R) (n : nat) : Pandas.fsum (repeat a n) = (INR n * a)%R.
Proof.
  induction n as [|n IH]; [simpl; ring|].
  cbn [repeat Pandas.fsum fold_right]. fold (Pandas.fsum (repeat a n)).
  rewrite IH, S_INR. ring.
Qed.

Lemma std_repeat (a : R) (n : nat) :
  (2 <= n)%nat -> Pandas.std (map Some (repeat a n)) = Some 0%R.
Proof.
  intros Hn. rewrite std_values by (rewrite repeat_length; lia).
  f_equal. rewrite <- sqrt_0. f_equal.
  assert (Hmean : Pandas.fmean (repeat a n) = a).
  { unfold Pandas.fmean. rewrite fsum_repeat, repeat_length. field.
    apply not_0_INR. lia. }
  rewrite Hmean, map_repeat.
  replace ((a - a) ^ 2)%R with 0%R by ring.
  rewrite fsum_repeat. unfold Rdiv. now rewrite Rmult_0_r, Rmult_0_l.
Qed.

Lemma log_returns_zero (n : nat) :
  Forall (eq Pandas.F_nan) (Pandas.log_returns (repeat 0%R n)).
Proof.
  destruct n as [|n]; [constructor|].
  unfold Pandas.log_returns, Pandas.shift1. cbn [repeat map zip_with].
  constructor; [reflexivity|].
  assert (H : forall prev : Pandas.float,
             prev = Pandas.NaN \/ prev = Some 0%R ->
             Forall (eq Pandas.F_nan)
               (map Pandas.flog
                  (zip_with Pandas.fdiv (map Some (repeat 0%R n))
                     (removelast (prev :: map Some (repeat 0%R n)))))).
  { induction n as [|n IH]; intros prev Hprev; [constructor|].
    cbn [repeat map].
    change (removelast (prev :: Some 0%R :: map Some (repeat 0%R n)))
      with (prev :: removelast (Some 0%R :: map Some (repeat 0%R n))).
    cbn [zip_with map]. constructor; [|apply IH; now right].
    destruct Hprev as [->| ->]; [reflexivity|]. unfold Pandas.fdiv.
    destruct (Req_dec_T 0 0) as [_|H]; [|congruence].
    destruct (Rlt_dec 0 0) as [H|_]; [lra|reflexivity]. }
  apply H. now right.
Qed.

Lemma std64_all_nan (s : list Pandas.float64) :
  Forall (eq Pandas.F_nan) s -> Pandas.std64 s = Pandas.NaN.
Proof.
  intros H. unfold Pandas.std64, Pandas.std.
  assert (Hs : existsb Pandas.is_inf s = false
               /\ Pandas.dropna (map Pandas.finite s) = []).
  { induction H as [|a s <- _ IH]; [now split|exact IH]. }
  destruct Hs as [Hinf Hdrop]. now rewrite Hinf, Hdrop.
Qed.

(** X7. A history whose closes are all the same positive number has
    historical volatility zero, for every window of at least two returns
    that the history covers; when the closes are all zero, every return is
    [0/0] and the historical volatility is NaN. *)
Theorem X7_constant_closes_have_zero_volatility (c : R) (hist_df : list Bar)
    (vol_window : Z) :
  Forall (fun b => close b = c) hist_df ->
  2 <= vol_window < Z.of_nat (length hist_df) ->
  ((0 < c)%R -> Pipeline.historical_vol hist_df vol_window = Some 0%R) /\
  (c = 0%R -> Pipeline.historical_vol hist_df vol_window = Pandas.NaN).
Proof.
  intros Hc Hw. split.
  - intros Hpos. rewrite historical_vol_full_window; [| |lia].
    + rewrite (repeat_closes c) by assumption.
      destruct (length hist_df) as [|n] eqn:Hn; [simpl in Hw; lia|].
      cbn [repeat log_return_series]. rewrite returns_from_repeat, most_recent_repeat.
      apply std_repeat. lia.
    + eapply List.Forall_impl; [|exact Hc]. intros b ->. exact Hpos.
  - intros ->. unfold Pipeline.historical_vol, Pandas.iloc_from, Py.slice_from.
    apply std64_all_nan, Forall_skipn.
    rewrite (repeat_closes 0) by assumption. apply log_returns_zero.
Qed.

Lemma X7_constant_closes_have_zero_volatility_witness :
  Forall (fun b => close b = 1%R) three_flat_bars /\
  2 <= 2 < Z.of_nat (length three_flat_bars) /\
  Pipeline.historical_vol three_flat_bars 2 = Some 0%R.
Proof.
  assert (Hc : Forall (fun b => close b = 1%R) three_flat_bars) by (repeat constructor).
  assert (Hw : 2 <= 2 < Z.of_nat (length three_flat_bars)) by (simpl; lia).
  split; [exact Hc|]. split; [exact Hw|].
  apply (X7_constant_closes_have_zero_volatility 1 three_flat_bars 2 Hc Hw). lra.
Defined.

(** ** The frames and the axes of one instrument *)

Lemma tail_positive {A} (n : Z) (l : list A) :
  0 < n -> Pandas.tail n l = most_recent (Z.to_nat n) l.
Proof.
  intros Hn. unfold Pandas.tail, Py.slice_from, most_recent.
  destruct (n =? 0) eqn:H0; [lia|]. now rewrite bound_neg.
Qed.

Lemma time_unit_freq (interval : string) :
  forall n, Chart.timedelta (Chart.time_unit interval) n
            = n * Pipeline.nanoseconds (Pipeline.freq_of_interval interval).
Proof.
  intros n. unfold Chart.time_unit, Pipeline.freq_of_interval.
  destruct (Py.contains "d" (Py.lower interval)); [reflexivity|].
  destruct (Py.contains "h" (Py.lower interval)); reflexivity.
Qed.

Lemma last_skipn {A} (k : nat) (l : list A) (d : A) :
  (k < length l)%nat -> List.last (skipn k l) d = List.last l d.
Proof.
  revert l. induction k as [|k IH]; intros l Hk; [reflexivity|].
  destruct l as [|x [|y l]]; simpl in Hk; try lia.
  change (skipn (S k) (x :: y :: l)) with (skipn k (y :: l)).
  rewrite IH by (simpl; lia). reflexivity.
Qed.

Lemma item_last_ok {A} (l : list A) (d : A) :
  l <> [] -> Py.item_last l = Ok (List.last l d).
Proof.
  intros Hl. destruct (exists_last Hl) as (init & x & ->).
  now rewrite item_last_app, last_last.
Qed.

Lemma res_map_ok {A B} (f : A -> res B) (g : A -> B) (l : list A) :
  (forall x, In x l -> f x = Ok (g x)) -> res_map f l = Ok (map g l).
Proof.
  induction l as [|x l IH]; intros Hf; [reflexivity|].
  cbn [res_map map]. rewrite Hf by now left. cbn [res_bind].
  rewrite IH by (intros y Hy; apply Hf; now right). reflexivity.
Qed.

Lemma y_timestamp_returns (df : list Bar) (h : Z) (label : string) (axis : list Z) :
  Pipeline.y_timestamp df h label = Ok axis ->
  exists last_timestamp,
    Pandas.max_timestamp (map timestamps df) = Some last_timestamp /\
    0 <= h /\
    axis = map (fun k => last_timestamp
                         + Pipeline.nanoseconds (Pipeline.freq_of_interval label)
                         + Z.of_nat k * Pipeline.nanoseconds (Pipeline.freq_of_interval label))
             (seq 0 (Z.to_nat h)) /\
    (0 < h ->
     last_timestamp + h * Pipeline.nanoseconds (Pipeline.freq_of_interval label)
     <= Pandas.timestamp_max).
Proof.
  unfold Pipeline.y_timestamp, Pandas.add_timedelta, Pandas.timestamp_add,
    Pandas.date_range.
  destruct (Pandas.max_timestamp (map timestamps df)) as [t|]; [|discriminate].
  destruct (_ <=? Pandas.timestamp_max) eqn:H1; [|discriminate]. cbn [res_bind].
  destruct (h <? 0) eqn:H2; [discriminate|].
  destruct (_ && _) eqn:H3; [discriminate|]. intros [= <-].
  exists t. split; [reflexivity|]. split; [lia|]. split; [reflexivity|].
  intros Hh. apply andb_false_iff in H3 as [H3|H3]; [lia|].
  apply negb_false_iff in H3. lia.
Qed.

(** X9. The chart puts the forecast where the oracle was asked to predict
    it: when the model frame is in increasing order of time, the chart
    history has at least one bar and the main frame has one row per step of
    the horizon, the [pred_time] axis of [create_plot] is the [y_timestamp]
    axis that [make_prediction] built. *)
Theorem X9_chart_axis_is_forecast_axis (df_full : list Bar) (close_preds : PredFrame)
    (pred_horizon hist_points : Z) (interval : string) (axis : list Z) :
  Engine.df_for_model df_full <> [] ->
  StronglySorted Z.lt (map timestamps (Engine.df_for_model df_full)) ->
  1 <= hist_points ->
  Z.of_nat (n_rows close_preds) = pred_horizon ->
  Pipeline.y_timestamp (Engine.df_for_model df_full) pred_horizon interval = Ok axis ->
  Chart.pred_time (Engine.hist_df_for_plot df_full hist_points) close_preds interval
  = Ok axis.
Proof.
  unfold Engine.hist_df_for_plot. generalize (Engine.df_for_model df_full).
  intros df Hne Hsorted Hhp Hrows Hy.
  rewrite tail_positive by lia.
  assert (Hlen : (0 < length df)%nat) by (destruct df; [congruence|simpl; lia]).
  assert (Hlast : Pandas.iloc_last (map timestamps (most_recent (Z.to_nat hist_points) df))
                  = Ok (List.last (map timestamps df) 0)).
  { unfold Pandas.iloc_last, most_recent.
    rewrite <- skipn_map, (item_last_ok _ 0).
    - rewrite last_skipn by (rewrite length_map; lia). reflexivity.
    - intros H. apply (f_equal (@length Z)) in H.
      rewrite length_skipn, length_map in H. simpl in H. lia. }
  unfold Chart.pred_time. rewrite Hlast. cbn [res_bind].
  assert (Hmax : Pandas.max_timestamp (map timestamps df)
                 = Some (List.last (map timestamps df) 0)).
  { destruct df as [|b df]; [congruence|]. cbn [map Pandas.max_timestamp].
    now rewrite (max_timestamp_sorted _ 0) by exact Hsorted. }
  apply y_timestamp_returns in Hy as (t & Ht & Hh & -> & Hfit).
  rewrite Hmax in Ht. injection Ht as <-.
  pose proof (nanoseconds_pos (Pipeline.freq_of_interval interval)) as Hpos.
  rewrite <- Hrows in *. rewrite Nat2Z.id.
  rewrite (res_map_ok _
             (fun i => List.last (map timestamps df) 0
                       + Chart.timedelta (Chart.time_unit interval) (Z.of_nat i + 1))).
  - f_equal. apply map_ext. intros k. rewrite time_unit_freq. lia.
  - intros i Hi. apply in_seq in Hi. unfold Pandas.timestamp_add.
    rewrite time_unit_freq.
    destruct (_ <=? Pandas.timestamp_max) eqn:Hle; [reflexivity|].
    assert (0 < Z.of_nat (n_rows close_preds)) by lia. specialize (Hfit H). nia.
Qed.

Lemma X9_chart_axis_is_forecast_axis_witness :
  Engine.df_for_model Scripted.four_bars <> [] /\
  StronglySorted Z.lt (map timestamps (Engine.df_for_model Scripted.four_bars)) /\
  1 <= 2 /\ Z.of_nat (n_rows Scripted.one_path) = 2 /\
  Chart.pred_time (Engine.hist_df_for_plot Scripted.four_bars 2) Scripted.one_path "1h"
  = Ok [10800000000000; 14400000000000].
Proof.
  assert (H1 : Engine.df_for_model Scripted.four_bars <> []) by discriminate.
  assert (H2 : StronglySorted Z.lt (map timestamps (Engine.df_for_model Scripted.four_bars))).
  { repeat constructor. }
  assert (H3 : 1 <= 2) by lia.
  assert (H4 : Z.of_nat (n_rows Scripted.one_path) = 2) by reflexivity.
  split; [exact H1|]. split; [exact H2|]. split; [exact H3|]. split; [exact H4|].
  exact (X9_chart_axis_is_forecast_axis Scripted.four_bars Scripted.one_path 2 2 "1h"
           [10800000000000; 14400000000000] H1 H2 H3 H4 eq_refl).
Defined.

(** ** Edges of the cycle *)

(** X10. Without a history there is no forecast and no call to the oracle:
    [make_prediction] raises [ValueError] at once on an empty frame;
    [run_for_symbol] returns [None] on a missing or empty
    frame, but raises [ValueError] on a frame of a single bar, whose model
    frame is empty; so an instrument for which the provider returns a
    single bar ends the loop over the instruments with that error. *)
Theorem X10_no_forecast_without_history {E : Env} (cc : CommonConfig)
    (predictor : Predictor E) (source symbol interval : string)
    (metrics : gmap string Entry) (rest : list string) (st : St E) :
  (forall h n,
     Pipeline.make_prediction [] predictor h n interval st = (Raise ValueError, st)) /\
  (forall df_full h n hp vw, df_full = None \/ df_full = Some [] ->
     Engine.run_for_symbol df_full predictor symbol h n hp vw interval st
     = (Ok None, st)) /\
  (forall b h n hp vw,
     Engine.run_for_symbol (Some [b]) predictor symbol h n hp vw interval st
     = (Raise ValueError, st)) /\
  (forall b w',
     DataSourceManager.has source = true ->
     fetch_func E source symbol interval (hist_points cc + vol_window cc) (world st)
     = (Some [b], w') ->
     App.for_each (App.forecast_symbol cc source interval predictor)
       (symbol :: rest) metrics st
     = (Raise ValueError,
        {| model_loaded := model_loaded st; artifacts := artifacts st; world := w';
           trace := trace st ++ [EvFetch source symbol interval
                                   (hist_points cc + vol_window cc) true] |})).
Proof.
  assert (Hmp : forall h n (st : St E),
            Pipeline.make_prediction [] predictor h n interval st
            = (Raise ValueError, st)) by reflexivity.
  assert (Hone : forall b h n hp vw (st : St E),
            Engine.run_for_symbol (Some [b]) predictor symbol h n hp vw interval st
            = (Raise ValueError, st)).
  { intros b h n hp vw st0. unfold Engine.run_for_symbol. unfold bind at 1.
    change (Engine.df_for_model [b]) with (@nil Bar).
    now rewrite Hmp. }
  split; [intros; apply Hmp|]. split.
  { intros df_full h n hp vw [->| ->]; reflexivity. }
  split; [intros; apply Hone|].
  intros b w' Hhas Hfetch. cbn [App.for_each]. unfold bind at 1.
  unfold App.forecast_symbol. unfold bind at 1.
  unfold DataSourceManager.fetch, call. rewrite Hhas, Hfetch.
  unfold bind at 1. now rewrite Hone.
Qed.

Lemma X10_no_forecast_without_history_witness :
  let w := {| Scripted.loads := []; Scripted.fetches := [Some [Scripted.bar_at 0 1]];
              Scripted.predictions := []; Scripted.plots := []; Scripted.renders := [];
              Scripted.charts := None |} in
  DataSourceManager.has "binance" = true /\
  fst (App.for_each (App.forecast_symbol (E := Scripted.env) Scripted.small_config
                       "binance" "1h" tt)
         ["AAA"; "BBB"]%string ∅ (@Build_St Scripted.env true (Some tt) w []))
  = Raise ValueError.
Proof.
  intros w. split; [reflexivity|].
  destruct (X10_no_forecast_without_history (E := Scripted.env) Scripted.small_config
              tt "binance" "AAA" "1h" ∅ ["BBB"%string]
              (@Build_St Scripted.env true (Some tt) w [])) as (_ & _ & _ & H).
  now rewrite (H (Scripted.bar_at 0 1) _ eq_refl eq_refl).
Defined.

(** X11. The model manager hands out what it loaded: [predictor] raises
    [RuntimeError] while nothing is loaded; after a [load] that succeeds it
    returns the predictor that [load] built; a [load] that fails leaves the
    manager as it was. *)
Theorem X11_predictor_is_what_load_built {E : Env} (st : St E) :
  (artifacts st = None -> ModelManager.predictor st = (Raise RuntimeError, st)) /\
  (forall p, artifacts st = Some p -> ModelManager.predictor st = (Ok p, st)) /\
  (forall p w', from_pretrained E (world st) = (Ok p, w') ->
     bind ModelManager.load (fun _ => ModelManager.predictor) st
     = (Ok p, {| model_loaded := model_loaded st; artifacts := Some p; world := w';
                 trace := trace st ++ [EvLoad true] |})) /\
  (forall e w', from_pretrained E (world st) = (Raise e, w') ->
     ModelManager.load st
     = (Raise e, {| model_loaded := model_loaded st; artifacts := artifacts st;
                    world := w'; trace := trace st ++ [EvLoad false] |})).
Proof.
  unfold ModelManager.predictor, ModelManager.load, call_res, bind, call, lift,
    get_artifacts, set_artifacts, ret.
  split; [intros ->; reflexivity|]. split; [intros p ->; reflexivity|].
  split; intros x w' ->; reflexivity.
Qed.

(** X12. The data source manager routes by name: [has] holds exactly for
    the names in [available]; [fetch] raises [KeyError] for any other name,
    without calling a provider, and for a known name makes exactly one call
    and returns its answer unchanged, never raising. *)
Theorem X12_fetch_routes_by_name {E : Env} (name symbol interval : string)
    (limit : Z) (st : St E) :
  (DataSourceManager.has name = true <-> In name DataSourceManager.available) /\
  (~ In name DataSourceManager.available ->
   DataSourceManager.fetch name symbol interval limit st = (Raise KeyError, st)) /\
  (In name DataSourceManager.available ->
   DataSourceManager.fetch name symbol interval limit st
   = (Ok (fst (fetch_func E name symbol interval limit (world st))),
      {| model_loaded := model_loaded st; artifacts := artifacts st;
         world := snd (fetch_func E name symbol interval limit (world st));
         trace := trace st
                  ++ [EvFetch name symbol interval limit
                        (is_some (fst (fetch_func E name symbol interval limit
                                         (world st))))] |})).
Proof.
  assert (Hhas : DataSourceManager.has name = true <-> In name DataSourceManager.available).
  { unfold DataSourceManager.has, DataSourceManager.available. rewrite existsb_exists.
    split.
    - intros (x & Hin & Hx). apply String.eqb_eq in Hx. now subst.
    - intros Hin. exists name. split; [exact Hin|apply String.eqb_refl]. }
  split; [exact Hhas|]. unfold DataSourceManager.fetch, call, lift. split.
  - intros Hn. destruct (DataSourceManager.has name) eqn:H; [|reflexivity].
    exfalso. apply Hn, Hhas. reflexivity.
  - intros Hin. apply Hhas in Hin. rewrite Hin.
    now destruct (fetch_func E name symbol interval limit (world st)).
Qed.

(** ** Strings and paths *)

Lemma string_app_assoc (a b c : string) :
  String.append (String.append a b) c = String.append a (String.append b c).
Proof.
  induction a as [|x a IH]; [reflexivity|].
  change (String x (String.append (String.append a b) c)
          = String x (String.append a (String.append b c))).
  now rewrite IH.
Qed.

Lemma string_app_nil_r (a : string) : String.append a EmptyString = a.
Proof.
  induction a as [|x a IH]; [reflexivity|].
  change (String x (String.append a EmptyString) = String x a). now rewrite IH.
Qed.

Lemma contains_app (c : ascii) (a b : string) :
  Py.contains c (String.append a b) = Py.contains c a || Py.contains c b.
Proof.
  induction a as [|x a IH]; [reflexivity|].
  change (Py.contains c (String x (String.append a b))
          = Py.contains c (String x a) || Py.contains c b).
  cbn [Py.contains]. now rewrite IH, orb_assoc.
Qed.

Lemma split_aux_app (sep : ascii) (field cur rest : string) :
  Py.contains sep field = false ->
  Py.split_aux sep cur (String.append field rest)
  = Py.split_aux sep (String.append cur field) rest.
Proof.
  revert cur. induction field as [|x field IH]; intros cur Hno.
  - now rewrite string_app_nil_r.
  - cbn [Py.contains] in Hno. apply orb_false_iff in Hno as [Hx Hno].
    change (String.append (String x field) rest)
      with (String x (String.append field rest)).
    cbn [Py.split_aux]. rewrite Ascii.eqb_sym, Hx, IH by assumption.
    rewrite string_app_assoc. reflexivity.
Qed.

Lemma split_plain (sep : ascii) (s : string) :
  Py.contains sep s = false -> Py.split sep s = [s].
Proof.
  intros H. unfold Py.split. rewrite <- (string_app_nil_r s) at 1.
  now rewrite split_aux_app by assumption.
Qed.

Lemma string_length_app (a b : string) :
  String.length (String.append a b) = (String.length a + String.length b)%nat.
Proof.
  induction a as [|x a IH]; [reflexivity|].
  change (S (String.length (String.append a b)) = S (String.length a + String.length b)).
  now rewrite IH.
Qed.

(** A file name ending in [.png] is a component of its own. *)
Lemma is_component_png (s : string) : Pathlib.is_component (s ++ ".png") = true.
Proof.
  unfold Pathlib.is_component.
  assert (H : forall t, (String.length t <= 1)%nat -> String.eqb (s ++ ".png") t = false).
  { intros t Ht. apply String.eqb_neq. intros Heq.
    apply (f_equal String.length) in Heq. rewrite string_length_app in Heq.
    simpl in Heq. lia. }
  rewrite !H by (simpl; lia). reflexivity.
Qed.

Lemma of_string_plain (s : string) :
  plain_name s -> Pathlib.of_string (s ++ ".png") = Pathlib.relative [(s ++ ".png")%string].
Proof.
  intros Hs. unfold plain_name in Hs.
  assert (Hc : Py.contains "/" (s ++ ".png") = false)
    by (rewrite contains_app, Hs; reflexivity).
  assert (Hroot : Pathlib.splitroot (s ++ ".png") = (EmptyString, (s ++ ".png")%string)).
  { destruct s as [|a s]; [reflexivity|].
    change ((String a s ++ ".png")%string) with (String a (s ++ ".png")%string).
    cbn [Py.contains] in Hs. apply orb_false_iff in Hs as [Ha _].
    unfold Pathlib.splitroot, Pathlib.is_sep. now rewrite Ascii.eqb_sym, Ha. }
  unfold Pathlib.of_string. rewrite Hroot, split_plain by assumption.
  cbn [List.filter]. now rewrite is_component_png.
Qed.

Lemma strip_prefix_app (a b c : list string) :
  Pathlib.strip_prefix (a ++ b) (a ++ c) = Pathlib.strip_prefix b c.
Proof.
  induction a as [|x a IH]; [reflexivity|].
  cbn [app Pathlib.strip_prefix]. now rewrite String.eqb_refl.
Qed.

Section Paths.

Context {E : Env}.

(** The chart of an instrument whose symbol is a file name lies in
    [docs/static/chart] under that name. *)
Lemma chart_file_plain (symbol : string) :
  plain_name symbol ->
  Pathlib.relative_to (Pipeline.chart_file (E := E) symbol)
    (Pipeline.repo (E := E) / "docs")%path
  = Ok (Pathlib.relative ["static"; "chart"; symbol ++ ".png"]%string).
Proof.
  intros Hs. unfold Pipeline.chart_file. unfold Pathlib.joinpath at 1.
  rewrite of_string_plain by assumption.
  change (Pathlib.relative_to
            {| Pathlib.root := "/";
               Pathlib.parts := (((repo_path E ++ ["docs"]) ++ ["static"]) ++ ["chart"])
                                ++ [symbol ++ ".png"] |}%string
            {| Pathlib.root := "/"; Pathlib.parts := repo_path E ++ ["docs"%string] |}
          = Ok (Pathlib.relative ["static"; "chart"; symbol ++ ".png"]%string)).
  unfold Pathlib.relative_to. cbn [Pathlib.root Pathlib.parts].
  rewrite <- !app_assoc, strip_prefix_app. reflexivity.
Qed.

Lemma chart_of_plain (symbol : string) (e : Entry) :
  chart_of (E := E) symbol e -> plain_name symbol ->
  e_chart_path e = ("static/chart/" ++ symbol ++ ".png")%string.
Proof.
  intros (rel & Hrel & ->) Hs. rewrite chart_file_plain in Hrel by assumption.
  now injection Hrel as <-.
Qed.

End Paths.

(** ** What a report holds *)

Section Results.

Context {E : Env}.

Lemma for_each_invariant {A S : Type} (I : S -> Prop) (body : S -> A -> M E S)
    (l : list A) :
  (forall acc x st r, In x l -> I acc -> fst (body acc x st) = Ok r -> I r) ->
  forall acc st r, I acc -> fst (App.for_each body l acc st) = Ok r -> I r.
Proof.
  induction l as [|x l IH]; intros Hbody acc st r Hacc Hrun.
  - injection Hrun as <-. exact Hacc.
  - cbn [App.for_each] in Hrun. unfold bind in Hrun.
    destruct (body acc x st) as [[acc'|e] st1] eqn:Hx; [|discriminate].
    apply (IH (fun acc x st r Hin => Hbody acc x st r (or_intror Hin)) acc' st1 r);
      [|exact Hrun].
    apply (Hbody acc x st acc'); [now left|exact Hacc|now rewrite Hx].
Qed.

Lemma run_for_symbol_result df_full (predictor : Predictor E) symbol h n hp vw interval
    (st : St E) (r : ForecastResult) :
  fst (Engine.run_for_symbol df_full predictor symbol h n hp vw interval st)
  = Ok (Some r) ->
  (exists hist cp vcp,
     Pipeline.calculate_metrics hist cp vcp vw = Ok (upside_prob r, vol_amp_prob r)) /\
  (chart_path r = None \/ chart_path r = Some (Pipeline.chart_file (E := E) symbol)).
Proof.
  unfold Engine.run_for_symbol.
  destruct df_full as [[|b df]|]; try discriminate.
  unfold bind at 1.
  destruct (Pipeline.make_prediction _ _ _ _ _ st) as [[[[c v] vc]|e] st1]; [|discriminate].
  unfold bind at 1, lift.
  destruct (Pipeline.calculate_metrics _ c vc vw) as [[up va]|e] eqn:Hm; [|discriminate].
  unfold bind at 1.
  pose proof (create_plot_never_raises
                (Engine.hist_df_for_plot (b :: df) hp) c v symbol h interval st1) as Hp.
  destruct (Pipeline.create_plot _ c v symbol h interval st1) as [[p|e] st2];
    [|discriminate].
  cbn [fst] in Hp. injection Hp as ->. intros [= <-]. cbn [upside_prob vol_amp_prob chart_path].
  split; [eauto|]. destruct (is_ok _); auto.
Qed.

Lemma forecast_symbol_result cc source interval (predictor : Predictor E) metrics symbol
    (st : St E) (m' : gmap string Entry) :
  fst (App.forecast_symbol cc source interval predictor metrics symbol st) = Ok m' ->
  m' = metrics \/
  exists e, m' = <[symbol := e]> metrics /\ probabilities e /\ chart_of (E := E) symbol e.
Proof.
  unfold App.forecast_symbol. unfold bind at 1.
  destruct (DataSourceManager.fetch _ _ _ _ st) as [[df|e] st1]; [|discriminate].
  assert (Hrun : fst (bind (Engine.run_for_symbol df predictor symbol (pred_horizon cc)
                             (n_predictions cc) (hist_points cc) (vol_window cc) interval)
                        (fun result =>
                           match result with
                           | Some result =>
                               match chart_path result with
                               | None => lift (Raise AttributeError)
                               | Some p =>
                                   bind (lift (Pathlib.relative_to p (Pipeline.repo (E := E) / "docs")%path))
                                     (fun rel =>
                                        ret (<[symbol :=
                                                 {| e_upside_prob := upside_prob result;
                                                    e_vol_amp_prob := vol_amp_prob result;
                                                    e_chart_path := Pathlib.str rel |}]>
                                               metrics))
                               end
                           | None => ret metrics
                           end) st1) = Ok m' ->
                 m' = metrics \/
                 exists e, m' = <[symbol := e]> metrics /\ probabilities e
                           /\ chart_of (E := E) symbol e).
  { unfold bind at 1.
    pose proof (run_for_symbol_result df predictor symbol (pred_horizon cc)
                  (n_predictions cc) (hist_points cc) (vol_window cc) interval st1) as Hr.
    destruct (Engine.run_for_symbol _ _ _ _ _ _ _ _ st1) as [[[r|]|e] st2];
      [|intros [= <-]; now left|discriminate].
    destruct (Hr r eq_refl) as ((hist & cp & vcp & Hm) & [Hp|Hp]); rewrite Hp;
      [discriminate|].
    unfold bind at 1, lift.
    destruct (Pathlib.relative_to _ _) as [rel|e] eqn:Hrel; [|discriminate].
    cbn. intros [= <-]. right. eexists. split; [reflexivity|].
    destruct (calculate_metrics_returns _ _ _ _ _ _ Hm) as (init & b0 & -> & Hrows & Hcols).
    rewrite calculate_metrics_ok in Hm by assumption. injection Hm as <- <-.
    split; [split|].
    - eexists. split; [reflexivity|]. now apply vol_amp_bounds.
    - destruct (mean_bool_bounds
                  (fun path => Pandas.Rgtb (final_value path) (close b0)) (columns cp))
        as [[Hnan _]|Hu]; [now left|now right].
    - exists rel. now split. }
  destruct df as [[|b df]|]; [intros [= <-]; now left|exact Hrun|intros [= <-]; now left].
Qed.

End Results.

Lemma mock_entry_probabilities (symbol : string) : probabilities (App.mock_entry symbol).
Proof. split; [|right]; eexists; (split; [reflexivity|lra]). Qed.

(** X14. Every entry of the report that a cycle puts together holds
    probabilities: its volatility amplification probability is a number
    between 0 and 1 and its upside probability is NaN or a number between 0
    and 1.  In mock mode its chart path is [static/chart/<symbol>.png] for
    the symbol it is filed under.  Outside mock mode the symbol is one of
    those listed in the configuration of an available source, and the
    chart path is the path of the chart file of that symbol from the [docs]
    directory, which is [static/chart/<symbol>.png] when the symbol is a
    file name. *)
Theorem X14_report_entries {E : Env} (mock : bool)
    (config : gmap string (gmap string string)) (cc : CommonConfig) (st : St E)
    (metrics : gmap string Entry) :
  fst ((if mock then App._run_mock_mode else App._run_inference_mode mock config cc) st)
  = Ok metrics ->
  forall symbol entry,
    metrics !! symbol = Some entry ->
    probabilities entry /\
    (mock = true ->
     e_chart_path entry = ("static/chart/" ++ symbol ++ ".png")%string) /\
    (mock = false ->
     configured config symbol /\ chart_of (E := E) symbol entry /\
     (plain_name symbol ->
      e_chart_path entry = ("static/chart/" ++ symbol ++ ".png")%string)).
Proof.
  destruct mock.
  - unfold App._run_mock_mode, bind, get_world, ret.
    destruct (glob_png E (world st)) as [files|]; intros [= <-] symbol entry Hl.
    + apply mock_report_lookup in Hl as [[_ ->]|[_ Hl]];
        [|rewrite lookup_empty in Hl; discriminate].
      split; [apply mock_entry_probabilities|]. split; [reflexivity|discriminate].
    + rewrite lookup_empty in Hl. discriminate.
  - intros Hrun symbol entry Hl.
    enough (H : map_Forall
                  (fun k e => probabilities e /\ configured config k
                              /\ chart_of (E := E) k e) metrics).
    { destruct (H symbol entry Hl) as (Hp & Hc & Hf).
      split; [exact Hp|]. split; [discriminate|]. intros _.
      split; [exact Hc|]. split; [exact Hf|]. now apply (chart_of_plain (E := E)). }
    clear symbol entry Hl.
    rewrite run_inference_mode_after_load in Hrun.
    destruct (App._ensure_model_loaded false st) as [[[]|e] st1]; [|discriminate].
    unfold bind in Hrun.
    destruct (ModelManager.predictor st1) as [[p|e] st2]; [|discriminate].
    revert Hrun. apply for_each_invariant; [|apply map_Forall_empty].
    intros acc source st3 r Hsrc Hacc. unfold App.forecast_source.
    destruct (config !! source) as [section|] eqn:Hsec; [|intros [= <-]; exact Hacc].
    unfold bind at 1, lift, App.getitem.
    destruct (section !! "symbols"%string) as [symbols|] eqn:Hsym; [|discriminate].
    unfold bind at 1.
    destruct (section !! "interval"%string) as [interval|]; [|discriminate].
    apply for_each_invariant; [|exact Hacc].
    intros acc' symbol st4 r' Hin Hacc' Hone.
    apply forecast_symbol_result in Hone as [->|(e & -> & He & Hf)]; [exact Hacc'|].
    apply map_Forall_insert_2; [|exact Hacc'].
    split; [exact He|]. split; [|exact Hf]. now exists source, section, symbols.
Qed.

Lemma X14_report_entries_witness :
  exists metrics : gmap string Entry,
    fst (App._run_inference_mode (E := Scripted.env) false Scripted.two_symbols
           Scripted.small_config (App.init (E := Scripted.env) all_ok_world))
    = Ok metrics /\
    is_Some (metrics !! "BBB"%string) /\
    forall symbol entry, metrics !! symbol = Some entry -> probabilities entry.
Proof.
  eexists. split; [reflexivity|]. split.
  - rewrite lookup_insert_eq. eauto.
  - intros symbol entry Hl.
    exact (proj1 (X14_report_entries (E := Scripted.env) false Scripted.two_symbols
                    Scripted.small_config (App.init (E := Scripted.env) all_ok_world)
                    _ eq_refl symbol entry Hl)).
Defined.

(** ** What a cycle asks of its collaborators *)

Section Calls.

Context {E : Env}.

Variable P : Event -> Prop.

Lemma emits_nothing {A} (m : M E A) :
  (forall st, trace (snd (m st)) = trace st) -> emits (E := E) P m.
Proof. intros H st. exists []. now rewrite app_nil_r, H. Qed.

Lemma emits_ret {A} (a : A) : emits (E := E) P (ret a).
Proof. now apply emits_nothing. Qed.

Lemma emits_lift {A} (r : res A) : emits (E := E) P (lift r).
Proof. now apply emits_nothing. Qed.

Lemma emits_bind {A B} (m : M E A) (k : A -> M E B) :
  emits P m -> (forall a, emits P (k a)) -> emits P (bind m k).
Proof.
  intros Hm Hk st. destruct (Hm st) as (evs1 & Ht1 & H1). unfold bind.
  destruct (m st) as [[a|e] st1]; cbn [snd] in *; [|now exists evs1].
  destruct (Hk a st1) as (evs2 & Ht2 & H2). exists (evs1 ++ evs2).
  split; [now rewrite Ht2, Ht1, app_assoc|now apply Forall_app].
Qed.

Lemma emits_try_except {A} (body : M E A) (handler : exn -> M E A) :
  emits P body -> (forall e, emits P (handler e)) -> emits P (try_except body handler).
Proof.
  intros Hb Hh st. destruct (Hb st) as (evs1 & Ht1 & H1). unfold try_except.
  destruct (body st) as [[a|e] st1]; cbn [snd] in *; [now exists evs1|].
  destruct (Hh e st1) as (evs2 & Ht2 & H2). exists (evs1 ++ evs2).
  split; [now rewrite Ht2, Ht1, app_assoc|now apply Forall_app].
Qed.

Lemma emits_call {A} (ev : A -> Event) (f : World E -> A * World E) :
  (forall a, P (ev a)) -> emits P (call ev f).
Proof.
  intros Hev st. unfold call. destruct (f (world st)) as [a w].
  exists [ev a]. split; [reflexivity|]. constructor; [apply Hev|constructor].
Qed.

Lemma emits_call_res {A} (ev : bool -> Event) (f : World E -> res A * World E) :
  (forall ok, P (ev ok)) -> emits P (call_res ev f).
Proof.
  intros Hev. apply emits_bind; [|intros; apply emits_lift].
  apply emits_call. intros r. apply Hev.
Qed.

Lemma emits_for_each {A S} (body : S -> A -> M E S) (l : list A) (acc : S) :
  (forall acc x, In x l -> emits P (body acc x)) -> emits P (App.for_each body l acc).
Proof.
  revert acc. induction l as [|x l IH]; intros acc Hb; cbn [App.for_each].
  - apply emits_ret.
  - apply emits_bind; [apply Hb; now left|].
    intros acc'. apply IH. intros acc'' y Hy. apply Hb. now right.
Qed.

End Calls.

Lemma y_timestamp_ok (df : list Bar) (h : Z) (interval : string) (axis : list Z) :
  Pipeline.y_timestamp df h interval = Ok axis ->
  df <> [] /\ Z.of_nat (length axis) = h.
Proof.
  unfold Pipeline.y_timestamp, Pandas.add_timedelta, Pandas.timestamp_add,
    Pandas.date_range.
  destruct df as [|b df]; [discriminate|]. cbn [map Pandas.max_timestamp].
  destruct (_ <=? Pandas.timestamp_max); [|discriminate]. cbn [res_bind].
  destruct (h <? 0) eqn:Hneg; [discriminate|].
  destruct (_ && _); [discriminate|]. intros [= <-].
  split; [discriminate|]. rewrite length_map, length_seq. lia.
Qed.

Section CycleCalls.

Context {E : Env}.

Variable cc : CommonConfig.

Lemma emits_run_for_symbol df_full (predictor : Predictor E) symbol hp vw interval :
  emits (cycle_event cc)
    (Engine.run_for_symbol df_full predictor symbol (pred_horizon cc) (n_predictions cc)
       hp vw interval).
Proof.
  unfold Engine.run_for_symbol.
  destruct df_full as [[|b df]|]; try apply emits_ret.
  apply emits_bind.
  - unfold Pipeline.make_prediction. intros st. unfold bind at 1, lift.
    destruct (Pipeline.y_timestamp _ _ interval) as [axis|e] eqn:Hy;
      [|exists []; now rewrite app_nil_r].
    apply y_timestamp_ok in Hy as (Hdf & Hlen).
    assert (Hlen' : length axis = Z.to_nat (pred_horizon cc)) by lia.
    revert st. apply emits_bind.
    { apply emits_call_res. intros ok. cbn. repeat split; auto. }
    intros [c v]. apply emits_bind; [|intros [c' v']; apply emits_ret].
    apply emits_call_res. intros ok. cbn. repeat split; auto.
  - intros [[c v] vc]. apply emits_bind; [apply emits_lift|]. intros [up va].
    apply emits_bind; [|intros; apply emits_ret].
    unfold Pipeline.create_plot. apply emits_try_except; [|intros; apply emits_ret].
    apply emits_bind; [|intros; apply emits_ret]. now apply emits_call_res.
Qed.

Lemma emits_forecast_symbol source interval (predictor : Predictor E) metrics symbol :
  emits (cycle_event cc)
    (App.forecast_symbol cc source interval predictor metrics symbol).
Proof.
  unfold App.forecast_symbol. apply emits_bind.
  - unfold DataSourceManager.fetch.
    destruct (DataSourceManager.has source) eqn:Hhas; [|apply emits_lift].
    apply emits_call. intros df. cbn. split; [|reflexivity].
    unfold DataSourceManager.has in Hhas. apply existsb_exists in Hhas as (x & Hin & Hx).
    apply String.eqb_eq in Hx. now subst.
  - intros df.
    assert (Hrun : emits (cycle_event cc)
              (bind (Engine.run_for_symbol df predictor symbol (pred_horizon cc)
                       (n_predictions cc) (hist_points cc) (vol_window cc) interval)
                 (fun result =>
                    match result with
                    | Some result =>
                        match chart_path result with
                        | None => lift (Raise AttributeError)
                        | Some p =>
                            bind (lift (Pathlib.relative_to p (Pipeline.repo (E := E) / "docs")%path))
                              (fun rel =>
                                 ret (<[symbol :=
                                          {| e_upside_prob := upside_prob result;
                                             e_vol_amp_prob := vol_amp_prob result;
                                             e_chart_path := Pathlib.str rel |}]> metrics))
                        end
                    | None => ret metrics
                    end))).
    { apply emits_bind; [apply emits_run_for_symbol|].
      intros [result|]; [|apply emits_ret].
      destruct (chart_path result); [|apply emits_lift].
      apply emits_bind; [apply emits_lift|]. intros; apply emits_ret. }
    destruct df as [[|b df]|]; try apply emits_ret. exact Hrun.
Qed.

Lemma emits_run_forecast mock config :
  emits (E := E) (cycle_event cc) (App.run_forecast mock config cc).
Proof.
  unfold App.run_forecast.
  apply emits_try_except; [|intros; apply emits_ret].
  apply emits_bind.
  - destruct mock.
    + apply emits_nothing. intros st. unfold App._run_mock_mode, bind, get_world, ret.
      now destruct (glob_png E (world st)).
    + unfold App._run_inference_mode. apply emits_bind.
      { unfold App._ensure_model_loaded. apply emits_bind; [now apply emits_nothing|].
        intros loaded. destruct (negb loaded && negb false); [|apply emits_ret].
        apply emits_bind; [|intros; now apply emits_nothing].
        unfold ModelManager.load. apply emits_bind; [now apply emits_call_res|].
        intros p. apply emits_bind; [now apply emits_nothing|]. intros; apply emits_ret. }
      intros _. apply emits_bind.
      { unfold ModelManager.predictor. apply emits_bind; [now apply emits_nothing|].
        intros [p|]; [apply emits_ret|apply emits_lift]. }
      intros predictor. apply emits_for_each. intros acc source _.
      unfold App.forecast_source.
      destruct (config !! source) as [section|]; [|apply emits_ret].
      apply emits_bind; [apply emits_lift|]. intros symbols.
      apply emits_bind; [apply emits_lift|]. intros interval.
      apply emits_for_each. intros acc' symbol _. apply emits_forecast_symbol.
  - intros metrics. destruct (decide (metrics = ∅)) as [|Hne]; [apply emits_ret|].
    apply emits_bind; [|intros; apply emits_ret].
    unfold WebGenerator.update. now apply emits_call_res.
Qed.

End CycleCalls.

(** X15. Whatever the collaborators answer, a cycle, and any number of
    scheduled cycles, only ever asks an available source for
    [hist_points + vol_window] bars, only ever asks the oracle, on a history
    that is not empty, for [pred_horizon] timestamps and [n_predictions]
    samples with a top-p of 0.9 and a temperature of 0.6 or 0.9, and never
    hands the publisher an empty report. *)
Theorem X15_calls_of_a_cycle {E : Env} (mock : bool)
    (config : gmap string (gmap string string)) (cc : CommonConfig) (st : St E)
    (ticks : nat) :
  (exists evs,
     trace (snd (App.run_forecast mock config cc st)) = trace st ++ evs /\
     Forall (cycle_event cc) evs) /\
  (exists evs,
     trace (snd (App.run_scheduler mock config cc ticks st)) = trace st ++ evs /\
     Forall (cycle_event cc) evs).
Proof.
  split; [apply emits_run_forecast|].
  revert st. change (emits (E := E) (cycle_event cc) (App.run_scheduler mock config cc ticks)).
  induction ticks as [|n IH]; cbn [App.run_scheduler]; [apply emits_ret|].
  apply emits_bind; [apply emits_run_forecast|]. intros _. exact IH.
Qed.

(** ** The most recent bar *)

Section OneInstrument.

Context {E : Env}.

(** On a fetched frame with a last bar [b], [run_for_symbol] works on the
    bars before [b]. *)
Lemma run_for_symbol_app (init : list Bar) (b : Bar) (predictor : Predictor E)
    (symbol : string) (h n hp vw : Z) (interval : string) :
  Engine.run_for_symbol (Some (init ++ [b])) predictor symbol h n hp vw interval
  = ('(close_preds, volume_preds, v_close_preds) <~
        Pipeline.make_prediction init predictor h n interval;
     '(upside_prob, vol_amp_prob) <~
        lift (Pipeline.calculate_metrics (Pandas.tail vw init) close_preds
                v_close_preds vw);
     chart_path <~
        Pipeline.create_plot (Pandas.tail hp init) close_preds volume_preds symbol
          h interval;
     ret (Some {| upside_prob := upside_prob; vol_amp_prob := vol_amp_prob;
                  chart_path := chart_path |}))%M.
Proof.
  unfold Engine.run_for_symbol.
  destruct (init ++ [b]) as [|x l] eqn:H.
  { apply app_eq_nil in H as [_ H]. discriminate. }
  rewrite <- H. unfold Engine.hist_df_for_metrics, Engine.hist_df_for_plot.
  now rewrite df_for_model_app.
Qed.

Lemma emits_make_prediction (df : list Bar) (predictor : Predictor E) (h n : Z)
    (interval : string) :
  emits (predicts_on df) (Pipeline.make_prediction df predictor h n interval).
Proof.
  unfold Pipeline.make_prediction.
  apply emits_bind; [apply emits_lift|]. intros axis.
  apply emits_bind; [now apply emits_call_res|]. intros [c v].
  apply emits_bind; [now apply emits_call_res|]. intros [c' v']. apply emits_ret.
Qed.

End OneInstrument.

(** X8. [run_for_symbol] never uses the most recent bar of the fetched
    frame: two fetched frames that differ in their last bar only give the
    same run, with the same calls, the same result and the same state; and
    whenever the oracle is called, it is shown the fetched frame without
    its last bar. *)
Theorem X8_frames_of_run_for_symbol {E : Env} (init : list Bar) (b b' : Bar)
    (predictor : Predictor E) (symbol : string) (h n hp vw : Z) (interval : string)
    (st : St E) :
  Engine.run_for_symbol (Some (init ++ [b])) predictor symbol h n hp vw interval st
  = Engine.run_for_symbol (Some (init ++ [b'])) predictor symbol h n hp vw interval st /\
  exists evs,
    trace (snd (Engine.run_for_symbol (Some (init ++ [b])) predictor symbol h n hp vw
                  interval st))
    = trace st ++ evs /\
    Forall (predicts_on init) evs.
Proof.
  split; [now rewrite !run_for_symbol_app|].
  revert st.
  change (emits (E := E) (predicts_on init)
            (Engine.run_for_symbol (Some (init ++ [b])) predictor symbol h n hp vw
               interval)).
  rewrite run_for_symbol_app.
  apply emits_bind; [apply emits_make_prediction|]. intros [[c v] c'].
  apply emits_bind; [apply emits_lift|]. intros [up va].
  apply emits_bind; [|intros; apply emits_ret].
  unfold Pipeline.create_plot. apply emits_try_except; [|intros; apply emits_ret].
  apply emits_bind; [|intros; apply emits_ret]. now apply emits_call_res.
Qed.

Lemma tail_map {A B} (f : A -> B) (n : Z) (l : list A) :
  map f (Pandas.tail n l) = Pandas.tail n (map f l).
Proof.
  unfold Pandas.tail, Py.slice_from. destruct (n =? 0); [reflexivity|].
  now rewrite length_map, skipn_map.
Qed.

Lemma iloc_last_tail {A} (vw : Z) (l : list A) (x : A) :
  Pandas.iloc_last (Pandas.tail vw l) = Ok x -> Pandas.iloc_last l = Ok x.
Proof.
  unfold Pandas.tail, Pandas.iloc_last, Py.slice_from.
  destruct (vw =? 0); [discriminate|].
  set (k := Py.bound (length l) (- vw)). intros Hlast.
  rewrite <- (firstn_skipn k l).
  destruct (exists_last (l := skipn k l)) as (init & y & Heq).
  { intros Hnil. rewrite Hnil in Hlast. discriminate. }
  rewrite Heq in *. rewrite item_last_app in Hlast. injection Hlast as ->.
  now rewrite app_assoc, item_last_app.
Qed.

(** X4. As [run_for_symbol] calls it, on the last [vol_window] bars of the
    model frame, [calculate_metrics] compares the predicted volatility of
    each path with the sample standard deviation of only the
    [vol_window - 1] most recent log returns of the model frame: for a
    model frame of positive closes, the volatility amplification
    probability of the result is the share of the paths of the volatility
    ensemble whose predicted volatility is above that deviation.  For a
    window of one or two that deviation is NaN and the probability is 0. *)
Theorem X4_historical_vol_in_run_for_symbol {E : Env} (init : list Bar) (b : Bar)
    (predictor : Predictor E) (symbol : string) (h n hp vw : Z) (interval : string)
    (st st1 st' : St E) (c v c' : PredFrame) (result : ForecastResult) :
  positive_closes init ->
  1 <= vw <= Z.of_nat (length init) ->
  Pipeline.make_prediction init predictor h n interval st = (Ok (c, v, c'), st1) ->
  Engine.run_for_symbol (Some (init ++ [b])) predictor symbol h n hp vw interval st
  = (Ok (Some result), st') ->
  let window := most_recent (Z.to_nat vw - 1) (log_return_series (map close init)) in
  length window = (Z.to_nat vw - 1)%nat /\
  (exists last_close,
     Pandas.iloc_last (map close init) = Ok last_close /\
     vol_amp_prob result
     = Some (INR (length
                    (List.filter
                       (fun path =>
                          Pandas.gt (Pipeline.predicted_vol last_close path)
                            (Pandas.std (map Some window)))
                       (columns c')))
             / INR (length (columns c')))%R) /\
  (vw <= 2 ->
   Pandas.std (map Some window) = Pandas.NaN /\ vol_amp_prob result = Some 0%R).
Proof.
  intros Hpos Hw Hmp Hrun window.
  assert (Hlen : length window = (Z.to_nat vw - 1)%nat).
  { unfold window. rewrite length_most_recent, length_log_return_series, length_map. lia. }
  split; [exact Hlen|].
  enough (Hva : exists last_close,
             Pandas.iloc_last (map close init) = Ok last_close /\
             vol_amp_prob result
             = Some (INR (length
                            (List.filter
                               (fun path =>
                                  Pandas.gt (Pipeline.predicted_vol last_close path)
                                    (Pandas.std (map Some window)))
                               (columns c')))
                     / INR (length (columns c')))%R).
  { split; [exact Hva|]. intros Hsmall.
    assert (Hnan : Pandas.std (map Some window) = Pandas.NaN)
      by (rewrite std_nan_iff, Hlen; lia).
    split; [exact Hnan|]. destruct Hva as (last_close & _ & ->). f_equal.
    rewrite Hnan, filter_none.
    - simpl. unfold Rdiv. now rewrite Rmult_0_l.
    - apply List.Forall_forall. intros path _. apply gt_nan. }
  rewrite run_for_symbol_app in Hrun. unfold bind at 1 in Hrun. rewrite Hmp in Hrun.
  unfold bind at 1, lift in Hrun.
  destruct (Pipeline.calculate_metrics (Pandas.tail vw init) c c' vw) as [[up va]|e] eqn:Hm;
    [|discriminate].
  unfold bind at 1 in Hrun.
  destruct (Pipeline.create_plot _ c v symbol h interval st1) as [[p|e] st2];
    [|discriminate].
  injection Hrun as <- _. cbn [vol_amp_prob].
  assert (Hhv : Pipeline.historical_vol (Pandas.tail vw init) vw
                = Pandas.std (map Some window)).
  { pose proof (historical_vol_engine (init ++ [b]) vw) as Heng.
    unfold Engine.hist_df_for_metrics in Heng. rewrite df_for_model_app in Heng.
    now apply Heng. }
  destruct (calculate_metrics_returns _ _ _ _ _ _ Hm) as (init0 & b0 & Htail & Hrows & Hcols).
  exists (close b0). split.
  { apply (iloc_last_tail vw). rewrite <- tail_map.
    rewrite Htail, map_app. apply item_last_app. }
  rewrite Htail in Hm. rewrite calculate_metrics_ok in Hm by assumption.
  injection Hm as _ <-. rewrite <- Htail, Hhv.
  now rewrite amplification_count_filter.
Qed.

Lemma X4_historical_vol_in_run_for_symbol_witness :
  let st := @Build_St Scripted.env true (Some tt) all_ok_world [] in
  let init := [Scripted.bar_at 0 1; Scripted.bar_at 3600000000000 1;
               Scripted.bar_at 7200000000000 1] in
  positive_closes init /\ 1 <= 2 <= Z.of_nat (length init) /\
  exists (result : ForecastResult) (st' : St Scripted.env),
    Engine.run_for_symbol (E := Scripted.env)
      (Some (init ++ [Scripted.bar_at 10800000000000 1])) tt "AAA" 2 1 2 2 "1h" st
    = (Ok (Some result), st') /\
    vol_amp_prob result = Some 0%R.
Proof.
  intros st init.
  assert (Hpos : positive_closes init) by positive_bars.
  assert (Hw : 1 <= 2 <= Z.of_nat (length init)) by (simpl; lia).
  split; [exact Hpos|]. split; [exact Hw|].
  eexists. eexists.
  assert (Hrun : Engine.run_for_symbol (E := Scripted.env)
                   (Some (init ++ [Scripted.bar_at 10800000000000 1])) tt "AAA" 2 1 2 2
                   "1h" st = (Ok (Some _), _)) by reflexivity.
  split; [exact Hrun|].
  destruct (X4_historical_vol_in_run_for_symbol (E := Scripted.env) init
              (Scripted.bar_at 10800000000000 1) tt "AAA" 2 1 2 2 "1h" st _ _
              Scripted.one_path Scripted.one_path Scripted.one_path _
              Hpos Hw eq_refl Hrun) as (_ & _ & Hsmall).
  apply Hsmall. lia.
Defined.

(** ** The configuration and the cycle *)

Section Configuration.

Context {E : Env}.

Lemma for_each_raises {A S : Type} (body : S -> A -> M E S) (x : A) (l : list A) :
  (forall acc st, is_ok (fst (body acc x st)) = false) -> In x l ->
  forall acc st, is_ok (fst (App.for_each body l acc st)) = false.
Proof.
  intros Hx. induction l as [|y l IH]; intros Hin acc st; [contradiction|].
  cbn [App.for_each]. unfold bind.
  destruct (body acc y st) as [[acc'|e] st1] eqn:Hy; [|reflexivity].
  destruct Hin as [->|Hin]; [|now apply IH].
  specialize (Hx acc st). rewrite Hy in Hx. discriminate.
Qed.

Lemma for_each_ext {A S : Type} (body body' : S -> A -> M E S) (l : list A) :
  (forall acc x st, In x l -> body acc x st = body' acc x st) ->
  forall acc st, App.for_each body l acc st = App.for_each body' l acc st.
Proof.
  induction l as [|y l IH]; intros Hb acc st; [reflexivity|].
  cbn [App.for_each]. unfold bind. rewrite Hb by now left.
  destruct (body' acc y st) as [[acc'|e] st1]; [|reflexivity].
  apply IH. intros acc'' x st' Hin. apply Hb. now right.
Qed.

Lemma run_inference_mode_raises config cc (source : string)
    (section : gmap string string) (st : St E) :
  In source DataSourceManager.available ->
  config !! source = Some section ->
  section !! "symbols"%string = None \/ section !! "interval"%string = None ->
  is_ok (fst (App._run_inference_mode false config cc st)) = false.
Proof.
  intros Hin Hsec Hkey. rewrite run_inference_mode_after_load.
  destruct (App._ensure_model_loaded false st) as [[[]|e] st1]; [|reflexivity].
  unfold bind. destruct (ModelManager.predictor st1) as [[p|e] st2]; [|reflexivity].
  apply (for_each_raises _ source); [|exact Hin].
  intros acc st3. unfold App.forecast_source. rewrite Hsec.
  unfold bind, lift, App.getitem.
  destruct (section !! "symbols"%string); [|reflexivity].
  destruct Hkey as [Hkey|Hkey]; [discriminate|]. now rewrite Hkey.
Qed.

End Configuration.

(** X16. A section of an available source that lacks the key [symbols] or
    the key [interval] makes every non-mock cycle fail: the cycle returns
    [False] and the publisher is not called, whatever the other source
    delivered. *)
Theorem X16_incomplete_section_fails_the_cycle {E : Env}
    (config : gmap string (gmap string string)) (cc : CommonConfig)
    (source : string) (section : gmap string string) (st : St E) :
  In source DataSourceManager.available ->
  config !! source = Some section ->
  section !! "symbols"%string = None \/ section !! "interval"%string = None ->
  fst (App.run_forecast false config cc st) = Ok false /\
  exists evs,
    trace (snd (App.run_forecast false config cc st)) = trace st ++ evs /\
    Forall (fun ev => kind_of ev <> KUpdate) evs.
Proof.
  intros Hin Hsec Hkey.
  pose proof (run_inference_mode_raises config cc source section st Hin Hsec Hkey) as Hr.
  destruct (run_inference_mode_logs not_update false config cc st
              eq_refl eq_refl eq_refl eq_refl) as (evs & Ht & Hall).
  rewrite run_forecast_unfold.
  destruct (App._run_inference_mode false config cc st) as [[m|e] st1]; [discriminate|].
  split; [reflexivity|]. exists evs. split; [exact Ht|].
  eapply List.Forall_impl; [|exact Hall]. intros ev Hev Hk. now destruct ev.
Qed.

Lemma X16_incomplete_section_fails_the_cycle_witness :
  let config : gmap string (gmap string string) :=
    {[ "binance"%string := {[ "symbols"%string := "AAA"%string ]} ]} in
  In "binance"%string DataSourceManager.available /\
  fst (App.run_forecast (E := Scripted.env) false config Scripted.small_config
         (App.init (E := Scripted.env) all_ok_world)) = Ok false.
Proof.
  intros config.
  assert (Hin : In "binance"%string DataSourceManager.available) by (left; reflexivity).
  split; [exact Hin|].
  exact (proj1 (X16_incomplete_section_fails_the_cycle (E := Scripted.env) config
                  Scripted.small_config "binance" {[ "symbols"%string := "AAA"%string ]}
                  (App.init (E := Scripted.env) all_ok_world) Hin eq_refl
                  (or_intror eq_refl))).
Defined.

(** X17. A cycle reads the configuration file only through the sections
    named after the available sources: two configurations with the same
    [binance] section and the same [akshare] section give the same cycle,
    result and state, whatever other sections they hold. *)
Theorem X17_only_source_sections_are_read {E : Env} (mock : bool)
    (config config' : gmap string (gmap string string)) (cc : CommonConfig) (st : St E) :
  (forall source, In source DataSourceManager.available ->
                  config !! source = config' !! source) ->
  App.run_forecast mock config cc st = App.run_forecast mock config' cc st.
Proof.
  intros Hsame. rewrite !run_forecast_unfold.
  destruct mock; [reflexivity|].
  assert (Hrun : App._run_inference_mode false config cc st
                 = App._run_inference_mode false config' cc st).
  { rewrite !run_inference_mode_after_load.
    destruct (App._ensure_model_loaded false st) as [[[]|e] st1]; [|reflexivity].
    unfold bind. destruct (ModelManager.predictor st1) as [[p|e] st2]; [|reflexivity].
    apply for_each_ext. intros acc source st3 Hin.
    unfold App.forecast_source. now rewrite (Hsame source Hin). }
  now rewrite Hrun.
Qed.

Lemma X17_only_source_sections_are_read_witness :
  let config' : gmap string (gmap string string) :=
    <[ "model"%string := {[ "model_size"%string := "mini"%string ]} ]>
      Scripted.two_symbols in
  (forall source, In source DataSourceManager.available ->
                  Scripted.two_symbols !! source = config' !! source) /\
  fst (App.run_forecast (E := Scripted.env) false config' Scripted.small_config
         (App.init (E := Scripted.env) all_ok_world)) = Ok true.
Proof.
  intros config'.
  assert (Hsame : forall source, In source DataSourceManager.available ->
                                 Scripted.two_symbols !! source = config' !! source).
  { intros source [<-|[<-|[]]]; reflexivity. }
  split; [exact Hsame|].
  rewrite <- (X17_only_source_sections_are_read (E := Scripted.env) false
                Scripted.two_symbols config' Scripted.small_config
                (App.init (E := Scripted.env) all_ok_world) Hsame).
  reflexivity.
Defined.

Lemma mock_report_empty (chart_files : list string) :
  fold_left (fun metrics s => <[s := App.mock_entry s]> metrics) chart_files ∅
  = (∅ : gmap string Entry) <-> chart_files = [].
Proof.
  split; [|now intros ->].
  destruct chart_files as [|s l]; [reflexivity|]. intros Hempty. exfalso.
  assert (Hl : fold_left (fun metrics s => <[s := App.mock_entry s]> metrics) (s :: l)
                 (∅ : gmap string Entry) !! s = Some (App.mock_entry s)).
  { apply mock_report_lookup. left. split; [now left|reflexivity]. }
  rewrite Hempty, lookup_empty in Hl. discriminate.
Qed.

(** X18. In mock mode the cycle succeeds exactly when the charts directory
    exists, holds at least one chart, and the publisher returns on the
    report made from the charts; a missing or empty directory gives
    [False] without a call. *)
Theorem X18_mock_cycle_result {E : Env}
    (config : gmap string (gmap string string)) (cc : CommonConfig) (st : St E) :
  (fst (App.run_forecast true config cc st) = Ok true <->
   exists chart_files,
     glob_png E (world st) = Some chart_files /\ chart_files <> [] /\
     is_ok (fst (render_template E
                   (fold_left (fun metrics s => <[s := App.mock_entry s]> metrics)
                      chart_files ∅)
                   (world st))) = true) /\
  (glob_png E (world st) = None \/ glob_png E (world st) = Some [] ->
   App.run_forecast true config cc st = (Ok false, st)).
Proof.
  rewrite run_forecast_unfold. unfold App._run_mock_mode, bind, get_world, ret.
  destruct (glob_png E (world st)) as [files|] eqn:Hglob.
  - set (metrics := fold_left _ files ∅).
    destruct (decide (metrics = ∅)) as [Hempty|Hne].
    + apply mock_report_empty in Hempty. split.
      * split; [discriminate|]. intros (l & [= <-] & Hl & _). contradiction.
      * reflexivity.
    + split.
      * cbn [fst]. split.
        { intros [= Hok]. exists files. repeat split; [|exact Hok].
          intros ->. now apply Hne. }
        { intros (l & [= <-] & _ & Hok). fold metrics in Hok. now rewrite Hok. }
      * intros [H|[= ->]]; [discriminate|]. exfalso. now apply Hne.
  - destruct (decide (∅ = ∅)); [|contradiction]. split; [|reflexivity].
    split; [discriminate|]. intros (l & H & _). discriminate.
Qed.

(** ** An instrument that goes through *)

(** X21. When the provider returns a frame, both calls to the oracle return,
    the metrics are computed and the chart is drawn, the instrument is
    filed in the report under its symbol, a file name, with the two
    probabilities of [calculate_metrics] and the path
    [static/chart/<symbol>.png]; the four
    calls happen in the order fetch, prediction at 0.6, prediction at 0.9,
    chart; the metrics use the close frames of the two predictions, and the
    chart the close and volume frames of the first one. *)
Theorem X21_instrument_is_reported {E : Env} (cc : CommonConfig)
    (source interval symbol : string) (predictor : Predictor E)
    (metrics : gmap string Entry) (st : St E)
    (df : list Bar) (axis : list Z) (c v c' v' : PredFrame) (up va : Pandas.float)
    (w1 w2 w3 w4 : World E) :
  DataSourceManager.has source = true ->
  plain_name symbol ->
  fetch_func E source symbol interval (hist_points cc + vol_window cc) (world st)
  = (Some df, w1) ->
  df <> [] ->
  Pipeline.y_timestamp (Engine.df_for_model df) (pred_horizon cc) interval = Ok axis ->
  predict E predictor (Engine.df_for_model df) axis (pred_horizon cc) (6 / 10) (9 / 10)
    (n_predictions cc) w1 = (Ok (c, v), w2) ->
  predict E predictor (Engine.df_for_model df) axis (pred_horizon cc) (9 / 10) (9 / 10)
    (n_predictions cc) w2 = (Ok (c', v'), w3) ->
  Pipeline.calculate_metrics (Engine.hist_df_for_metrics df (vol_window cc)) c c'
    (vol_window cc) = Ok (up, va) ->
  savefig E (Engine.hist_df_for_plot df (hist_points cc)) c v symbol (pred_horizon cc)
    interval w3 = (Ok tt, w4) ->
  App.forecast_symbol cc source interval predictor metrics symbol st
  = (Ok (<[symbol := {| e_upside_prob := up; e_vol_amp_prob := va;
                        e_chart_path := ("static/chart/" ++ symbol ++ ".png")%string |}]>
           metrics),
     {| model_loaded := model_loaded st; artifacts := artifacts st; world := w4;
        trace := trace st
                 ++ [EvFetch source symbol interval (hist_points cc + vol_window cc) true;
                     EvPredict (Engine.df_for_model df) axis (pred_horizon cc)
                       (6 / 10) (9 / 10) (n_predictions cc) true;
                     EvPredict (Engine.df_for_model df) axis (pred_horizon cc)
                       (9 / 10) (9 / 10) (n_predictions cc) true;
                     EvPlot symbol true] |}).
Proof.
  intros Hhas Hname Hfetch Hdf Hy Hp1 Hp2 Hm Hplot.
  unfold App.forecast_symbol, DataSourceManager.fetch. rewrite Hhas.
  unfold bind at 1, call. rewrite Hfetch.
  destruct df as [|b df]; [congruence|].
  unfold bind at 1, Engine.run_for_symbol. unfold bind at 1.
  unfold Pipeline.make_prediction. unfold bind at 1, lift. rewrite Hy.
  unfold bind at 1, call_res. unfold bind at 1, call. cbn [world trace]. rewrite Hp1.
  cbn [is_ok lift]. unfold bind at 1, call_res. unfold bind at 1, call.
  cbn [world trace]. rewrite Hp2. cbn [is_ok lift ret].
  unfold bind at 1, lift. rewrite Hm.
  unfold bind at 1, Pipeline.create_plot, try_except. unfold bind at 1, call_res.
  unfold bind at 1, call. cbn [world trace]. rewrite Hplot.
  cbn [is_ok lift ret bind chart_path]. rewrite chart_file_plain by assumption.
  cbn. now rewrite <- !app_assoc.
Qed.

Lemma X21_instrument_is_reported_witness :
  let st := @Build_St Scripted.env true (Some tt) all_ok_world [] in
  exists (up va : Pandas.float) (st' : St Scripted.env),
    Pipeline.calculate_metrics
      (Engine.hist_df_for_metrics Scripted.four_bars 2) Scripted.one_path
      Scripted.one_path 2 = Ok (up, va) /\
    App.forecast_symbol (E := Scripted.env) Scripted.small_config "binance" "1h" tt ∅
      "AAA" st
    = (Ok {[ "AAA"%string := {| e_upside_prob := up; e_vol_amp_prob := va;
                                e_chart_path := "static/chart/AAA.png" |} ]}, st').
Proof.
  intros st. eexists. eexists. eexists.
  assert (Hm : Pipeline.calculate_metrics
                 (Engine.hist_df_for_metrics Scripted.four_bars 2) Scripted.one_path
                 Scripted.one_path 2 = Ok (_, _)) by reflexivity.
  split; [exact Hm|].
  refine (X21_instrument_is_reported (E := Scripted.env) Scripted.small_config
            "binance" "1h" "AAA" tt ∅ st Scripted.four_bars
            [10800000000000; 14400000000000] Scripted.one_path Scripted.one_path
            Scripted.one_path Scripted.one_path _ _ _ _ _ _
            eq_refl eq_refl eq_refl _ eq_refl eq_refl eq_refl Hm eq_refl).
  discriminate.
Defined.

(** ** The configuration file *)

Lemma lower_char_idempotent (c : ascii) :
  Py.lower_char (Py.lower_char c) = Py.lower_char c.
Proof. destruct c as [[] [] [] [] [] [] [] []]; reflexivity. Qed.

Lemma lower_idempotent (s : string) : Py.lower (Py.lower s) = Py.lower s.
Proof.
  induction s as [|c s IH]; [reflexivity|]. cbn [Py.lower].
  now rewrite lower_char_idempotent, IH.
Qed.

Lemma lower_empty (s : string) : Py.lower s = EmptyString -> s = EmptyString.
Proof. now destruct s. Qed.

(** X19. The context length and the downloaded model agree: for every
    configuration file, the model configuration asks for a context of 2048
    exactly when the manager built from it downloads [Kronos-mini] with the
    2k tokenizer, and for 512 otherwise, when it downloads [Kronos-base] or
    [Kronos-small] with the base tokenizer; a size that is none of
    [mini] and [base], in any case of letters, gives [Kronos-small]. *)
Theorem X19_context_length_matches_model (parser : gmap string (gmap string string)) :
  let mc := ConfigManager.model parser in
  let ids := ModelIds._hf_ids (ConfigManager.model_size mc) in
  (ConfigManager.max_context mc = 2048 <->
   ids = ("NeoQuasar/Kronos-Tokenizer-2k", "NeoQuasar/Kronos-mini")%string) /\
  (ConfigManager.max_context mc = 512 <->
   fst ids = "NeoQuasar/Kronos-Tokenizer-base"%string) /\
  (ConfigManager.max_context mc = 2048 \/ ConfigManager.max_context mc = 512) /\
  (ConfigManager.model_size mc <> "mini"%string ->
   ConfigManager.model_size mc <> "base"%string ->
   ids = ("NeoQuasar/Kronos-Tokenizer-base", "NeoQuasar/Kronos-small")%string).
Proof.
  intros mc ids. unfold ids, mc, ConfigManager.model.
  cbn [ConfigManager.model_size ConfigManager.max_context].
  set (size := Py.lower (Py.strip (ConfigManager.get parser "model" "model_size" "small"))).
  assert (Hlow : Py.lower size = size) by apply lower_idempotent.
  unfold ModelIds._hf_ids.
  destruct size as [|c size'] eqn:Hsize.
  - cbn. repeat split; try discriminate; auto.
  - rewrite Hlow.
    destruct (String.eqb (String c size') "mini") eqn:Hmini.
    + repeat split; try discriminate; auto.
      intros Hne. apply String.eqb_eq in Hmini. congruence.
    + destruct (String.eqb (String c size') "base") eqn:Hbase.
      * repeat split; try discriminate; auto.
        intros _ Hne. apply String.eqb_eq in Hbase. congruence.
      * repeat split; try discriminate; auto.
Qed.

Lemma lstrip_spaces (pad s : string) :
  Py.lstrip pad = EmptyString -> Py.lstrip (String.append pad s) = Py.lstrip s.
Proof.
  induction pad as [|x pad IH]; [reflexivity|].
  change (String.append (String x pad) s) with (String x (String.append pad s)).
  cbn [Py.lstrip]. destruct (Py.is_space x); [exact IH|discriminate].
Qed.

Lemma spaces_have_no_comma (pad : string) :
  Py.lstrip pad = EmptyString -> Py.contains "," pad = false.
Proof.
  induction pad as [|x pad IH]; [reflexivity|]. cbn [Py.lstrip Py.contains].
  destruct (Py.is_space x) eqn:Hx; [|discriminate]. intros Hpad.
  rewrite IH by assumption. rewrite orb_false_r. apply Ascii.eqb_neq. now intros <-.
Qed.

Lemma split_fields (pad pre : string) (symbols : list string) :
  Py.lstrip pad = EmptyString -> Py.lstrip pre = EmptyString ->
  symbols <> [] ->
  Forall (fun s => Py.contains "," s = false /\ Py.strip s = s) symbols ->
  map Py.strip
    (Py.split "," (String.append pre (String.concat (String "," pad) symbols)))
  = symbols.
Proof.
  intros Hpad. revert pre. induction symbols as [|x l IH]; intros pre Hpre Hne Hall;
    [congruence|].
  inversion Hall as [|? ? [Hx Hstrip] Hl]; subst.
  assert (Hfield : Py.contains "," (String.append pre x) = false).
  { now rewrite contains_app, spaces_have_no_comma, Hx. }
  assert (Hs : Py.strip (String.append pre x) = x).
  { unfold Py.strip. rewrite lstrip_spaces by assumption. exact Hstrip. }
  unfold Py.split. destruct l as [|y l].
  - cbn [String.concat]. rewrite <- (string_app_nil_r (String.append pre x)).
    rewrite split_aux_app by assumption.
    change (map Py.strip [String.append EmptyString (String.append pre x)] = [x]).
    change (String.append EmptyString (String.append pre x)) with (String.append pre x).
    cbn [map]. now rewrite Hs.
  - change (String.concat (String "," pad) (x :: y :: l))
      with (String.append x
              (String "," (String.append pad (String.concat (String "," pad) (y :: l))))).
    rewrite <- string_app_assoc, split_aux_app by assumption.
    change (String.append EmptyString (String.append pre x)) with (String.append pre x).
    cbn [Py.split_aux]. rewrite Ascii.eqb_refl. cbn [map].
    rewrite Hs. f_equal. apply (IH pad); [exact Hpad|discriminate|exact Hl].
Qed.

(** X20. The list of instruments survives the configuration file: when no
    symbol holds a comma or has white space at either end, writing the
    symbols one after the other, with a comma and any amount of white space
    between them, and reading that value back as [_run_inference_mode]
    does, by [split(',')] and [strip()], gives the same symbols in the
    same order. *)
Theorem X20_symbols_are_read_back (pad : string) (symbols : list string) :
  Py.lstrip pad = EmptyString ->
  symbols <> [] ->
  Forall (fun s => Py.contains "," s = false /\ Py.strip s = s) symbols ->
  map Py.strip (Py.split "," (String.concat (String "," pad) symbols)) = symbols.
Proof.
  intros Hpad Hne Hall.
  now apply (split_fields pad EmptyString symbols).
Qed.

Lemma X20_symbols_are_read_back_witness :
  Py.lstrip " " = EmptyString /\
  ["BTCUSDT"; "ETHUSDT"; "600519"]%string <> [] /\
  map Py.strip (Py.split "," "BTCUSDT, ETHUSDT, 600519")
  = ["BTCUSDT"; "ETHUSDT"; "600519"]%string.
Proof.
  assert (H1 : Py.lstrip " " = EmptyString) by reflexivity.
  assert (H2 : ["BTCUSDT"; "ETHUSDT"; "600519"]%string <> []) by discriminate.
  split; [exact H1|]. split; [exact H2|].
  apply (X20_symbols_are_read_back " " ["BTCUSDT"; "ETHUSDT"; "600519"]%string H1 H2).
  repeat constructor.
Defined.
